(** * ModelMind: dataset validation, preprocessing and label-safe training

    A shallow embedding of the training core of the ModelMind backend:

    - [app/utils/safe_label_encoding.py]  (module [SafeLabelEncoding])
    - [app/utils/data_validation.py]      (module [DataValidation])
    - [app/services/data_preprocessing.py](module [DataPreprocessing])
    - [app/services/training_service.py]  (module [TrainingService])

    Conventions of the embedding.

    - A Python exception is a value of [exn]; a function that may raise
      returns [result A].  Messages keep the static part of the f-string.
    - A pandas/numpy float is an exact rational ([Q]); the model carries no
      [inf].  Two places where the machine representation decides an
      answer are written out: [astype(int)] converts into [int64]
      ([astype_int]), and the size of a test partition is the ceiling of a
      product rounded in double precision ([n_test_within]).  A missing
      value (None / NaN) is [Null] in a column and [None] in a label vector.
    - What pandas, numpy and scikit-learn do to a value that this repository
      does not decide (parsing a string as a number or a date, printing a
      number, sorting a vector that holds nulls, splitting rows, fitting a
      ColumnTransformer, computing a score) is a field of a class ([Pandas],
      [Numpy], [Sklearn], [Metrics]): every theorem holds for every
      implementation of it. *)

From Stdlib Require Import String Ascii OrderedTypeEx DecimalString.
From Stdlib Require Import ZArith QArith Qabs Qround Bool Lia Lqa List Sorted.
Import ListNotations.

Open Scope string_scope.
Open Scope nat_scope.
Open Scope list_scope.

(** ** Exceptions *)

Inductive exn : Type :=
| ValueError (msg : string)
| TypeError (msg : string)
| KeyError (key : string)
| DataPreprocessingError (msg : string)
| ModelTrainingError (msg : string).

Inductive result (A : Type) : Type :=
| Ok (a : A)
| Raise (e : exn).

Arguments Ok {A} a.
Arguments Raise {A} e.

Definition bind {A B : Type} (r : result A) (k : A -> result B) : result B :=
  match r with
  | Ok a => k a
  | Raise e => Raise e
  end.

Notation "x <- r ;; k" := (bind r (fun x => k))
  (at level 61, r at next level, right associativity).

Definition is_ok {A : Type} (r : result A) : bool :=
  match r with Ok _ => true | Raise _ => false end.

(** ** Labels

    The values a label encoder sees: anything numpy can compare and sort.
    The order is the one [np.unique] sorts by. *)

Class Label (L : Type) : Type := {
  label_compare : L -> L -> comparison;
  label_compare_eq : forall x y, label_compare x y = Eq <-> x = y;
  label_compare_antisym : forall x y, label_compare x y = CompOpp (label_compare y x);
  label_compare_trans : forall x y z,
    label_compare x y = Lt -> label_compare y z = Lt -> label_compare x z = Lt
}.

Definition label_eqb {L} `{Label L} (x y : L) : bool :=
  match label_compare x y with Eq => true | _ => false end.

(** The strict order [np.unique] sorts by. *)
Definition label_lt {L} `{Label L} (x y : L) : Prop := label_compare x y = Lt.

Lemma Z_compare_lt_trans (x y z : Z) :
  (x ?= y)%Z = Lt -> (y ?= z)%Z = Lt -> (x ?= z)%Z = Lt.
Proof.
  rewrite !Z.compare_lt_iff. lia.
Qed.

Lemma string_compare_lt_trans (x y z : string) :
  (x ?= y)%string = Lt -> (y ?= z)%string = Lt -> (x ?= z)%string = Lt.
Proof.
  intros H1 H2.
  apply String_as_OT.cmp_lt in H1. apply String_as_OT.cmp_lt in H2.
  apply String_as_OT.cmp_lt. eapply String_as_OT.lt_trans; eassumption.
Qed.

#[export] Instance Label_Z : Label Z := {|
  label_compare := Z.compare;
  label_compare_eq := Z.compare_eq_iff;
  label_compare_antisym := fun x y => Z.compare_antisym y x;
  label_compare_trans := Z_compare_lt_trans
|}.

#[export] Instance Label_string : Label string := {|
  label_compare := String.compare;
  label_compare_eq := String_as_OT.cmp_eq;
  label_compare_antisym := String_as_OT.cmp_antisym;
  label_compare_trans := string_compare_lt_trans
|}.

(** ** numpy helpers on label vectors *)

Section Numpy.
Context {L : Type} `{Label L}.

(** One step of [np.unique]: insert into a sorted list without repeats. *)
Fixpoint insert_unique (x : L) (l : list L) : list L :=
  match l with
  | [] => [x]
  | y :: t =>
      match label_compare x y with
      | Eq => y :: t
      | Lt => x :: y :: t
      | Gt => y :: insert_unique x t
      end
  end.

(** [np.unique(a)]: the sorted distinct values. *)
Definition np_unique (a : list L) : list L :=
  fold_right insert_unique [] a.

(** The [counts] of [np.unique(a, return_counts=True)], given the uniques. *)
Definition np_counts (uniq a : list L) : list nat :=
  map (fun u => length (filter (label_eqb u) a)) uniq.

Fixpoint np_argmax_from (l : list nat) (i best_i best : nat) : nat :=
  match l with
  | [] => best_i
  | c :: t =>
      if best <? c then np_argmax_from t (S i) i c
      else np_argmax_from t (S i) best_i best
  end.

(** [np.argmax]: the first position of the maximum. *)
Definition np_argmax (l : list nat) : nat :=
  match l with
  | [] => 0
  | c :: t => np_argmax_from t 1 0 c
  end.

Fixpoint np_argmin_from (l : list nat) (i best_i best : nat) : nat :=
  match l with
  | [] => best_i
  | c :: t =>
      if c <? best then np_argmin_from t (S i) i c
      else np_argmin_from t (S i) best_i best
  end.

(** [np.argmin]: the first position of the minimum. *)
Definition np_argmin (l : list nat) : nat :=
  match l with
  | [] => 0
  | c :: t => np_argmin_from t 1 0 c
  end.

(** [label in classes] on a numpy array: some element compares equal. *)
Definition np_contains (classes : list L) (label : L) : bool :=
  existsb (label_eqb label) classes.

Fixpoint index_of (x : L) (l : list L) : option nat :=
  match l with
  | [] => None
  | y :: t =>
      if label_eqb x y then Some 0
      else match index_of x t with
           | Some i => Some (S i)
           | None => None
           end
  end.

(** sklearn's [LabelEncoder.transform([x])[0]]: the position of [x] in the
    fitted classes; a [ValueError] for a label that is not one of them. *)
Definition LabelEncoder_transform (classes : option (list L)) (x : L) : result Z :=
  match classes with
  | None => Raise (ValueError "This LabelEncoder instance is not fitted yet")
  | Some cl =>
      match index_of x cl with
      | Some i => Ok (Z.of_nat i)
      | None => Raise (ValueError "y contains previously unseen labels")
      end
  end.
End Numpy.

(** ** app/utils/safe_label_encoding.py *)

Module SafeLabelEncoding.
Section Encoder.
Context {L : Type} `{Label L}.

(** [mapping_stats_], the dict [fit] stores. *)
Record MappingStats : Type := {
  n_classes : nat;
  classes : list L;
  mode_class : option L;
  unseen_encountered : bool;
  unseen_count : nat;
  unseen_labels : list L
}.

(** The state of a [SafeLabelEncoder].  [encoder] is the wrapped sklearn
    [LabelEncoder], reduced to its [classes_] ([None] before [fit]). *)
Record SafeLabelEncoder : Type := {
  encoder : option (list L);
  handle_unknown : string;
  unknown_value : Z;
  classes_ : option (list L);
  mode_class_ : option L;
  unseen_labels_ : list L;
  mapping_stats_ : option MappingStats
}.

(** [SafeLabelEncoder.__init__] *)
Definition init (handle_unknown : string) (unknown_value : option Z) : SafeLabelEncoder :=
  {| encoder := None;
     handle_unknown := handle_unknown;
     unknown_value := match unknown_value with Some v => v | None => (-1)%Z end;
     classes_ := None;
     mode_class_ := None;
     unseen_labels_ := [];
     mapping_stats_ := None |}.

(** [y_array[~pd.isna(y_array)]] *)
Fixpoint dropna (y : list (option L)) : list L :=
  match y with
  | [] => []
  | Some l :: t => l :: dropna t
  | None :: t => dropna t
  end.

(** [SafeLabelEncoder.fit] *)
Definition fit (self : SafeLabelEncoder) (y : list (option L)) : result SafeLabelEncoder :=
  let y_clean := dropna y in
  if length y_clean =? 0 then
    Raise (ValueError "Cannot fit SafeLabelEncoder with all NaN values")
  else
    let fitted := np_unique y_clean in
    let unique := np_unique y_clean in
    let counts := np_counts unique y_clean in
    let mode := nth_error unique (np_argmax counts) in
    Ok {| encoder := Some fitted;
          handle_unknown := handle_unknown self;
          unknown_value := unknown_value self;
          classes_ := Some fitted;
          mode_class_ := mode;
          unseen_labels_ := unseen_labels_ self;
          mapping_stats_ := Some {| n_classes := length fitted;
                                    classes := fitted;
                                    mode_class := mode;
                                    unseen_encountered := false;
                                    unseen_count := 0;
                                    unseen_labels := [] |} |}.

(** The dict [transform] returns beside the encoded labels.
    [unseen_percentage] is [None] for numpy's NaN (an empty batch). *)
Record TransformStats : Type := {
  total_samples : nat;
  stat_unseen_count : nat;
  stat_unseen_labels : list L;
  unseen_percentage : option Q;
  strategy_used : string
}.

(** The body of the [for i, label in enumerate(y_array)] loop of
    [transform]: the value written to [encoded[i]], the bit written to
    [unseen_mask[i]] and the labels appended to [unseen_labels]. *)
Definition transform_label (self : SafeLabelEncoder) (cl : list L) (label : option L)
  : result (Z * bool * list L) :=
  match label with
  | None =>
      if (handle_unknown self =? "error")%string then
        Raise (ValueError "NaN value encountered at index")
      else Ok (unknown_value self, true, [])
  | Some label =>
      if negb (np_contains cl label) then
        if (handle_unknown self =? "error")%string then
          Raise (ValueError "Label not seen during training")
        else if (handle_unknown self =? "use_mode")%string then
          match mode_class_ self with
          | Some m =>
              v <- LabelEncoder_transform (encoder self) m ;;
              Ok (v, true, [label])
          | None => Raise (ValueError "y contains previously unseen labels")
          end
        else Ok (unknown_value self, true, [label])
      else
        v <- LabelEncoder_transform (encoder self) label ;;
        Ok (v, false, [])
  end.

(** The loop itself: elements are visited in order, the first raise ends it. *)
Fixpoint transform_loop (self : SafeLabelEncoder) (cl : list L) (y : list (option L))
  : result (list Z * list bool * list L) :=
  match y with
  | [] => Ok ([], [], [])
  | label :: rest =>
      r <- transform_label self cl label ;;
      let '(v, m, u) := r in
      rs <- transform_loop self cl rest ;;
      let '(encoded, unseen_mask, unseen) := rs in
      Ok (v :: encoded, m :: unseen_mask, u ++ unseen)
  end.

Definition mask_sum (mask : list bool) : nat := length (filter (fun b => b) mask).

(** [SafeLabelEncoder.transform]: the encoded labels, the per-call
    statistics, and the encoder with its running [unseen_labels_]. *)
Definition transform (self : SafeLabelEncoder) (y : list (option L))
  : result (list Z * TransformStats * SafeLabelEncoder) :=
  match classes_ self with
  | None => Raise (ValueError "SafeLabelEncoder must be fitted before transform")
  | Some cl =>
      rs <- transform_loop self cl y ;;
      let '(encoded, unseen_mask, unseen) := rs in
      let any := existsb (fun b => b) unseen_mask in
      let unique_unseen := np_unique unseen in
      let self' :=
        if any then
          {| encoder := encoder self;
             handle_unknown := handle_unknown self;
             unknown_value := unknown_value self;
             classes_ := classes_ self;
             mode_class_ := mode_class_ self;
             unseen_labels_ := unseen_labels_ self ++ unique_unseen;
             mapping_stats_ := mapping_stats_ self |}
        else self in
      let transform_stats :=
        {| total_samples := length y;
           stat_unseen_count := mask_sum unseen_mask;
           stat_unseen_labels := if any then unique_unseen else [];
           unseen_percentage :=
             if length y =? 0 then None
             else Some ((inject_Z (Z.of_nat (mask_sum unseen_mask))
                         / inject_Z (Z.of_nat (length y))) * 100)%Q;
           strategy_used := handle_unknown self |} in
      Ok (encoded, transform_stats, self')
  end.

(** [SafeLabelEncoder.fit_transform] *)
Definition fit_transform (self : SafeLabelEncoder) (y : list (option L))
  : result (list Z * TransformStats * SafeLabelEncoder) :=
  self' <- fit self y ;;
  transform self' y.

(** An element of the object array [inverse_transform] returns: a class
    of the vocabulary or one of the two placeholder strings. *)
Inductive Decoded : Type :=
| Class (l : L)
| UNKNOWN (unknown_value : Z)
| INVALID (encoded_val : Z).

(** The body of the loop of [inverse_transform]. *)
Definition inverse_label (self : SafeLabelEncoder) (encoded_val : Z) : result Decoded :=
  if (encoded_val =? unknown_value self)%Z then Ok (UNKNOWN (unknown_value self))
  else
    match classes_ self with
    | None => Raise (TypeError "object of type NoneType has no len()")
    | Some cl =>
        if ((encoded_val <? 0) || (encoded_val >=? Z.of_nat (length cl)))%Z then
          Ok (INVALID encoded_val)
        else
          match nth_error cl (Z.to_nat encoded_val) with
          | Some c => Ok (Class c)
          | None => Raise (ValueError "index out of bounds")
          end
    end.

(** [SafeLabelEncoder.inverse_transform] *)
Fixpoint inverse_transform (self : SafeLabelEncoder) (y : list Z) : result (list Decoded) :=
  match y with
  | [] => Ok []
  | encoded_val :: rest =>
      d <- inverse_label self encoded_val ;;
      ds <- inverse_transform self rest ;;
      Ok (d :: ds)
  end.

(** What [get_stats] adds to [mapping_stats_]. *)
Record EncoderInfo : Type := {
  info_mapping : option MappingStats;
  info_unseen_encountered : bool;
  total_unseen_labels : nat;
  all_unseen_labels : list L
}.

(** [SafeLabelEncoder.get_stats] *)
Definition get_stats (self : SafeLabelEncoder) : EncoderInfo :=
  {| info_mapping := mapping_stats_ self;
     info_unseen_encountered := 0 <? length (unseen_labels_ self);
     total_unseen_labels := length (unseen_labels_ self);
     all_unseen_labels := unseen_labels_ self |}.

Record CombinedStats : Type := {
  train : TransformStats;
  test : TransformStats;
  encoder_info : EncoderInfo
}.

(** What [safe_encode_labels] returns. *)
Record Encoded : Type := {
  y_train_encoded : list Z;
  y_test_encoded : list Z;
  fitted_encoder : SafeLabelEncoder;
  combined_stats : CombinedStats
}.

(** [safe_encode_labels] *)
Definition safe_encode_labels (y_train y_test : list (option L)) (handle_unknown : string)
  : result Encoded :=
  let encoder := init handle_unknown None in
  r1 <- fit_transform encoder y_train ;;
  let '(y_train_encoded, train_stats, encoder1) := r1 in
  r2 <- transform encoder1 y_test ;;
  let '(y_test_encoded, test_stats, encoder2) := r2 in
  Ok {| y_train_encoded := y_train_encoded;
        y_test_encoded := y_test_encoded;
        fitted_encoder := encoder2;
        combined_stats := {| train := train_stats;
                             test := test_stats;
                             encoder_info := get_stats encoder2 |} |}.

(** The entries of [issues] in the report of [validate_label_distribution]:
    classes with too few training samples (a warning, with the classes and
    their counts), test labels absent from training (an error, with up to
    ten of them; Python lists the set in no promised order, the model in
    sorted order), and a severe imbalance (a warning). *)
Inductive LabelIssue : Type :=
| sparse_classes (n : nat) (details : list (L * nat))
| unseen_test_labels (n : nat) (details : list L)
| class_imbalance (imbalance_ratio : Q) (max_class : L) (max_count : nat)
                  (min_class : L) (min_count : nat).

(** [issue['severity'] == 'error'] *)
Definition is_error (i : LabelIssue) : bool :=
  match i with
  | unseen_test_labels _ _ => true
  | _ => false
  end.

Record DistributionReport : Type := {
  valid : bool;
  issues : list LabelIssue;
  train_distribution : list (L * nat);
  test_distribution : list (L * nat);
  n_train_classes : nat;
  n_test_classes : nat
}.

(** [validate_label_distribution], on label vectors without nulls. *)
Definition validate_label_distribution (y_train y_test : list L)
    (min_samples_per_class : nat) : DistributionReport :=
  let train_unique := np_unique y_train in
  let train_counts := np_counts train_unique y_train in
  let test_unique := np_unique y_test in
  let test_counts := np_counts test_unique y_test in
  let sparse :=
    filter (fun kc => snd kc <? min_samples_per_class) (combine train_unique train_counts) in
  let issues1 :=
    if 0 <? length sparse then [sparse_classes (length sparse) sparse] else [] in
  let unseen_in_test := filter (fun l => negb (np_contains train_unique l)) test_unique in
  let issues2 :=
    if negb (length unseen_in_test =? 0)
    then [unseen_test_labels (length unseen_in_test) (firstn 10 unseen_in_test)]
    else [] in
  let issues3 :=
    if 1 <? length train_counts then
      let max_count := nth (np_argmax train_counts) train_counts 0 in
      let min_count := nth (np_argmin train_counts) train_counts 0 in
      let imbalance_ratio :=
        (inject_Z (Z.of_nat max_count) / inject_Z (Z.of_nat min_count))%Q in
      if negb (Qle_bool imbalance_ratio 50) then
        match nth_error train_unique (np_argmax train_counts),
              nth_error train_unique (np_argmin train_counts) with
        | Some max_class, Some min_class =>
            [class_imbalance imbalance_ratio max_class max_count min_class min_count]
        | _, _ => []
        end
      else []
    else [] in
  let issues := issues1 ++ issues2 ++ issues3 in
  {| valid := length (filter is_error issues) =? 0;
     issues := issues;
     train_distribution := combine train_unique train_counts;
     test_distribution := combine test_unique test_counts;
     n_train_classes := length train_unique;
     n_test_classes := length test_unique |}.
End Encoder.

Arguments SafeLabelEncoder L : clear implicits.
Arguments Decoded L : clear implicits.
Arguments Encoded L : clear implicits.
End SafeLabelEncoding.

(** ** pandas: cells, series and data frames *)

(** A value of a column: missing (None / NaN / NaT), a number, a string or
    a timestamp (nanoseconds). *)
Inductive cell : Type :=
| Null
| Num (q : Q)
| Str (s : string)
| Ts (ns : Z).

Record Series : Type := {
  dtype : string;
  values : list cell
}.

(** A data frame: the length of its index and its named columns in order. *)
Record DataFrame : Type := {
  index_len : nat;
  columns : list (string * Series)
}.

(** What pandas decides on its own. *)
Class Pandas : Type := {
  (** [pd.to_numeric] of one string: [None] where [errors='coerce'] gives NaN *)
  str_to_numeric : string -> option Q;
  (** [pd.to_datetime(values, errors='raise')] does not raise *)
  datetime_parses : list cell -> bool;
  (** [pd.to_datetime] of one value: [None] where [errors='coerce'] gives NaT *)
  to_datetime_cell : cell -> option Z;
  (** [str(x)] as [astype(str)] applies it, [Null] included *)
  cell_str : cell -> string
}.

Definition Qltb (a b : Q) : bool := negb (Qle_bool b a).

Definition Qnat (n : nat) : Q := inject_Z (Z.of_nat n).

Definition isna (c : cell) : bool :=
  match c with Null => true | _ => false end.

Definition notna (c : cell) : bool := negb (isna c).

(** [==] on two non-missing values. *)
Definition cell_eqb (a b : cell) : bool :=
  match a, b with
  | Num x, Num y => Qeq_bool x y
  | Str x, Str y => String.eqb x y
  | Ts x, Ts y => Z.eqb x y
  | _, _ => false
  end.

(** The distinct values of a list, one representative each. *)
Fixpoint distinct {A : Type} (eqb : A -> A -> bool) (l : list A) : list A :=
  match l with
  | [] => []
  | x :: t => if existsb (eqb x) t then distinct eqb t else x :: distinct eqb t
  end.

(** [values.dropna()] *)
Definition cells_dropna (l : list cell) : list cell := filter notna l.

(** [Series.nunique()]: the number of distinct non-missing values. *)
Definition cells_nunique (l : list cell) : nat :=
  length (distinct cell_eqb (cells_dropna l)).

Definition Series_dropna (s : Series) : Series :=
  {| dtype := dtype s; values := cells_dropna (values s) |}.

Definition Series_len (s : Series) : nat := length (values s).

Definition Series_nunique (s : Series) : nat := cells_nunique (values s).

(** [series.isna().sum()] *)
Definition null_count_of (s : Series) : nat := length (filter isna (values s)).

Fixpoint dropnone {A : Type} (l : list (option A)) : list A :=
  match l with
  | [] => []
  | Some a :: t => a :: dropnone t
  | None :: t => dropnone t
  end.

(** [numeric.nunique()] on converted values. *)
Definition Q_nunique (l : list Q) : nat := length (distinct Qeq_bool l).

(** The range of numpy's [int64], the type [astype(int)] converts to. *)
Definition int64_min : Z := (-9223372036854775808)%Z.

Definition int64_max : Z := 9223372036854775807%Z.

(** [astype(int)] on a float: truncation toward zero into [int64].  A value
    whose truncation is outside [int64] is not representable: numpy's cast
    then gives what the machine's conversion gives, on x86-64 the least
    [int64] (with a RuntimeWarning), so such a value is never close to
    its [astype(int)]. *)
Definition astype_int (q : Q) : Z :=
  let z := Z.quot (Qnum q) (Zpos (Qden q)) in
  if (int64_min <=? z)%Z && (int64_max >=? z)%Z then z else int64_min.

(** [np.isclose(a, b)] with numpy's defaults [rtol=1e-05], [atol=1e-08]. *)
Definition isclose (a b : Q) : bool :=
  Qle_bool (Qabs (a - b)) ((1 # 100000000) + (1 # 100000) * Qabs b)%Q.

(** [np.allclose(x, x.astype(int))] *)
Definition allclose_int (l : list Q) : bool :=
  forallb (fun q => isclose q (inject_Z (astype_int q))) l.

(** A number with no fractional part that [int64] holds: it is equal to
    its [astype(int)]. *)
Definition integral (q : Q) : Prop := (q == inject_Z (astype_int q))%Q.

Section PandasOps.
Context `{Pandas}.

(** [pd.to_numeric(x, errors='coerce')] on one value. *)
Definition to_numeric (c : cell) : option Q :=
  match c with
  | Null => None
  | Num q => Some q
  | Str s => str_to_numeric s
  | Ts ns => Some (inject_Z ns)
  end.

(** [pd.to_numeric(values, errors='coerce').dropna()] *)
Definition to_numeric_dropna (l : list cell) : list Q :=
  dropnone (map to_numeric l).

Definition numeric_cell (c : cell) : cell :=
  match to_numeric c with Some q => Num q | None => Null end.

(** The dtype pandas gives a converted numeric column. *)
Definition numeric_dtype (l : list cell) : string :=
  if forallb (fun c => match to_numeric c with
                       | Some q => Qeq_bool q (inject_Z (astype_int q))
                       | None => false
                       end) l
  then "int64" else "float64".

(** [pd.to_numeric(series, errors='coerce')] as a column. *)
Definition Series_to_numeric (s : Series) : Series :=
  {| dtype := numeric_dtype (values s); values := map numeric_cell (values s) |}.

(** [pd.to_datetime(series, errors='coerce')] *)
Definition Series_to_datetime (s : Series) : Series :=
  {| dtype := "datetime64[ns]";
     values := map (fun c => match to_datetime_cell c with
                             | Some ns => Ts ns
                             | None => Null
                             end) (values s) |}.

(** [series.astype(str)]: every value becomes a string, missing ones too. *)
Definition Series_astype_str (s : Series) : Series :=
  {| dtype := "object"; values := map (fun c => Str (cell_str c)) (values s) |}.
End PandasOps.

(** *** Data-frame operations *)

Fixpoint lookup {A : Type} (k : string) (l : list (string * A)) : option A :=
  match l with
  | [] => None
  | (k', v) :: t => if String.eqb k k' then Some v else lookup k t
  end.

Definition column_names (df : DataFrame) : list string := map fst (columns df).

(** [col in df.columns] *)
Definition has_column (df : DataFrame) (col : string) : bool :=
  existsb (String.eqb col) (column_names df).

(** [df.empty]: no rows or no columns. *)
Definition df_empty (df : DataFrame) : bool :=
  (index_len df =? 0) || (length (columns df) =? 0).

(** [df.drop(columns=[col])] *)
Definition drop_column (df : DataFrame) (col : string) : DataFrame :=
  {| index_len := index_len df;
     columns := filter (fun kv => negb (String.eqb col (fst kv))) (columns df) |}.

(** [df[col] = s] for a column that exists: replaced in place. *)
Definition set_column (df : DataFrame) (col : string) (s : Series) : DataFrame :=
  {| index_len := index_len df;
     columns := map (fun kv => if String.eqb col (fst kv) then (fst kv, s) else kv)
                    (columns df) |}.

Fixpoint keep_where {A : Type} (keep : list bool) (l : list A) : list A :=
  match keep, l with
  | true :: k, x :: t => x :: keep_where k t
  | false :: k, _ :: t => keep_where k t
  | _, _ => []
  end.

(** [df[mask].reset_index(drop=True)] *)
Definition select_rows (df : DataFrame) (keep : list bool) : DataFrame :=
  {| index_len := length (filter (fun b => b) keep);
     columns := map (fun kv => (fst kv, {| dtype := dtype (snd kv);
                                           values := keep_where keep (values (snd kv)) |}))
                    (columns df) |}.

(** [target_col] used as a condition: [None] and the empty string are false. *)
Definition truthy (s : option string) : bool :=
  match s with
  | Some s => negb (String.eqb s "")
  | None => false
  end.

Definition is_target (target_col : option string) (col : string) : bool :=
  match target_col with
  | Some t => String.eqb col t
  | None => false
  end.

Inductive ProblemType : Type := classification | regression.

(** ** app/utils/data_validation.py *)

Module DataValidation.

(** [ColumnHealth.inferred_type] *)
Inductive InferredType : Type := numeric | categorical | datetime | text | invalid.

(** [ColumnHealth.recommended_action] *)
Inductive Action : Type := keep | drop | coerce.

(** The entries of [ColumnHealth.issues] (formatted strings in the source). *)
Inductive Issue : Type :=
| NullValues (null_pct : Q)
| ZeroVariance (unique_count : nat)
| VeryHighCardinality (unique_count : nat)
| MixedTypes.

Record ColumnHealth : Type := {
  name : string;
  original_dtype : string;
  inferred_type : InferredType;
  null_count : nat;
  null_percentage : Q;
  unique_count : nat;
  cardinality_ratio : Q;
  has_mixed_types : bool;
  sample_values : list cell;
  issues : list Issue;
  recommended_action : Action;
  coerce_to_dtype : option string
}.

(** The entries of [DatasetHealthReport.overall_issues]. *)
Inductive Warning : Type :=
| ColumnsDropped (n : nat)
| RowsRemoved (n : nat).

Record DatasetHealthReport : Type := {
  total_rows : nat;
  total_columns : nat;
  valid_columns : list string;
  dropped_columns : list string;
  coerced_columns : list string;
  column_reports : list (string * ColumnHealth);
  target_column_health : option ColumnHealth;
  overall_issues : list Warning;
  is_valid : bool;
  recommended_problem_type : option ProblemType
}.

(** [DataValidator.__init__] *)
Record DataValidator : Type := {
  max_cardinality_ratio : Q;
  min_valid_rows_ratio : Q;
  max_null_ratio : Q;
  min_unique_for_regression : nat
}.

(** [DataValidator()] with the defaults of the constructor. *)
Definition default : DataValidator :=
  {| max_cardinality_ratio := 95 # 100;
     min_valid_rows_ratio := 1 # 10;
     max_null_ratio := 95 # 100;
     min_unique_for_regression := 10 |}.

Section Validator.
Context `{Pandas}.
Variable self : DataValidator.

(** [_infer_column_type]: (inferred_type, has_mixed_types, coerce_to_dtype). *)
Definition _infer_column_type (series : Series) : InferredType * bool * option string :=
  if Series_len series =? 0 then (invalid, false, None)
  else
    let non_null_numeric := to_numeric_dropna (values series) in
    let conversion_rate := (Qnat (length non_null_numeric) / Qnat (Series_len series))%Q in
    if Qltb (8 # 10) conversion_rate then
      let has_mixed := Qltb conversion_rate 1 in
      if allclose_int non_null_numeric then (numeric, has_mixed, Some "int64")
      else (numeric, has_mixed, Some "float64")
    else if datetime_parses (values series) then
      (datetime, false, Some "datetime64[ns]")
    else
      let unique_ratio := (Qnat (Series_nunique series) / Qnat (Series_len series))%Q in
      if Qltb unique_ratio (5 # 10) || (Series_nunique series <? 50) then
        (categorical, false, Some "object")
      else (text, false, Some "object").

(** [null_pct] of [_analyze_column]. *)
Definition null_pct_of (series : Series) : Q :=
  let n_total := Series_len series in
  if 0 <? n_total then ((Qnat (null_count_of series) / Qnat n_total) * 100)%Q
  else 100%Q.

(** [_analyze_column] *)
Definition _analyze_column (series : Series) (col_name : string) : ColumnHealth :=
  let null_count := null_count_of series in
  let null_pct := null_pct_of series in
  let non_null := Series_dropna series in
  let unique_count := if 0 <? Series_len non_null then Series_nunique non_null else 0 in
  let cardinality_ratio :=
    if 0 <? Series_len non_null then (Qnat unique_count / Qnat (Series_len non_null))%Q
    else 0%Q in
  let sample_values := if 0 <? Series_len non_null then firstn 5 (values non_null) else [] in
  if Qle_bool (max_null_ratio self * 100) null_pct then
    {| name := col_name;
       original_dtype := dtype series;
       inferred_type := invalid;
       null_count := null_count;
       null_percentage := null_pct;
       unique_count := unique_count;
       cardinality_ratio := cardinality_ratio;
       has_mixed_types := false;
       sample_values := sample_values;
       issues := [NullValues null_pct];
       recommended_action := drop;
       coerce_to_dtype := None |}
  else
    let '(inferred_type, has_mixed, coerce_to) := _infer_column_type non_null in
    let issues :=
      (if (unique_count <=? 1) && (0 <? Series_len non_null)
       then [ZeroVariance unique_count] else [])
      ++ (if match inferred_type with categorical => true | _ => false end
             && Qltb (max_cardinality_ratio self) cardinality_ratio
          then [VeryHighCardinality unique_count] else [])
      ++ (if has_mixed then [MixedTypes] else []) in
    let recommended_action :=
      if Qle_bool (max_null_ratio self * 100) null_pct || (unique_count <=? 1) then drop
      else match coerce_to with
           | Some d => if negb (String.eqb d (dtype series)) then coerce else keep
           | None => keep
           end in
    {| name := col_name;
       original_dtype := dtype series;
       inferred_type := inferred_type;
       null_count := null_count;
       null_percentage := null_pct;
       unique_count := unique_count;
       cardinality_ratio := cardinality_ratio;
       has_mixed_types := has_mixed;
       sample_values := sample_values;
       issues := issues;
       recommended_action := recommended_action;
       coerce_to_dtype := coerce_to |}.

(** [_coerce_column] *)
Definition _coerce_column (series : Series) (target_dtype : option string) : Series :=
  match target_dtype with
  | Some d =>
      if String.eqb d "int64" || String.eqb d "float64" then Series_to_numeric series
      else if String.eqb d "datetime64[ns]" then Series_to_datetime series
      else if String.eqb d "object" then Series_astype_str series
      else series
  | None => series
  end.

Definition with_type (h : ColumnHealth) (t : InferredType) (c : option string) : ColumnHealth :=
  {| name := name h;
     original_dtype := original_dtype h;
     inferred_type := t;
     null_count := null_count h;
     null_percentage := null_percentage h;
     unique_count := unique_count h;
     cardinality_ratio := cardinality_ratio h;
     has_mixed_types := has_mixed_types h;
     sample_values := sample_values h;
     issues := issues h;
     recommended_action := recommended_action h;
     coerce_to_dtype := c |}.

(** [_clean_target_column]: [target] is [df[target_col]]. *)
Definition _clean_target_column (df : DataFrame) (target_col : string) (target : Series)
    (target_health : ColumnHealth) (problem_type : option ProblemType)
  : DataFrame * ColumnHealth :=
  match problem_type with
  | Some regression =>
      match inferred_type target_health with
      | numeric => (df, target_health)
      | _ => (set_column df target_col (Series_to_numeric target),
              with_type target_health numeric (Some "float64"))
      end
  | Some classification =>
      match inferred_type target_health with
      | numeric =>
          let unique_count := Series_nunique target in
          if unique_count <? 20 then
            (set_column df target_col (Series_astype_str target),
             with_type target_health categorical (coerce_to_dtype target_health))
          else (df, target_health)
      | _ => (df, target_health)
      end
  | None => (df, target_health)
  end.

(** [_infer_problem_type] *)
Definition _infer_problem_type (series : Series) (health : ColumnHealth) : ProblemType :=
  let non_null := Series_dropna series in
  if Series_len non_null =? 0 then classification
  else
    let unique_count := unique_count health in
    let n_samples := Series_len non_null in
    match inferred_type health with
    | categorical | text => classification
    | numeric =>
        let numeric_vals := to_numeric_dropna (values non_null) in
        let is_all_integers := allclose_int numeric_vals in
        if (unique_count <? min_unique_for_regression self) && is_all_integers then
          classification
        else
          let cardinality_ratio := (Qnat unique_count / Qnat n_samples)%Q in
          if Qltb cardinality_ratio (5 # 100) then classification
          else regression
    | _ => classification
    end.

(** Step 3 of [validate_and_clean]: one turn of the loop over
    [column_reports.items()], on (cleaned_df, dropped_cols, coerced_cols). *)
Definition clean_step (target_col : option string)
    (st : DataFrame * list string * list string) (entry : string * ColumnHealth)
  : DataFrame * list string * list string :=
  let '(cleaned_df, dropped_cols, coerced_cols) := st in
  let '(col_name, health) := entry in
  if is_target target_col col_name then st
  else
    match recommended_action health with
    | drop => (drop_column cleaned_df col_name, dropped_cols ++ [col_name], coerced_cols)
    | coerce =>
        match lookup col_name (columns cleaned_df) with
        | Some s =>
            (set_column cleaned_df col_name (_coerce_column s (coerce_to_dtype health)),
             dropped_cols, coerced_cols ++ [col_name])
        | None => st
        end
    | keep => st
    end.

(** Step 5 of [validate_and_clean]: rows with a null target are removed. *)
Definition remove_null_targets (cleaned_df : DataFrame) (target : Series) : DataFrame :=
  let null_target_mask := map isna (values target) in
  if existsb (fun b => b) null_target_mask then
    select_rows cleaned_df (map negb null_target_mask)
  else cleaned_df.

(** Step 1 of [validate_and_clean]: [column_reports]. *)
Definition analyze_columns (df : DataFrame) : list (string * ColumnHealth) :=
  map (fun kv => (fst kv, _analyze_column (snd kv) (fst kv))) (columns df).

(** Step 2: [target_health] and [recommended_problem_type]. *)
Definition analyze_target (df : DataFrame) (target_col : option string)
    (column_reports : list (string * ColumnHealth))
  : result (option ColumnHealth * option ProblemType) :=
  match target_col with
  | Some t =>
      if truthy target_col then
        if negb (has_column df t) then
          Raise (ValueError "Target column not found in dataset")
        else
          match lookup t column_reports, lookup t (columns df) with
          | Some target_health, Some s =>
              Ok (Some target_health, Some (_infer_problem_type s target_health))
          | _, _ => Raise (KeyError t)
          end
      else Ok (None, None)
  | None => Ok (None, None)
  end.

(** Step 3: the loop over [column_reports.items()]. *)
Definition clean_columns (df : DataFrame) (target_col : option string)
    (column_reports : list (string * ColumnHealth))
  : DataFrame * list string * list string :=
  fold_left (clean_step target_col) column_reports (df, [], []).

(** Step 4: the target column is cleaned for the problem type; the health
    record it mutates is the one [column_reports] holds. *)
Definition clean_target (cleaned_df : DataFrame) (target_col : option string)
    (target_health : option ColumnHealth) (problem_type : option ProblemType)
    (column_reports : list (string * ColumnHealth))
  : DataFrame * option ColumnHealth * list (string * ColumnHealth) :=
  match target_col, target_health with
  | Some t, Some h =>
      if truthy target_col && has_column cleaned_df t then
        match lookup t (columns cleaned_df) with
        | Some s =>
            let '(d, h') := _clean_target_column cleaned_df t s h problem_type in
            (d, Some h',
             map (fun kv => if String.eqb t (fst kv) then (fst kv, h') else kv)
                 column_reports)
        | None => (cleaned_df, target_health, column_reports)
        end
      else (cleaned_df, target_health, column_reports)
  | _, _ => (cleaned_df, target_health, column_reports)
  end.

(** Step 5: rows with a null target are removed. *)
Definition drop_null_target_rows (cleaned_df : DataFrame) (target_col : option string)
  : DataFrame :=
  match target_col with
  | Some t =>
      if truthy target_col then
        match lookup t (columns cleaned_df) with
        | Some s => remove_null_targets cleaned_df s
        | None => cleaned_df
        end
      else cleaned_df
  | None => cleaned_df
  end.

(** Step 6: the feature columns of the cleaned table. *)
Definition feature_columns (cleaned_df : DataFrame) (target_col : option string)
  : list string :=
  filter (fun c => negb (is_target target_col c)) (column_names cleaned_df).

(** [validate_and_clean]; [df = None] is Python's [None]. *)
Definition validate_and_clean (df : option DataFrame) (target_col : option string)
  : result (DataFrame * DatasetHealthReport) :=
  match df with
  | None => Raise (ValueError "Dataset is empty or None")
  | Some df =>
  if df_empty df then Raise (ValueError "Dataset is empty or None")
  else
    let column_reports := analyze_columns df in
    r2 <- analyze_target df target_col column_reports ;;
    let '(target_health, recommended_problem_type) := r2 in
    let '(cleaned_df, dropped_cols, coerced_cols) :=
      clean_columns df target_col column_reports in
    let '(cleaned_df, target_health, column_reports) :=
      clean_target cleaned_df target_col target_health recommended_problem_type
                   column_reports in
    let cleaned_df := drop_null_target_rows cleaned_df target_col in
    let valid_columns := feature_columns cleaned_df target_col in
    if length valid_columns =? 0 then
      Raise (ValueError "No valid feature columns remain after cleaning")
    else if truthy target_col && (index_len cleaned_df <? 10) then
      Raise (ValueError "Only a few valid rows remain - insufficient for training")
    else
      let overall_issues :=
        (if Qltb (Qnat (length (columns df)) * (5 # 10)) (Qnat (length dropped_cols))
         then [ColumnsDropped (length dropped_cols)] else [])
        ++ (if Qltb (Qnat (index_len cleaned_df)) (Qnat (index_len df) * (5 # 10))
            then [RowsRemoved (index_len df - index_len cleaned_df)] else []) in
      Ok (cleaned_df,
          {| total_rows := index_len cleaned_df;
             total_columns := length (columns cleaned_df);
             valid_columns := valid_columns;
             dropped_columns := dropped_cols;
             coerced_columns := coerced_cols;
             column_reports := column_reports;
             target_column_health := target_health;
             overall_issues := overall_issues;
             is_valid := true;
             recommended_problem_type := recommended_problem_type |})
  end.

(** The table steps 1 to 5 leave: what step 6 validates ([None] when the
    target analysis of step 2 raised). *)
Definition cleaned_table (df : DataFrame) (target_col : option string) : option DataFrame :=
  let column_reports := analyze_columns df in
  match analyze_target df target_col column_reports with
  | Raise _ => None
  | Ok (target_health, recommended_problem_type) =>
      let '(cleaned_df, _, _) := clean_columns df target_col column_reports in
      let '(cleaned_df, _, _) :=
        clean_target cleaned_df target_col target_health recommended_problem_type
                     column_reports in
      Some (drop_null_target_rows cleaned_df target_col)
  end.
End Validator.
End DataValidation.

(** ** scikit-learn *)

(** The sub-pipelines [build_pipeline] assembles. *)
Inductive TransformerKind : Type :=
| MedianImputeStandardScale
| ConstantImputeOneHot (max_categories : nat)
| ConstantImputeTargetEncode.

(** An unfitted [ColumnTransformer]: (name, sub-pipeline, columns) in order. *)
Definition ColumnTransformer : Type := list (string * TransformerKind * list string).

(** A bound on the relative rounding error of a few double-precision
    operations (2^-50; one operation is within 2^-53). *)
Definition float_eps : Q := 1 # 1125899906842624.

(** [n_test] can be the size of the test partition.  scikit-learn takes
    [ceil(test_size * n_samples)] of the product computed in double
    precision, so the size is the ceiling of a number within rounding
    distance of the exact product, not always the ceiling of the exact
    product. *)
Definition n_test_within (n_samples : nat) (test_size : Q) (n_test : Z) : Prop :=
  exists x : Q,
    (Qabs (x - test_size * Qnat n_samples)
     <= float_eps * Qabs (test_size * Qnat n_samples))%Q /\
    n_test = Qceiling x.

(** What scikit-learn decides on its own.  [transform] returns a matrix and
    no new state: a fitted transformer is not changed by transforming.
    The two laws are the size rules of [train_test_split] for a float
    [test_size] with [train_size=None]: the test partition has
    [ceil(test_size * n_samples)] rows, the product taken in double
    precision ([n_test_within]), and the training partition the rest; the
    call fails only with a [ValueError]; and without [stratify] it succeeds
    on a table and a label column of one length whenever [0 < test_size < 1]
    and every size the rounding allows leaves a training row. *)
Class Sklearn : Type := {
  Fitted : Type;
  Matrix : Type;
  fit_transform : ColumnTransformer -> DataFrame -> Series -> result (Fitted * Matrix);
  transform : Fitted -> DataFrame -> result Matrix;
  get_feature_names_out : Fitted -> list string;
  n_features_of : Matrix -> nat;
  train_test_split :
    DataFrame -> Series -> Q -> Z -> option Series ->
    result (DataFrame * DataFrame * Series * Series);
  train_test_split_sizes : forall X y test_size random_state stratify,
    match train_test_split X y test_size random_state stratify with
    | Ok (X_train, X_test, y_train, y_test) =>
        n_test_within (index_len X) test_size (Z.of_nat (index_len X_test)) /\
        index_len X_train + index_len X_test = index_len X /\
        Series_len y_train = index_len X_train /\
        Series_len y_test = index_len X_test
    | Raise (ValueError _) => True
    | Raise _ => False
    end;
  train_test_split_ok : forall X y test_size random_state,
    Series_len y = index_len X ->
    (0 < test_size)%Q -> (test_size < 1)%Q ->
    (forall n_test, n_test_within (index_len X) test_size n_test ->
                    (n_test < Z.of_nat (index_len X))%Z) ->
    is_ok (train_test_split X y test_size random_state None) = true
}.

(** ** app/services/data_preprocessing.py *)

Module DataPreprocessing.

(** The feature groups [build_pipeline] sorts the columns into. *)
Record Routing : Type := {
  numeric_features : list string;
  low_cardinality_cats : list string;
  high_cardinality_cats : list string
}.

(** The state of a [DataPreprocessing] object; [preprocessor] is the
    (unfitted) transformer [build_pipeline] stored. *)
Record State : Type := {
  preprocessor : option ColumnTransformer;
  feature_names : option (list string);
  removed_features : list string;
  validator : DataValidation.DataValidator
}.

(** [DataPreprocessing.__init__] *)
Definition init : State :=
  {| preprocessor := None;
     feature_names := None;
     removed_features := [];
     validator := DataValidation.default |}.

(** The [metadata] dict of [preprocess_data]. *)
Record Metadata : Type := {
  original_features : list string;
  n_original_features : Z;
  n_processed_features : nat;
  meta_removed_features : list string;
  train_samples : nat;
  test_samples : nat;
  problem_type : ProblemType;
  target_column : string;
  test_size : Q;
  validation_dropped_columns : list string;
  validation_coerced_columns : list string;
  validation_overall_issues : list DataValidation.Warning
}.

Section Preprocessing.
Context `{Pandas} `{Sklearn}.

Definition column (X : DataFrame) (col : string) : Series :=
  match lookup col (columns X) with
  | Some s => s
  | None => {| dtype := "object"; values := [] |}
  end.

(** The first loop of [build_pipeline], one column: numeric, categorical or
    removed (all null), on (numeric_features, categorical_features, removed). *)
Definition classify_step (X : DataFrame)
    (st : list string * list string * list string) (col : string)
  : list string * list string * list string :=
  let '(numeric_features, categorical_features, removed) := st in
  let col_data := Series_dropna (column X col) in
  if Series_len col_data =? 0 then
    (numeric_features, categorical_features, removed ++ [col])
  else
    let numeric_converted := to_numeric_dropna (values col_data) in
    let conversion_rate :=
      (Qnat (length numeric_converted) / Qnat (Series_len col_data))%Q in
    if Qltb (8 # 10) conversion_rate then
      (numeric_features ++ [col], categorical_features, removed)
    else (numeric_features, categorical_features ++ [col], removed).

Definition Qsum (l : list Q) : Q := fold_right Qplus 0%Q l.

(** [DataFrame.var()] of one column: the sample variance of its non-missing
    numbers, [None] (NaN) with fewer than two of them. *)
Definition variance (l : list Q) : option Q :=
  let n := length l in
  if n <? 2 then None
  else
    let mean := (Qsum l / Qnat n)%Q in
    Some (Qsum (map (fun x => (x - mean) * (x - mean))%Q l) / Qnat (n - 1))%Q.

(** [numeric_variances <= variance_threshold] for one column. *)
Definition low_variance (X : DataFrame) (variance_threshold : Q) (col : string) : bool :=
  match variance (to_numeric_dropna (values (column X col))) with
  | Some v => Qle_bool v variance_threshold
  | None => false
  end.

(** The last loop of [build_pipeline], one categorical column, on
    (high_cardinality_cats, low_cardinality_cats, removed). *)
Definition cardinality_step (X : DataFrame)
    (st : list string * list string * list string) (col : string)
  : list string * list string * list string :=
  let '(high_cardinality_cats, low_cardinality_cats, removed) := st in
  let n_unique := Series_nunique (column X col) in
  let n_samples := Series_len (Series_dropna (column X col)) in
  if (1000 <? n_unique) || (n_unique =? n_samples) then
    (high_cardinality_cats, low_cardinality_cats, removed ++ [col])
  else if (50 <? n_unique) || Qltb (5 # 10) (Qnat n_unique / Qnat n_samples) then
    (high_cardinality_cats ++ [col], low_cardinality_cats, removed)
  else (high_cardinality_cats, low_cardinality_cats ++ [col], removed).

(** The first loop: (numeric_features, categorical_features, removed). *)
Definition classify_features (X : DataFrame) : list string * list string * list string :=
  fold_left (classify_step X) (column_names X) ([], [], []).

(** The variance filter: the numeric features kept and those removed. *)
Definition drop_low_variance (X : DataFrame) (variance_threshold : Q)
    (numeric_features : list string) : list string * list string :=
  if Qltb 0 variance_threshold && negb (length numeric_features =? 0) then
    let low_variance_cols := filter (low_variance X variance_threshold) numeric_features in
    if negb (length low_variance_cols =? 0) then
      (filter (fun col => negb (existsb (String.eqb col) low_variance_cols))
              numeric_features,
       low_variance_cols)
    else (numeric_features, [])
  else (numeric_features, []).

(** The last loop: (high_cardinality_cats, low_cardinality_cats, removed). *)
Definition split_by_cardinality (X : DataFrame) (categorical_features : list string)
  : list string * list string * list string :=
  fold_left (cardinality_step X) categorical_features ([], [], []).

(** The column routing of [build_pipeline], with the columns it removed. *)
Definition route_features (X : DataFrame) (variance_threshold : Q)
  : Routing * list string :=
  let '(numeric_features, categorical_features, removed1) := classify_features X in
  let '(numeric_features, removed2) :=
    drop_low_variance X variance_threshold numeric_features in
  let '(high_cardinality_cats, low_cardinality_cats, removed3) :=
    split_by_cardinality X categorical_features in
  ({| numeric_features := numeric_features;
      low_cardinality_cats := low_cardinality_cats;
      high_cardinality_cats := high_cardinality_cats |},
   removed1 ++ removed2 ++ removed3).

(** The [transformers] list of [build_pipeline]. *)
Definition transformers_of (r : Routing) (use_target_encoder : bool) : ColumnTransformer :=
  (if negb (length (numeric_features r) =? 0)
   then [("num", MedianImputeStandardScale, numeric_features r)] else [])
  ++ (if negb (length (low_cardinality_cats r) =? 0)
      then [("cat_low", ConstantImputeOneHot 100, low_cardinality_cats r)] else [])
  ++ (if negb (length (high_cardinality_cats r) =? 0)
      then [("cat_high",
             if use_target_encoder then ConstantImputeTargetEncode
             else ConstantImputeOneHot 50,
             high_cardinality_cats r)] else []).

(** [build_pipeline]: the unfitted transformer and the object's new state. *)
Definition build_pipeline (self : State) (X : DataFrame) (use_target_encoder : bool)
    (variance_threshold : Q) : result (ColumnTransformer * State) :=
  let '(routing, removed) := route_features X variance_threshold in
  let removed_features := removed_features self ++ removed in
  let transformers := transformers_of routing use_target_encoder in
  if length transformers =? 0 then
    Raise (DataPreprocessingError "No valid features found for preprocessing")
  else
    Ok (transformers,
        {| preprocessor := Some transformers;
           feature_names := feature_names self;
           removed_features := removed_features;
           validator := validator self |}).

(** [_detect_problem_type] *)
Definition _detect_problem_type (y : Series) : ProblemType :=
  let y_clean := Series_dropna y in
  if Series_len y_clean =? 0 then classification
  else
    let y_numeric := to_numeric_dropna (values y_clean) in
    let numeric_ratio := (Qnat (length y_numeric) / Qnat (Series_len y_clean))%Q in
    if Qltb numeric_ratio (8 # 10) then classification
    else
      let n_unique := Q_nunique y_numeric in
      let is_integer := allclose_int y_numeric in
      if is_integer && (n_unique <? 20) then classification
      else if Qltb (Qnat n_unique / Qnat (Series_len y_clean)) (5 # 100) then classification
      else regression.

Definition Qmax (a b : Q) : Q := if Qle_bool a b then b else a.

(** Step 4 of [preprocess_data], the test size: raised when the requested
    share would leave fewer than [min_test_samples] test rows. *)
Definition adjust_test_size (n_rows : nat) (test_size : Q) : Q :=
  let min_test_samples := 5%Q in
  if Qltb (Qnat n_rows * test_size) min_test_samples then
    Qmax (min_test_samples / Qnat n_rows) (1 # 10)
  else test_size.

(** Step 4 of [preprocess_data], the split: stratified for a classification
    target of fewer than 20 classes, and tried again without stratification
    when that raises a [ValueError]. *)
Definition split_dataset (X : DataFrame) (y : Series) (problem_type : ProblemType)
    (test_size : Q) (random_state : Z)
  : result (DataFrame * DataFrame * Series * Series) :=
  let test_size := adjust_test_size (index_len X) test_size in
  let stratify :=
    match problem_type with
    | classification => if Series_nunique y <? 20 then Some y else None
    | regression => None
    end in
  match train_test_split X y test_size random_state stratify with
  | Raise (ValueError _) => train_test_split X y test_size random_state None
  | r => r
  end.

(** Steps 5 and 6 of [preprocess_data]: the pipeline is built from and fit
    on the training partition, then applied to the test partition. *)
Definition fit_on_train (self : State) (X_train : DataFrame) (y_train : Series)
    (X_test : DataFrame) (use_target_encoder : bool) (variance_threshold : Q)
  : result (Matrix * Matrix * Fitted * State) :=
  b <- build_pipeline self X_train use_target_encoder variance_threshold ;;
  let '(preprocessor, self) := b in
  match fit_transform preprocessor X_train y_train with
  | Raise _ => Raise (DataPreprocessingError "Preprocessing fit failed")
  | Ok (fitted, X_train_processed) =>
      match transform fitted X_test with
      | Raise _ => Raise (DataPreprocessingError "Test data transform failed")
      | Ok X_test_processed => Ok (X_train_processed, X_test_processed, fitted, self)
      end
  end.

(** The outer [try] of [preprocess_data]: a [DataPreprocessingError] is
    re-raised, anything else is wrapped into one. *)
Definition wrap_errors {A : Type} (r : result A) : result A :=
  match r with
  | Ok a => Ok a
  | Raise (DataPreprocessingError m) => Raise (DataPreprocessingError m)
  | Raise _ => Raise (DataPreprocessingError "Preprocessing failed")
  end.

Record Preprocessed : Type := {
  X_train_processed : Matrix;
  X_test_processed : Matrix;
  y_train : Series;
  y_test : Series;
  fitted_preprocessor : Fitted;
  metadata : Metadata
}.

(** [preprocess_data] *)
Definition preprocess_data (self : State) (df : DataFrame) (target_col : string)
    (test_size : Q) (use_target_encoder : bool) (variance_threshold : Q)
    (random_state : Z) : result (Preprocessed * State) :=
  wrap_errors (
    (* Step 1 *)
    v <- DataValidation.validate_and_clean (validator self) (Some df) (Some target_col) ;;
    let '(cleaned_df, health_report) := v in
    match lookup target_col (columns cleaned_df) with
    | None => Raise (DataPreprocessingError "Target column was dropped during validation")
    | Some y =>
        (* Step 2 *)
        let X := drop_column cleaned_df target_col in
        if forallb isna (values y) then
          Raise (DataPreprocessingError "Target column contains only null values")
        else
          let '(X, y) :=
            if existsb isna (values y) then
              let valid_mask := map notna (values y) in
              (select_rows X valid_mask,
               {| dtype := dtype y; values := keep_where valid_mask (values y) |})
            else (X, y) in
          if index_len X <? 10 then
            Raise (DataPreprocessingError "Only a few samples remain - insufficient for training")
          else
            (* Step 3 *)
            let problem_type :=
              match DataValidation.recommended_problem_type health_report with
              | Some p => p
              | None => _detect_problem_type y
              end in
            (* Step 4 *)
            let test_size' := adjust_test_size (index_len X) test_size in
            s <- split_dataset X y problem_type test_size random_state ;;
            let '(X_train, X_test, y_train, y_test) := s in
            (* Steps 5 and 6 *)
            f <- fit_on_train self X_train y_train X_test use_target_encoder
                              variance_threshold ;;
            let '(X_train_processed, X_test_processed, fitted, self) := f in
            (* Step 7 *)
            let self :=
              {| preprocessor := preprocessor self;
                 feature_names := Some (get_feature_names_out fitted);
                 removed_features := removed_features self;
                 validator := validator self |} in
            (* Step 8 *)
            Ok ({| X_train_processed := X_train_processed;
                   X_test_processed := X_test_processed;
                   y_train := y_train;
                   y_test := y_test;
                   fitted_preprocessor := fitted;
                   metadata :=
                     {| original_features :=
                          filter (fun c => negb (String.eqb target_col c)) (column_names df);
                        n_original_features := (Z.of_nat (length (columns df)) - 1)%Z;
                        n_processed_features := n_features_of X_train_processed;
                        meta_removed_features := removed_features self;
                        train_samples := index_len X_train;
                        test_samples := index_len X_test;
                        problem_type := problem_type;
                        target_column := target_col;
                        test_size := test_size';
                        validation_dropped_columns :=
                          DataValidation.dropped_columns health_report;
                        validation_coerced_columns :=
                          DataValidation.coerced_columns health_report;
                        validation_overall_issues :=
                          DataValidation.overall_issues health_report |} |},
                self)
    end).
End Preprocessing.
End DataPreprocessing.

(** ** sklearn.metrics *)

(** The scorers [_classification_metrics] calls; [average] is the keyword
    argument of the same name ([zero_division=0] is fixed by the caller). *)
Class Metrics : Type := {
  accuracy_score : list Z -> list Z -> result Q;
  precision_score : list Z -> list Z -> string -> result Q;
  recall_score : list Z -> list Z -> string -> result Q;
  f1_score : list Z -> list Z -> string -> result Q
}.

(** ** numpy on label vectors that still hold nulls *)

(** What [np.unique] does with a raw label vector.  Labels sort as [Label]
    says; a null is [None] or NaN.  In a float array NaN sorts last and
    nothing is raised; in an object array (strings beside [None] or NaN)
    sorting compares the null with another value and raises a [TypeError].
    [unique_raises] says which of the two happens; the law is that a vector
    without nulls is always sorted. *)
Class Numpy (L : Type) : Type := {
  unique_raises : list (option L) -> bool;
  unique_raises_null : forall y, unique_raises y = true -> In None y
}.

(** ** Python strings and the metadata store *)

(** [str.isalnum] on one character. *)
Class Python : Type := {
  isalnum : ascii -> bool
}.

(** The [models] table: the ids of the rows of a user with a given model
    name, or the exception the query raised. *)
Class Database : Type := {
  select_model_ids : string -> string -> result (list string)
}.

(** ** app/services/training_service.py *)

Module TrainingService.

(** The dict [_classification_metrics] returns. *)
Record ClassificationMetrics : Type := {
  accuracy : Q;
  precision : Q;
  recall : Q;
  f1 : Q
}.

(** What [ModelTrainer] keeps of the label encoding. *)
Record TrainerLabels (L : Type) `{Label L} : Type := {
  label_encoder : SafeLabelEncoding.SafeLabelEncoder L;
  label_encoding_stats : SafeLabelEncoding.CombinedStats (L := L)
}.

Arguments label_encoder {L _} _.
Arguments label_encoding_stats {L _} _.

Section Trainer.
Context `{Pandas} `{Metrics}.

(** [y_array.dtype == object or y_array.dtype.name.startswith('str')] *)
Definition is_object_or_str (dtype : string) : bool :=
  String.eqb dtype "object" || String.prefix "str" dtype.

(** [ModelTrainer._infer_problem_type] *)
Definition _infer_problem_type (y : Series) : ProblemType :=
  let n_unique := cells_nunique (values y) in
  let n_samples := Series_len y in
  let y_numeric := to_numeric_dropna (values y) in
  let has_floats := negb (allclose_int y_numeric) in
  if is_object_or_str (dtype y) then classification
  else if (n_unique <? 20) && Qltb (Qnat n_unique) ((5 # 100) * Qnat n_samples)
          && negb has_floats then classification
  else regression.

(** [ModelTrainer._classification_metrics] *)
Definition _classification_metrics (y_true y_pred : list Q) : result ClassificationMetrics :=
  let y_true := map astype_int y_true in
  let y_pred := map astype_int y_pred in
  let unique_classes := np_unique y_true in
  let n_classes := length unique_classes in
  accuracy <- accuracy_score y_true y_pred ;;
  if n_classes =? 1 then
    Ok {| accuracy := accuracy; precision := 1; recall := 1; f1 := 1 |}
  else
    let average := if n_classes =? 2 then "binary" else "weighted" in
    match precision_score y_true y_pred average,
          recall_score y_true y_pred average,
          f1_score y_true y_pred average with
    | Ok precision, Ok recall, Ok f1 =>
        Ok {| accuracy := accuracy; precision := precision; recall := recall; f1 := f1 |}
    | _, _, _ =>
        Ok {| accuracy := accuracy; precision := accuracy; recall := accuracy;
              f1 := accuracy |}
    end.
End Trainer.

Section TrainerLabels.
Context {L : Type} `{Label L} `{Numpy L}.

(** The call [validate_label_distribution(y_train, y_test,
    min_samples_per_class=1)] of [_encode_labels_safe], on the raw vectors:
    its report is only printed, but its two calls to [np.unique] raise when
    a vector cannot be sorted. *)
Definition validate_raw_labels (y_train y_test : list (option L)) : result unit :=
  if unique_raises y_train || unique_raises y_test then
    Raise (TypeError "'<' not supported between instances")
  else Ok tt.

(** [ModelTrainer._encode_labels_safe]: the encoded training and test
    labels and what the trainer stores. *)
Definition _encode_labels_safe (y_train y_test : list (option L))
  : result (list Z * list Z * TrainerLabels L) :=
  _ <- validate_raw_labels y_train y_test ;;
  e <- SafeLabelEncoding.safe_encode_labels y_train y_test "use_mode" ;;
  Ok (SafeLabelEncoding.y_train_encoded e,
      SafeLabelEncoding.y_test_encoded e,
      {| label_encoder := SafeLabelEncoding.fitted_encoder e;
         label_encoding_stats := SafeLabelEncoding.combined_stats e |}).
End TrainerLabels.

Section ModelNames.
Context `{Python} `{Database}.

(** [check_model_name_exists]: a failed query counts as a free name. *)
Definition check_model_name_exists (user_id model_name : string) : bool :=
  match select_model_ids user_id model_name with
  | Ok data => 0 <? length data
  | Raise _ => false
  end.

Fixpoint string_map (f : ascii -> ascii) (s : string) : string :=
  match s with
  | EmptyString => EmptyString
  | String c t => String (f c) (string_map f t)
  end.

(** [c if c.isalnum() or c in ['_', '-'] else '_'] *)
Definition sanitize_char (c : ascii) : ascii :=
  if isalnum c || Ascii.eqb c "_" || Ascii.eqb c "-" then c else "_"%char.

(** [str(counter)] *)
Definition decimal (n : nat) : string := NilZero.string_of_uint (Nat.to_uint n).

(** The [while True] loop of [generate_unique_model_name]: [attempts] is
    what is left of its 100 turns. *)
Fixpoint next_free_counter (user_id base_name timestamp : string) (attempts counter : nat)
  : result string :=
  match attempts with
  | 0 => Raise (ModelTrainingError "Unable to generate unique model name")
  | S attempts =>
      let unique_name :=
        (base_name ++ "_" ++ timestamp ++ "_" ++ decimal counter)%string in
      if negb (check_model_name_exists user_id unique_name) then Ok unique_name
      else next_free_counter user_id base_name timestamp attempts (S counter)
  end.

(** [generate_unique_model_name]; [timestamp] is
    [datetime.now().strftime('%Y%m%d_%H%M%S')]. *)
Definition generate_unique_model_name (user_id base_name model_type target_col : string)
    (timestamp : string) : result string :=
  let base_name :=
    if String.eqb base_name "" then (model_type ++ "_" ++ target_col)%string
    else base_name in
  let base_name := string_map sanitize_char base_name in
  if negb (check_model_name_exists user_id base_name) then Ok base_name
  else
    let name_with_timestamp := (base_name ++ "_" ++ timestamp)%string in
    if negb (check_model_name_exists user_id name_with_timestamp) then Ok name_with_timestamp
    else next_free_counter user_id base_name timestamp 100 1.
End ModelNames.
End TrainingService.

(** * Vocabulary of the properties *)

(** ** The Safe Label Encoder *)

Section EncoderVocabulary.
Import SafeLabelEncoding.
Context {L : Type} `{Label L}.

(** How often a label occurs among the non-null training labels. *)
Definition occurrences (l : L) (y : list (option L)) : nat :=
  length (filter (label_eqb l) (dropna y)).

(** [m] is a training label that no other label outnumbers. *)
Definition most_frequent (m : L) (y_train : list (option L)) : Prop :=
  In m (dropna y_train) /\ forall l, occurrences l y_train <= occurrences m y_train.

(** [v] is the position of [l] in the vocabulary [cl]. *)
Definition vocabulary_index (cl : list L) (l : L) (v : Z) : Prop :=
  exists i, nth_error cl i = Some l /\ v = Z.of_nat i.

(** The encoder came out of [fit] on [y_train]. *)
Definition fitted_on (e : SafeLabelEncoder L) (y_train : list (option L)) : Prop :=
  exists e0, fit e0 y_train = Ok e.

(** What [transform] must write for one value, by strategy. *)
Definition encodes (e : SafeLabelEncoder L) (cl : list L) (m : L)
    (label : option L) (v : Z) : Prop :=
  match label with
  | None => v = unknown_value e
  | Some l =>
      (In l cl -> vocabulary_index cl l v) /\
      (~ In l cl ->
         if (handle_unknown e =? "use_mode")%string then vocabulary_index cl m v
         else v = unknown_value e)
  end.

(** A value [transform] accepts under the ['error'] strategy. *)
Definition seen (cl : list L) (label : option L) : bool :=
  match label with
  | Some l => np_contains cl l
  | None => false
  end.

(** How often [l] occurs in a label array. *)
Definition count_of (l : L) (y : list L) : nat := length (filter (label_eqb l) y).

(** The codes and statistics of a call to [transform], without the encoder. *)
Definition outcome (r : result (list Z * (@TransformStats L) * SafeLabelEncoder L))
  : result (list Z * (@TransformStats L)) :=
  match r with
  | Ok res => Ok (fst res)
  | Raise ex => Raise ex
  end.

(** How [inverse_transform] renders one code. *)
Definition decodes (e : SafeLabelEncoder L) (cl : list L) (v : Z) (d : Decoded L) : Prop :=
  (v = unknown_value e -> d = UNKNOWN (unknown_value e)) /\
  (v <> unknown_value e ->
   ((v < 0 \/ Z.of_nat (length cl) <= v)%Z -> d = INVALID v) /\
   ((0 <= v < Z.of_nat (length cl))%Z ->
    exists c, nth_error cl (Z.to_nat v) = Some c /\ d = Class c)).

(** What a decoded code must be for a value of the batch, when unknown
    values are encoded by the sentinel. *)
Definition decoded_value (e : SafeLabelEncoder L) (cl : list L) (label : option L)
  : Decoded L :=
  match label with
  | Some l => if np_contains cl l then Class l else UNKNOWN (unknown_value e)
  | None => UNKNOWN (unknown_value e)
  end.

End EncoderVocabulary.

(** The encoder [SafeLabelEncoder(handle_unknown, unknown_value).fit(y_train)]. *)
Definition fitted_example (handle_unknown : string) (unknown_value : option Z)
    (y_train : list (option string)) : SafeLabelEncoding.SafeLabelEncoder string :=
  match SafeLabelEncoding.fit (SafeLabelEncoding.init handle_unknown unknown_value) y_train with
  | Ok e => e
  | Raise _ => SafeLabelEncoding.init handle_unknown unknown_value
  end.

(** ** The validator and the classifier *)

(** The share of missing values in a column. *)
Definition null_ratio (series : Series) : Q :=
  (Qnat (null_count_of series) / Qnat (Series_len series))%Q.

(** A target column was requested and the table has no column of that name. *)
Definition target_missing (df : DataFrame) (target_col : option string) : bool :=
  match target_col with
  | Some t => truthy target_col && negb (has_column df t)
  | None => false
  end.

(** Every column of the table has one value per row. *)
Definition well_formed (df : DataFrame) : Prop :=
  Forall (fun kv => Series_len (snd kv) = index_len df) (columns df).

(** The analyzer recommends dropping the column. *)
Definition is_drop (h : DataValidation.ColumnHealth) : bool :=
  match DataValidation.recommended_action h with
  | DataValidation.drop => true
  | _ => false
  end.

(** The names the cleaning loop of [validate_and_clean] drops: the columns
    other than the target whose report recommends it. *)
Definition to_drop (target_col : option string)
    (column_reports : list (string * DataValidation.ColumnHealth)) : list string :=
  map fst (filter (fun e => negb (is_target target_col (fst e)) && is_drop (snd e))
                  column_reports).

(** [c in names] *)
Definition mem (c : string) (names : list string) : bool := existsb (String.eqb c) names.

(** ** Column routing *)

(** Where a loop of [build_pipeline] appends a column. *)
Inductive Slot : Type := First | Second | Third.

Definition slot_eqb (a b : Slot) : bool :=
  match a, b with
  | First, First | Second, Second | Third, Third => true
  | _, _ => false
  end.

(** A loop body that appends the column to the list its slot names. *)
Definition route3 (slot : string -> Slot) (st : list string * list string * list string)
    (col : string) : list string * list string * list string :=
  let '(a, b, c) := st in
  match slot col with
  | First => (a ++ [col], b, c)
  | Second => (a, b ++ [col], c)
  | Third => (a, b, c ++ [col])
  end.

Definition in_slot (slot : string -> Slot) (s : Slot) (cols : list string) : list string :=
  filter (fun col => slot_eqb (slot col) s) cols.

Section RoutingVocabulary.
Context `{Pandas}.

(** The slot of the first loop: numeric, categorical, removed (all null). *)
Definition classify_slot (X : DataFrame) (col : string) : Slot :=
  let col_data := Series_dropna (DataPreprocessing.column X col) in
  if Series_len col_data =? 0 then Third
  else if Qltb (8 # 10)
            (Qnat (length (to_numeric_dropna (values col_data))) / Qnat (Series_len col_data))
       then First else Second.

End RoutingVocabulary.

(** The unique-value count of a column, as [build_pipeline] takes it. *)
Definition n_unique_of (X : DataFrame) (col : string) : nat :=
  Series_nunique (DataPreprocessing.column X col).

(** The number of non-null rows of a column. *)
Definition n_samples_of (X : DataFrame) (col : string) : nat :=
  Series_len (Series_dropna (DataPreprocessing.column X col)).

(** The column looks like an identifier. *)
Definition apparent_identifier (X : DataFrame) (col : string) : Prop :=
  1000 < n_unique_of X col \/ n_unique_of X col = n_samples_of X col.

(** Few distinct values, in number and in share of the non-null rows. *)
Definition low_cardinality (X : DataFrame) (col : string) : Prop :=
  n_unique_of X col <= 50 /\
  (Qnat (n_unique_of X col) / Qnat (n_samples_of X col) <= 5 # 10)%Q.

(** The slot of the last loop: high cardinality, low cardinality, removed. *)
Definition cardinality_slot (X : DataFrame) (col : string) : Slot :=
  if (1000 <? n_unique_of X col) || (n_unique_of X col =? n_samples_of X col) then Third
  else if (50 <? n_unique_of X col)
          || Qltb (5 # 10) (Qnat (n_unique_of X col) / Qnat (n_samples_of X col))
       then First else Second.

(** ** Classification metrics *)

Section MetricsVocabulary.
Context `{Metrics}.

(** The precision, recall and F1 of [m] are what the three scorers return
    under [average]; when one of them raises, all three are the accuracy. *)
Definition scored_with (average : string) (y_true y_pred : list Z) (acc : Q)
    (m : TrainingService.ClassificationMetrics) : Prop :=
  match precision_score y_true y_pred average,
        recall_score y_true y_pred average,
        f1_score y_true y_pred average with
  | Ok p, Ok r, Ok f =>
      TrainingService.precision m = p /\ TrainingService.recall m = r /\
      TrainingService.f1 m = f
  | _, _, _ =>
      TrainingService.precision m = acc /\ TrainingService.recall m = acc /\
      TrainingService.f1 m = acc
  end.

End MetricsVocabulary.

(** ** Model names *)

Section NameVocabulary.
Context `{Python}.

(** A character [generate_unique_model_name] leaves in a name. *)
Definition allowed (c : ascii) : bool :=
  isalnum c || Ascii.eqb c "_" || Ascii.eqb c "-".

(** The name the caller asked for, after the default and the clean-up. *)
Definition requested_base (base_name model_type target_col : string) : string :=
  TrainingService.string_map TrainingService.sanitize_char
    (if String.eqb base_name "" then (model_type ++ "_" ++ target_col)%string
     else base_name).

End NameVocabulary.

(** The names [generate_unique_model_name] tries, in order: the base name,
    the base name with the timestamp, and that with the counters 1 to 100. *)
Definition candidate_names (base timestamp : string) : list string :=
  base :: (base ++ "_" ++ timestamp)%string
  :: map (fun k => (base ++ "_" ++ timestamp ++ "_" ++ TrainingService.decimal k)%string)
         (seq 1 100).

(** ** Sample data *)


(** Twelve whole-valued floats beyond the [int64] range: 1e20 and 2e20,
    six times each. *)
Definition large_floats : Series :=
  {| dtype := "float64";
     values := concat (repeat [Num (inject_Z (10 ^ 20)); Num (inject_Z (2 * 10 ^ 20))] 6) |}.

(** 19 missing values out of 20, and one number. *)
Definition mostly_null : Series :=
  {| dtype := "float64"; values := repeat Null 19 ++ [Num 7] |}.

(** A table with a two-valued column and a column of row identifiers. *)
Definition cities : DataFrame :=
  {| index_len := 6;
     columns :=
       [("city", {| dtype := "object";
                    values := [Str "a"; Str "b"; Str "a"; Str "b"; Str "a"; Str "a"] |});
        ("id", {| dtype := "object";
                  values := [Str "u1"; Str "u2"; Str "u3"; Str "u4"; Str "u5"; Str "u6"] |})] |}.

(** Twelve rows: one feature and a two-class target. *)
Definition twelve_rows : DataFrame :=
  {| index_len := 12;
     columns :=
       [("x", {| dtype := "int64";
                 values := map (fun z => Num (inject_Z z))
                               [1; 2; 3; 4; 5; 6; 7; 8; 9; 10; 11; 12]%Z |})] |}.

Definition twelve_labels : Series :=
  {| dtype := "object";
     values := [Str "a"; Str "b"; Str "a"; Str "b"; Str "a"; Str "b";
                Str "a"; Str "b"; Str "a"; Str "b"; Str "a"; Str "b"] |}.

(** Twelve rows with the target column [y]. *)
Definition twelve_with_target : DataFrame :=
  {| index_len := 12; columns := columns twelve_rows ++ [("y", twelve_labels)] |}.

(** Twelve rows with a feature, a constant column and the target [y]. *)
Definition twelve_with_constant : DataFrame :=
  {| index_len := 12;
     columns := columns twelve_rows
                ++ [("k", {| dtype := "object"; values := repeat (Str "c") 12 |});
                    ("y", twelve_labels)] |}.

(** Five rows of one numeric feature. *)
Definition five_rows : DataFrame :=
  {| index_len := 5;
     columns :=
       [("x", {| dtype := "int64";
                 values := map (fun z => Num (inject_Z z)) [1; 2; 3; 4; 5]%Z |})] |}.

(** ** Small implementations of the library classes

    Used where a statement is evaluated on concrete data. *)

(** [np.unique] on object arrays of strings: it raises when there is a
    null and a second value to compare it with. *)
Definition object_unique_raises (y : list (option string)) : bool :=
  (1 <? length y) && existsb (fun l => match l with None => true | Some _ => false end) y.

(** A pandas that reads integer literals as numbers and nothing as a date. *)
Definition ExamplePandas : Pandas := {|
  str_to_numeric := fun s =>
    match NilZero.int_of_string s with
    | Some i => Some (inject_Z (Z.of_int i))
    | None => None
    end;
  datetime_parses := fun _ => false;
  to_datetime_cell := fun c => match c with Ts ns => Some ns | _ => None end;
  cell_str := fun c =>
    match c with
    | Null => "nan"
    | Num q => NilZero.string_of_int (Z.to_int (astype_int q))
    | Str s => s
    | Ts ns => NilZero.string_of_int (Z.to_int ns)
    end
|}.

(** The ceiling of the exact product: the test size of the implementation
    below, one of the sizes [n_test_within] allows. *)
Definition n_test_of (n_samples : nat) (test_size : Q) : Z :=
  Qceiling (test_size * Qnat n_samples).

(** An unshuffled split: the last [ceil(test_size * n)] rows are the test rows. *)
Definition split_rows (X : DataFrame) (y : Series) (test_size : Q) (random_state : Z)
    (stratify : option Series) : result (DataFrame * DataFrame * Series * Series) :=
  let n := index_len X in
  let n_test := Z.to_nat (n_test_of n test_size) in
  if (Series_len y =? n) && Qltb 0 test_size && Qltb test_size 1 && (n_test <? n) then
    let n_train := n - n_test in
    Ok ({| index_len := n_train;
           columns := map (fun kv => (fst kv, {| dtype := dtype (snd kv);
                                                 values := firstn n_train (values (snd kv)) |}))
                          (columns X) |},
        {| index_len := n_test;
           columns := map (fun kv => (fst kv, {| dtype := dtype (snd kv);
                                                 values := skipn n_train (values (snd kv)) |}))
                          (columns X) |},
        {| dtype := dtype y; values := firstn n_train (values y) |},
        {| dtype := dtype y; values := skipn n_train (values y) |})
  else Raise (ValueError "test_size leaves an empty partition").

(** Scorers: the share of matching positions as accuracy, and the same under
    every averaging for the other three. *)
Definition matches (y_true y_pred : list Z) : nat :=
  length (filter (fun p => Z.eqb (fst p) (snd p)) (combine y_true y_pred)).

Definition share_of_matches (y_true y_pred : list Z) : result Q :=
  if length y_true =? length y_pred then
    Ok (Qnat (matches y_true y_pred) / Qnat (length y_true))%Q
  else Raise (ValueError "Found input variables with inconsistent numbers of samples").

Definition ExampleMetrics : Metrics := {|
  accuracy_score := share_of_matches;
  precision_score := fun y_true y_pred _ => share_of_matches y_true y_pred;
  recall_score := fun y_true y_pred _ => share_of_matches y_true y_pred;
  f1_score := fun y_true y_pred _ => share_of_matches y_true y_pred
|}.

(** A Python whose alphanumeric characters are the ASCII letters and digits. *)
Definition ExamplePython : Python := {|
  isalnum := fun c =>
    let n := nat_of_ascii c in
    ((48 <=? n) && (n <=? 57)) || ((65 <=? n) && (n <=? 90)) || ((97 <=? n) && (n <=? 122))
|}.

(** A models table in which every user has a model named [churn]. *)
Definition ExampleDatabase : Database := {|
  select_model_ids := fun _ model_name =>
    if String.eqb model_name "churn" then Ok ["id-1"%string] else Ok []
|}.

(** A models table that cannot be reached. *)
Definition UnreachableDatabase : Database := {|
  select_model_ids := fun _ _ => Raise (ValueError "connection refused")
|}.

(** * Properties *)

(** ** The example split obeys the size laws of [train_test_split] *)

Lemma n_test_of_nonneg (n : nat) (test_size : Q) :
  (0 < test_size)%Q -> (0 <= n_test_of n test_size)%Z.
Proof.
  intros Hpos. unfold n_test_of.
  change 0%Z with (Qceiling 0). apply Qceiling_resp_le.
  apply Qmult_le_0_compat; [now apply Qlt_le_weak|].
  unfold Qnat, Qle. simpl. lia.
Qed.

Lemma Qltb_lt (a b : Q) : Qltb a b = true <-> (a < b)%Q.
Proof.
  unfold Qltb. rewrite negb_true_iff. split.
  - intros Hf. apply Qnot_le_lt. intros Hle. apply Qle_bool_iff in Hle. congruence.
  - intros Hlt. destruct (Qle_bool b a) eqn:E; [|reflexivity].
    apply Qle_bool_iff in E. exfalso. now apply (Qlt_not_le a b).
Qed.

Lemma Qltb_ge (a b : Q) : Qltb a b = false <-> (b <= a)%Q.
Proof.
  unfold Qltb. rewrite negb_false_iff. apply Qle_bool_iff.
Qed.

Lemma n_test_of_within (n : nat) (test_size : Q) :
  n_test_within n test_size (n_test_of n test_size).
Proof.
  exists (test_size * Qnat n)%Q. split; [|reflexivity].
  setoid_replace (test_size * Qnat n - test_size * Qnat n)%Q with 0%Q by ring.
  apply Qmult_le_0_compat; [discriminate | apply Qabs_nonneg].
Qed.

Lemma split_rows_sizes (X : DataFrame) (y : Series) (test_size : Q) (random_state : Z)
    (stratify : option Series) :
  match split_rows X y test_size random_state stratify with
  | Ok (X_train, X_test, y_train, y_test) =>
      n_test_within (index_len X) test_size (Z.of_nat (index_len X_test)) /\
      index_len X_train + index_len X_test = index_len X /\
      Series_len y_train = index_len X_train /\
      Series_len y_test = index_len X_test
  | Raise (ValueError _) => True
  | Raise _ => False
  end.
Proof.
  unfold split_rows.
  destruct ((Series_len y =? index_len X) && Qltb 0 test_size && Qltb test_size 1
            && (Z.to_nat (n_test_of (index_len X) test_size) <? index_len X)) eqn:E;
    [|exact I].
  apply andb_prop in E. destruct E as [E Hlt].
  apply andb_prop in E. destruct E as [E _].
  apply andb_prop in E. destruct E as [Hlen Hpos].
  apply Nat.eqb_eq in Hlen. apply Qltb_lt in Hpos. apply Nat.ltb_lt in Hlt.
  pose proof (n_test_of_nonneg (index_len X) test_size Hpos) as Hnn.
  unfold Series_len in *. simpl.
  rewrite length_firstn, length_skipn, Hlen.
  split; [|repeat split; lia].
  rewrite Z2Nat.id by assumption. apply n_test_of_within.
Qed.

Lemma split_rows_ok (X : DataFrame) (y : Series) (test_size : Q) (random_state : Z) :
  Series_len y = index_len X ->
  (0 < test_size)%Q -> (test_size < 1)%Q ->
  (forall n_test, n_test_within (index_len X) test_size n_test ->
                  (n_test < Z.of_nat (index_len X))%Z) ->
  is_ok (split_rows X y test_size random_state None) = true.
Proof.
  intros Hlen Hpos Hlt1 Hall.
  pose proof (Hall _ (n_test_of_within (index_len X) test_size)) as Hn.
  unfold split_rows.
  pose proof (n_test_of_nonneg (index_len X) test_size Hpos) as Hnn.
  rewrite (proj2 (Nat.eqb_eq _ _) Hlen).
  rewrite (proj2 (Qltb_lt _ _) Hpos), (proj2 (Qltb_lt _ _) Hlt1).
  replace (Z.to_nat (n_test_of (index_len X) test_size) <? index_len X) with true
    by (symmetry; apply Nat.ltb_lt; lia).
  reflexivity.
Qed.

Lemma object_unique_raises_null (y : list (option string)) :
  object_unique_raises y = true -> In None y.
Proof.
  unfold object_unique_raises. intros Hr. apply andb_prop in Hr. destruct Hr as [_ Hr].
  apply existsb_exists in Hr. destruct Hr as [[l|] [Hin Hl]]; [discriminate | assumption].
Qed.

(** numpy on object arrays of strings. *)
Definition ExampleNumpy : Numpy string := {|
  unique_raises := object_unique_raises;
  unique_raises_null := object_unique_raises_null
|}.

(** A scikit-learn whose transformers pass the table through. *)
Definition ExampleSklearn : Sklearn := {|
  Fitted := ColumnTransformer;
  Matrix := DataFrame;
  fit_transform := fun ct X _ => Ok (ct, X);
  transform := fun _ X => Ok X;
  get_feature_names_out := fun ct => concat (map snd ct);
  n_features_of := fun X => length (columns X);
  train_test_split := split_rows;
  train_test_split_sizes := split_rows_sizes;
  train_test_split_ok := split_rows_ok
|}.

(** ** numpy helpers *)

Section NumpyFacts.
Context {L : Type} `{Label L}.

Lemma label_eqb_eq (x y : L) : label_eqb x y = true <-> x = y.
Proof.
  unfold label_eqb. rewrite <- label_compare_eq.
  destruct (label_compare x y); split; congruence.
Qed.

Lemma label_eqb_refl (x : L) : label_eqb x x = true.
Proof. now apply label_eqb_eq. Qed.

Lemma insert_unique_In (x z : L) (l : list L) :
  In z (insert_unique x l) <-> z = x \/ In z l.
Proof.
  induction l as [|y t IH]; simpl.
  - intuition.
  - destruct (label_compare x y) eqn:E; simpl.
    + apply label_compare_eq in E. subst y. intuition.
    + intuition.
    + rewrite IH. intuition.
Qed.

Lemma np_unique_In (z : L) (a : list L) : In z (np_unique a) <-> In z a.
Proof.
  unfold np_unique. induction a as [|x t IH]; simpl.
  - tauto.
  - rewrite insert_unique_In, IH. intuition.
Qed.

Lemma np_unique_nonempty (a : list L) : a <> [] -> np_unique a <> [].
Proof.
  destruct a as [|x t]; [congruence|]. intros _ E.
  assert (In x (np_unique (x :: t))) as HIn by (apply np_unique_In; now left).
  rewrite E in HIn. exact HIn.
Qed.

Lemma insert_unique_sorted (x : L) (l : list L) :
  StronglySorted label_lt l -> StronglySorted label_lt (insert_unique x l).
Proof.
  induction l as [|y t IH]; intros Hs; simpl.
  - repeat constructor.
  - inversion Hs as [|? ? Ht Hall]; subst.
    destruct (label_compare x y) eqn:E.
    + assumption.
    + constructor; [assumption|]. constructor; [exact E|].
      apply Forall_forall. intros z Hz.
      apply (label_compare_trans x y z E).
      exact (proj1 (Forall_forall _ _) Hall z Hz).
    + constructor; [now apply IH|].
      apply Forall_forall. intros z Hz. apply insert_unique_In in Hz.
      destruct Hz as [-> | Hz].
      * unfold label_lt. rewrite label_compare_antisym, E. reflexivity.
      * exact (proj1 (Forall_forall _ _) Hall z Hz).
Qed.

(** [np.unique] returns a strictly increasing list. *)
Lemma np_unique_sorted (a : list L) : StronglySorted label_lt (np_unique a).
Proof.
  unfold np_unique. induction a as [|x t IH]; simpl.
  - constructor.
  - now apply insert_unique_sorted.
Qed.

Lemma np_unique_NoDup (a : list L) : NoDup (np_unique a).
Proof.
  pose proof (np_unique_sorted a) as Hs.
  induction Hs as [|x l _ IH Hall]; constructor; [|assumption].
  intros HIn. pose proof (proj1 (Forall_forall _ _) Hall x HIn) as Hlt.
  unfold label_lt in Hlt.
  rewrite (proj2 (label_compare_eq x x) eq_refl) in Hlt. discriminate.
Qed.

Lemma np_contains_In (cl : list L) (l : L) : np_contains cl l = true <-> In l cl.
Proof.
  unfold np_contains. rewrite existsb_exists. split.
  - intros [x [HIn Hx]]. apply label_eqb_eq in Hx. now subst.
  - intros HIn. exists l. split; [assumption | apply label_eqb_refl].
Qed.

Lemma index_of_In (x : L) (l : list L) :
  In x l -> exists i, index_of x l = Some i /\ nth_error l i = Some x.
Proof.
  induction l as [|y t IH]; simpl; [tauto|].
  intros HIn. destruct (label_eqb x y) eqn:E.
  - apply label_eqb_eq in E. subst y. exists 0. now split.
  - destruct HIn as [-> | HIn].
    + rewrite label_eqb_refl in E. discriminate.
    + destruct (IH HIn) as [i [Hi Hn]]. rewrite Hi. exists (S i). now split.
Qed.

Lemma index_of_not_In (x : L) (l : list L) : ~ In x l -> index_of x l = None.
Proof.
  induction l as [|y t IH]; simpl; [reflexivity|].
  intros HnIn. destruct (label_eqb x y) eqn:E.
  - apply label_eqb_eq in E. subst y. tauto.
  - rewrite IH; tauto.
Qed.

Lemma np_argmax_from_spec (l : list nat) :
  forall pre i best_i best,
    i = length pre -> nth_error (pre ++ l) best_i = Some best ->
    (forall c, In c pre -> c <= best) ->
    let a := np_argmax_from l i best_i best in
    exists m, nth_error (pre ++ l) a = Some m /\ forall c, In c (pre ++ l) -> c <= m.
Proof.
  induction l as [|c t IH]; intros pre i best_i best Hi Hbest Hmax; simpl.
  - exists best. split; [assumption|]. rewrite app_nil_r. assumption.
  - replace (pre ++ c :: t) with ((pre ++ [c]) ++ t) in *
      by (rewrite <- app_assoc; reflexivity).
    destruct (best <? c) eqn:E.
    + apply Nat.ltb_lt in E.
      apply (IH (pre ++ [c]) (S i) i c).
      * rewrite length_app. simpl. lia.
      * subst i. rewrite nth_error_app1 by (rewrite length_app; simpl; lia).
        rewrite nth_error_app2 by lia. now rewrite Nat.sub_diag.
      * intros c' HIn. apply in_app_or in HIn. destruct HIn as [HIn | [-> | []]].
        -- specialize (Hmax _ HIn). lia.
        -- lia.
    + apply Nat.ltb_ge in E.
      apply (IH (pre ++ [c]) (S i) best_i best).
      * rewrite length_app. simpl. lia.
      * assumption.
      * intros c' HIn. apply in_app_or in HIn. destruct HIn as [HIn | [-> | []]].
        -- now apply Hmax.
        -- assumption.
Qed.

(** [np.argmax] points at a maximum of a non-empty array. *)
Lemma np_argmax_spec (l : list nat) :
  l <> [] ->
  exists m, nth_error l (np_argmax l) = Some m /\ forall c, In c l -> c <= m.
Proof.
  destruct l as [|c t]; [congruence|]. intros _.
  unfold np_argmax.
  apply (np_argmax_from_spec t [c] 1 0 c); try reflexivity.
  intros c' [-> | []]. lia.
Qed.
End NumpyFacts.

(** ** The Safe Label Encoder *)

Section EncoderFacts.
Import SafeLabelEncoding.
Context {L : Type} `{Label L}.

Lemma dropna_In (l : L) (y : list (option L)) : In l (dropna y) <-> In (Some l) y.
Proof.
  induction y as [|[x|] t IH]; simpl.
  - tauto.
  - rewrite IH. split; intros [E | HIn]; auto; left; congruence.
  - rewrite IH. split; [auto | intros [E | HIn]; [discriminate | assumption]].
Qed.

Lemma dropna_map_Some (y : list L) : dropna (map Some y) = y.
Proof. induction y as [|x t IH]; simpl; congruence. Qed.

Lemma filter_absent (l : L) (y : list L) : ~ In l y -> filter (label_eqb l) y = [].
Proof.
  induction y as [|x t IH]; simpl; [reflexivity|].
  intros Hl. destruct (label_eqb l x) eqn:E.
  - apply label_eqb_eq in E. subst x. tauto.
  - apply IH. tauto.
Qed.

Lemma occurrences_counts (y_clean : list L) (uniq : list L) (j : nat) (u : L) :
  nth_error uniq j = Some u ->
  nth_error (np_counts uniq y_clean) j = Some (length (filter (label_eqb u) y_clean)).
Proof.
  intros Hj. unfold np_counts. rewrite nth_error_map, Hj. reflexivity.
Qed.

(** What [fit] stores: the sorted distinct training labels as vocabulary,
    and a most frequent one as mode; the configuration is kept. *)
Lemma fit_inv (e0 e : SafeLabelEncoder L) (y_train : list (option L)) :
  fit e0 y_train = Ok e ->
  let cl := np_unique (dropna y_train) in
  classes_ e = Some cl /\ encoder e = Some cl /\
  handle_unknown e = handle_unknown e0 /\ unknown_value e = unknown_value e0 /\
  unseen_labels_ e = unseen_labels_ e0 /\
  exists m, mode_class_ e = Some m /\ In m cl /\ most_frequent m y_train.
Proof.
  unfold fit. destruct (length (dropna y_train) =? 0) eqn:Elen; [discriminate|].
  apply Nat.eqb_neq in Elen.
  intros Hfit. injection Hfit as <-. simpl.
  repeat (split; [reflexivity|]).
  set (y_clean := dropna y_train) in *.
  set (uniq := np_unique y_clean).
  assert (y_clean <> []) as Hne by (intros E; rewrite E in Elen; simpl in Elen; lia).
  assert (np_counts uniq y_clean <> []) as Hcne.
  { unfold np_counts. intros E. apply map_eq_nil in E.
    now apply (np_unique_nonempty y_clean). }
  destruct (np_argmax_spec _ Hcne) as [mx [Hmx Hmax]].
  assert (np_argmax (np_counts uniq y_clean) < length uniq) as Hlt.
  { assert (nth_error (np_counts uniq y_clean) (np_argmax (np_counts uniq y_clean)) <> None)
      as Hmx_ne by congruence.
    apply nth_error_Some in Hmx_ne. unfold np_counts in Hmx_ne.
    now rewrite length_map in Hmx_ne. }
  destruct (nth_error uniq (np_argmax (np_counts uniq y_clean))) as [m|] eqn:Em;
    [| apply nth_error_None in Em; lia].
  exists m. split; [reflexivity|].
  assert (In m uniq) as HIn by (eapply nth_error_In; eassumption).
  split; [assumption|]. split.
  - now apply (np_unique_In m y_clean).
  - intros l. unfold occurrences. fold y_clean.
    rewrite (occurrences_counts y_clean uniq _ m Em) in Hmx. injection Hmx as <-.
    destruct (np_contains y_clean l) eqn:Ec.
    + apply np_contains_In in Ec.
      apply (np_unique_In l y_clean) in Ec. fold uniq in Ec.
      apply In_nth_error in Ec. destruct Ec as [j Hj].
      apply Hmax. eapply nth_error_In.
      apply (occurrences_counts y_clean uniq j l Hj).
    + assert (~ In l y_clean) as Hl.
      { intros Hl. apply np_contains_In in Hl. congruence. }
      rewrite (filter_absent l y_clean Hl). simpl. lia.
Qed.
Lemma LabelEncoder_transform_In (cl : list L) (l : L) :
  In l cl ->
  exists v, LabelEncoder_transform (Some cl) l = Ok v /\ vocabulary_index cl l v.
Proof.
  intros HIn. destruct (index_of_In l cl HIn) as [i [Hi Hn]].
  exists (Z.of_nat i). unfold LabelEncoder_transform. rewrite Hi.
  split; [reflexivity|]. now exists i.
Qed.

(** A label has one position in a vocabulary [fit] built. *)
Lemma vocabulary_index_unique (a : list L) (l : L) (v v' : Z) :
  vocabulary_index (np_unique a) l v -> vocabulary_index (np_unique a) l v' -> v = v'.
Proof.
  intros [i [Hi ->]] [j [Hj ->]]. f_equal.
  apply (proj1 (NoDup_nth_error (np_unique a)) (np_unique_NoDup a)).
  - assert (nth_error (np_unique a) i <> None) as Hne by congruence.
    now apply nth_error_Some in Hne.
  - congruence.
Qed.

Lemma vocabulary_index_range (cl : list L) (l : L) (v : Z) :
  vocabulary_index cl l v -> (0 <= v < Z.of_nat (length cl))%Z /\ In l cl.
Proof.
  intros [i [Hi ->]]. split.
  - assert (nth_error cl i <> None) as Hne by congruence.
    apply nth_error_Some in Hne. lia.
  - eapply nth_error_In; eassumption.
Qed.

(** A label of the vocabulary is written as its index, whatever the strategy. *)
Lemma transform_label_seen (e : SafeLabelEncoder L) (cl : list L) (l : L) :
  encoder e = Some cl -> In l cl ->
  exists v, transform_label e cl (Some l) = Ok (v, false, []) /\ vocabulary_index cl l v.
Proof.
  intros He HIn. unfold transform_label.
  rewrite (proj2 (np_contains_In cl l) HIn). simpl. rewrite He.
  destruct (LabelEncoder_transform_In cl l HIn) as [v [Hv Hidx]].
  exists v. rewrite Hv. now split.
Qed.

(** Outside the ['error'] strategy the loop body never raises. *)
Lemma transform_label_lenient (e : SafeLabelEncoder L) (cl : list L) (m : L)
    (label : option L) :
  encoder e = Some cl -> mode_class_ e = Some m -> In m cl ->
  handle_unknown e <> "error" ->
  exists v u, transform_label e cl label = Ok (v, negb (seen cl label), u) /\
              encodes e cl m label v.
Proof.
  intros He Hm HIn Hstrat.
  apply String.eqb_neq in Hstrat.
  destruct label as [l|]; cbn [seen].
  - destruct (np_contains cl l) eqn:Ec.
    + apply np_contains_In in Ec.
      destruct (transform_label_seen e cl l He Ec) as [v [Hv Hidx]].
      exists v, []. split; [exact Hv|]. split; [auto | tauto].
    + assert (~ In l cl) as Hl.
      { intros Hl. apply np_contains_In in Hl. congruence. }
      unfold transform_label. rewrite Ec, Hstrat. cbn [negb].
      destruct (handle_unknown e =? "use_mode")%string eqn:Emode.
      * rewrite Hm, He.
        destruct (LabelEncoder_transform_In cl m HIn) as [v [Hv Hidx]].
        exists v, [l]. rewrite Hv. cbn [bind]. split; [reflexivity|].
        unfold encodes. rewrite Emode. tauto.
      * exists (unknown_value e), [l]. split; [reflexivity|].
        unfold encodes. rewrite Emode. tauto.
  - unfold transform_label. rewrite Hstrat.
    exists (unknown_value e), []. now split.
Qed.

(** Under ['error'] the loop body raises a [ValueError] for a null and for a
    label outside the vocabulary. *)
Lemma transform_label_strict (e : SafeLabelEncoder L) (cl : list L) (label : option L) :
  handle_unknown e = "error" -> seen cl label = false ->
  exists msg, transform_label e cl label = Raise (ValueError msg).
Proof.
  intros Hstrat Hseen. unfold transform_label. destruct label as [l|]; cbn [seen] in Hseen.
  - rewrite Hseen, Hstrat. simpl. eauto.
  - rewrite Hstrat. simpl. eauto.
Qed.

Lemma transform_loop_lenient (e : SafeLabelEncoder L) (cl : list L) (m : L)
    (y : list (option L)) :
  encoder e = Some cl -> mode_class_ e = Some m -> In m cl ->
  handle_unknown e <> "error" ->
  exists encoded unseen,
    transform_loop e cl y = Ok (encoded, map (fun l => negb (seen cl l)) y, unseen) /\
    Forall2 (encodes e cl m) y encoded.
Proof.
  intros He Hm HIn Hstrat. induction y as [|label rest IH]; simpl.
  - exists [], []. split; [reflexivity | constructor].
  - destruct (transform_label_lenient e cl m label He Hm HIn Hstrat) as [v [u [Hv Henc]]].
    destruct IH as [encoded [unseen [Hloop HF]]].
    rewrite Hv. simpl. rewrite Hloop. simpl.
    exists (v :: encoded), (u ++ unseen). split; [reflexivity | now constructor].
Qed.

Lemma transform_loop_seen (e : SafeLabelEncoder L) (cl : list L) (m : L)
    (y : list (option L)) :
  encoder e = Some cl -> forallb (seen cl) y = true ->
  exists encoded,
    transform_loop e cl y = Ok (encoded, map (fun _ => false) y, []) /\
    Forall2 (encodes e cl m) y encoded.
Proof.
  intros He. induction y as [|label rest IH]; simpl; intros Hall.
  - exists []. split; [reflexivity | constructor].
  - apply andb_prop in Hall. destruct Hall as [Hseen Hrest].
    destruct label as [l|]; [|discriminate]. simpl in Hseen.
    apply np_contains_In in Hseen.
    destruct (transform_label_seen e cl l He Hseen) as [v [Hv Hidx]].
    destruct (IH Hrest) as [encoded [Hloop HF]].
    rewrite Hv. simpl. rewrite Hloop. simpl.
    exists (v :: encoded). split; [reflexivity|].
    constructor; [|assumption]. simpl. split; [auto | tauto].
Qed.

Lemma transform_loop_strict (e : SafeLabelEncoder L) (cl : list L) (y : list (option L)) :
  encoder e = Some cl -> handle_unknown e = "error" -> forallb (seen cl) y = false ->
  exists msg, transform_loop e cl y = Raise (ValueError msg).
Proof.
  intros He Hstrat. induction y as [|label rest IH]; simpl; [discriminate|].
  intros Hall. destruct (seen cl label) eqn:Hseen; simpl in Hall.
  - destruct label as [l|]; [|discriminate]. simpl in Hseen.
    apply np_contains_In in Hseen.
    destruct (transform_label_seen e cl l He Hseen) as [v [Hv _]].
    destruct (IH Hall) as [msg Hmsg].
    rewrite Hv. simpl. rewrite Hmsg. simpl. eauto.
  - destruct (transform_label_strict e cl label Hstrat Hseen) as [msg Hmsg].
    rewrite Hmsg. simpl. eauto.
Qed.

(** [transform] changes nothing of the encoder but the running list of
    unseen labels. *)
Lemma transform_frame (e e' : SafeLabelEncoder L) (y : list (option L))
    (encoded : list Z) (stats : TransformStats) :
  transform e y = Ok (encoded, stats, e') ->
  classes_ e' = classes_ e /\ mode_class_ e' = mode_class_ e /\
  encoder e' = encoder e /\ handle_unknown e' = handle_unknown e /\
  unknown_value e' = unknown_value e.
Proof.
  unfold transform. destruct (classes_ e) as [cl|] eqn:Ecl; [|discriminate].
  destruct (transform_loop e cl y) as [[[enc mask] unseen]|] eqn:El; simpl; [|discriminate].
  intros Hok. injection Hok as _ _ <-.
  destruct (existsb (fun b => b) mask); simpl; auto.
Qed.

Lemma transform_of_loop (e : SafeLabelEncoder L) (cl : list L) (y : list (option L))
    (encoded : list Z) (mask : list bool) (unseen : list L) :
  classes_ e = Some cl -> transform_loop e cl y = Ok (encoded, mask, unseen) ->
  exists stats e', transform e y = Ok (encoded, stats, e') /\
                   stat_unseen_count stats = mask_sum mask.
Proof.
  intros Hcl Hloop. unfold transform. rewrite Hcl, Hloop. simpl.
  eexists. eexists. split; reflexivity.
Qed.

Lemma transform_of_raise (e : SafeLabelEncoder L) (cl : list L) (y : list (option L))
    (ex : exn) :
  classes_ e = Some cl -> transform_loop e cl y = Raise ex -> transform e y = Raise ex.
Proof.
  intros Hcl Hloop. unfold transform. now rewrite Hcl, Hloop.
Qed.
Lemma fit_ok (e0 : SafeLabelEncoder L) (y_train : list (option L)) :
  dropna y_train <> [] -> exists e, fit e0 y_train = Ok e.
Proof.
  intros Hne. unfold fit.
  destruct (length (dropna y_train) =? 0) eqn:Elen.
  - apply Nat.eqb_eq in Elen. apply length_zero_iff_nil in Elen. contradiction.
  - eexists. reflexivity.
Qed.

Lemma mask_sum_all_false {A : Type} (y : list A) : mask_sum (map (fun _ => false) y) = 0.
Proof. induction y as [|x t IH]; simpl; [reflexivity | exact IH]. Qed.

Lemma existsb_all_false {A : Type} (y : list A) :
  existsb (fun b : bool => b) (map (fun _ => false) y) = false.
Proof. induction y as [|x t IH]; simpl; [reflexivity | exact IH]. Qed.

(** A batch of known labels is encoded by index and leaves the encoder as it was. *)
Lemma transform_seen (e : SafeLabelEncoder L) (cl : list L) (m : L) (y : list (option L)) :
  classes_ e = Some cl -> encoder e = Some cl -> forallb (seen cl) y = true ->
  exists encoded stats,
    transform e y = Ok (encoded, stats, e) /\ stat_unseen_count stats = 0 /\
    Forall2 (encodes e cl m) y encoded.
Proof.
  intros Hcl He Hall.
  destruct (transform_loop_seen e cl m y He Hall) as [encoded [Hloop HF]].
  unfold transform. rewrite Hcl, Hloop. cbn [bind].
  rewrite existsb_all_false.
  eexists. eexists. split; [reflexivity|]. split; [|exact HF].
  simpl. apply mask_sum_all_false.
Qed.

Lemma encodes_known (e : SafeLabelEncoder L) (cl : list L) (m : L) (ys : list L)
    (encoded : list Z) :
  Forall (fun l => In l cl) ys ->
  Forall2 (encodes e cl m) (map Some ys) encoded ->
  Forall2 (vocabulary_index cl) ys encoded.
Proof.
  intros Hall. revert encoded. induction Hall as [|l t Hl _ IH]; simpl; intros encoded HF.
  - inversion HF. constructor.
  - inversion HF as [|? v ? encoded' Henc HF']; subst.
    cbn [encodes] in Henc. destruct Henc as [Hknown _].
    constructor; [now apply Hknown | now apply IH].
Qed.

(** Under ['use_mode'] every code of a null-free batch is the index of a class. *)
Lemma encodes_use_mode (e : SafeLabelEncoder L) (cl : list L) (m : L) (ys : list L)
    (encoded : list Z) :
  handle_unknown e = "use_mode" -> In m cl ->
  Forall2 (encodes e cl m) (map Some ys) encoded ->
  exists classes, Forall2 (vocabulary_index cl) classes encoded /\
                  Forall (fun c => In c cl) classes.
Proof.
  intros Hstrat HInm. revert encoded.
  induction ys as [|l t IH]; simpl; intros encoded HF.
  - inversion HF. exists []. split; constructor.
  - inversion HF as [|? v ? encoded' Henc HF']; subst.
    cbn [encodes] in Henc. destruct Henc as [Hknown Hunknown].
    destruct (IH _ HF') as [classes [Hidx Hall]].
    rewrite Hstrat in Hunknown. simpl in Hunknown.
    destruct (np_contains cl l) eqn:Ec.
    + apply np_contains_In in Ec. exists (l :: classes).
      split; constructor; auto.
    + assert (~ In l cl) as Hl.
      { intros Hl. apply np_contains_In in Hl. congruence. }
      exists (m :: classes). split; constructor; auto.
Qed.

(** Indices of the vocabulary decode to their classes when the sentinel is
    not one of them. *)
Lemma inverse_transform_indices (e : SafeLabelEncoder L) (cl : list L) (ys : list L)
    (encoded : list Z) :
  classes_ e = Some cl ->
  ~ (0 <= unknown_value e < Z.of_nat (length cl))%Z ->
  Forall2 (vocabulary_index cl) ys encoded ->
  inverse_transform e encoded = Ok (map Class ys).
Proof.
  intros Hcl Hsent HF. induction HF as [|l v ys' encoded' Hidx _ IH]; simpl.
  - reflexivity.
  - destruct (vocabulary_index_range cl l v Hidx) as [Hrange _].
    destruct Hidx as [i [Hi ->]].
    unfold inverse_label.
    replace (Z.of_nat i =? unknown_value e)%Z with false
      by (symmetry; apply Z.eqb_neq; lia).
    rewrite Hcl.
    replace (Z.of_nat i <? 0)%Z with false by (symmetry; apply Z.ltb_ge; lia).
    replace (Z.of_nat i >=? Z.of_nat (length cl))%Z with false
      by (symmetry; rewrite Z.geb_leb; apply Z.leb_gt; lia).
    cbn [orb]. rewrite Nat2Z.id, Hi. cbn [bind]. rewrite IH. reflexivity.
Qed.

(** With the ['error'] strategy, [safe_encode_labels] raises when the test
    labels hold a null or a label the training labels do not have: it
    returns no encoded labels to score. *)
Lemma safe_encode_labels_strict (y_train y_test : list (option L)) :
  forallb (seen (np_unique (dropna y_train))) y_test = false ->
  exists ex, safe_encode_labels y_train y_test "error" = Raise ex.
Proof.
  intros Hunseen. unfold safe_encode_labels, fit_transform.
  destruct (fit (init "error" None) y_train) as [e1|ex] eqn:Efit; cbn [bind]; [|eauto].
  destruct (fit_inv _ _ _ Efit) as (Hcl & He & Hh & _).
  destruct (transform e1 y_train) as [[[enc1 st1] e2]|ex] eqn:Et1; cbn [bind]; [|eauto].
  destruct (transform_frame _ _ _ _ _ Et1) as (Hcl2 & _ & He2 & Hh2 & _).
  assert (encoder e2 = Some (np_unique (dropna y_train))) as He2' by congruence.
  assert (classes_ e2 = Some (np_unique (dropna y_train))) as Hcl2' by congruence.
  assert (handle_unknown e2 = "error") as Hh2' by (rewrite Hh2, Hh; reflexivity).
  destruct (transform_loop_strict e2 _ y_test He2' Hh2' Hunseen) as [msg Hmsg].
  rewrite (transform_of_raise e2 _ y_test _ Hcl2' Hmsg). cbn [bind]. eauto.
Qed.

(** C3 (as amended).  For an encoder fitted on [y_train], with vocabulary
    [cl] and mode [m] (a most frequent training label): unless the strategy
    is ['error'], [transform] returns and writes, value by value, the
    unknown sentinel for a null, the vocabulary index for a label of the
    vocabulary, and for a label outside it the index of [m] under
    ['use_mode'] and the unknown sentinel otherwise.  Under ['error'] a batch
    of known labels is encoded by index, and a batch holding a null or an
    unknown label raises a [ValueError], and [safe_encode_labels] with that
    strategy raises on such test labels, so no encoded labels exist for a
    metric to be computed from.  A label has one index in the vocabulary, and
    the sentinel of an encoder built without [unknown_value] is -1. *)
Theorem transform_value_by_strategy (e : SafeLabelEncoder L)
    (y_train y : list (option L)) :
  fitted_on e y_train ->
  exists cl m,
    classes_ e = Some cl /\ mode_class_ e = Some m /\ most_frequent m y_train /\
    (handle_unknown e <> "error" ->
       exists encoded stats e',
         transform e y = Ok (encoded, stats, e') /\
         Forall2 (encodes e cl m) y encoded) /\
    (handle_unknown e = "error" ->
       if forallb (seen cl) y
       then exists encoded stats e',
              transform e y = Ok (encoded, stats, e') /\
              Forall2 (encodes e cl m) y encoded
       else exists msg, transform e y = Raise (ValueError msg)) /\
    (forall y_test,
       forallb (seen cl) y_test = false ->
       exists ex, safe_encode_labels y_train y_test "error" = Raise ex) /\
    (forall l v v', vocabulary_index cl l v -> vocabulary_index cl l v' -> v = v') /\
    (forall h, unknown_value (init (L := L) h None) = (-1)%Z).
Proof.
  intros [e0 Hfit].
  destruct (fit_inv e0 e y_train Hfit) as (Hcl & He & _ & _ & _ & m & Hm & HInm & Hmf).
  exists (np_unique (dropna y_train)), m.
  repeat (split; [assumption|]).
  split; [|split; [|split; [apply safe_encode_labels_strict
                           |split; [apply vocabulary_index_unique|]]]].
  - intros Hstrat.
    destruct (transform_loop_lenient e _ m y He Hm HInm Hstrat) as [encoded [unseen [Hl HF]]].
    destruct (transform_of_loop e _ y _ _ _ Hcl Hl) as [stats [e' [Ht _]]].
    now exists encoded, stats, e'.
  - intros Hstrat. destruct (forallb (seen (np_unique (dropna y_train))) y) eqn:Hall.
    + destruct (transform_seen e _ m y Hcl He Hall) as [encoded [stats [Ht [_ HF]]]].
      now exists encoded, stats, e.
    + destruct (transform_loop_strict e _ y He Hstrat Hall) as [msg Hmsg].
      exists msg. now apply (transform_of_raise e (np_unique (dropna y_train))).
  - reflexivity.
Qed.

(** C6.  Fitting an encoder with the default sentinel on a non-empty label
    vector without nulls, transforming the vector and inverse-transforming
    the codes gives the labels back, each as itself: no label was counted as
    unseen and none decodes to a placeholder.  This holds for every strategy. *)
Theorem fit_transform_inverse_roundtrip (h : string) (y : list L) :
  y <> [] ->
  exists e encoded stats e',
    fit (init h None) (map Some y) = Ok e /\
    transform e (map Some y) = Ok (encoded, stats, e') /\
    stat_unseen_count stats = 0 /\
    inverse_transform e' encoded = Ok (map Class y).
Proof.
  intros Hne.
  destruct (fit_ok (init h None) (map Some y)) as [e Hfit].
  { now rewrite dropna_map_Some. }
  destruct (fit_inv _ e _ Hfit) as (Hcl & He & _ & Hu & _ & m & Hm & HInm & _).
  rewrite dropna_map_Some in *.
  assert (Forall (fun l => In l (np_unique y)) y) as Hknown.
  { apply Forall_forall. intros l Hl. now apply np_unique_In. }
  assert (forallb (seen (np_unique y)) (map Some y) = true) as Hall.
  { apply forallb_forall. intros x Hx. apply in_map_iff in Hx.
    destruct Hx as [l [<- Hl]]. simpl. apply np_contains_In. now apply np_unique_In. }
  destruct (transform_seen e _ m _ Hcl He Hall) as [encoded [stats [Ht [Hcount HF]]]].
  exists e, encoded, stats, e. repeat (split; [assumption|]).
  apply (inverse_transform_indices e (np_unique y)); [assumption | |].
  - rewrite Hu. simpl. lia.
  - now apply (encodes_known e _ m).
Qed.

(** C10 (as amended).  An encoder fitted with the ['use_mode'] strategy
    encodes every null-free batch, and every code is an index into the
    vocabulary.  When the unknown sentinel is not itself such an index (the
    default -1 never is), inverse-transforming the codes yields classes of
    the vocabulary only. *)
Theorem use_mode_codes_are_indices (e : SafeLabelEncoder L)
    (y_train : list (option L)) (y : list L) :
  fitted_on e y_train -> handle_unknown e = "use_mode" ->
  exists cl encoded stats e',
    classes_ e = Some cl /\
    transform e (map Some y) = Ok (encoded, stats, e') /\
    Forall (fun v => (0 <= v < Z.of_nat (length cl))%Z) encoded /\
    (~ (0 <= unknown_value e < Z.of_nat (length cl))%Z ->
       exists decoded,
         inverse_transform e' encoded = Ok (map Class decoded) /\
         Forall (fun c => In c cl) decoded).
Proof.
  intros [e0 Hfit] Hstrat.
  destruct (fit_inv e0 e y_train Hfit) as (Hcl & He & _ & _ & _ & m & Hm & HInm & _).
  assert (handle_unknown e <> "error") as Hne by (rewrite Hstrat; discriminate).
  destruct (transform_loop_lenient e _ m (map Some y) He Hm HInm Hne)
    as [encoded [unseen [Hl HF]]].
  destruct (transform_of_loop e _ _ _ _ _ Hcl Hl) as [stats [e' [Ht _]]].
  destruct (encodes_use_mode e _ m y encoded Hstrat HInm HF) as [classes [Hidx Hall]].
  destruct (transform_frame e e' _ _ _ Ht) as (Hcl' & _ & _ & _ & Hu').
  exists (np_unique (dropna y_train)), encoded, stats, e'.
  split; [assumption|]. split; [assumption|]. split.
  - clear -Hidx. induction Hidx as [|c v cs vs Hcv _ IH]; constructor; [|assumption].
    now apply (vocabulary_index_range _ c v).
  - intros Hsent. exists classes. split; [|assumption].
    apply (inverse_transform_indices e' (np_unique (dropna y_train))).
    + now rewrite Hcl'.
    + now rewrite Hu'.
    + assumption.
Qed.
End EncoderFacts.

(** *** The encoder on string labels *)

Lemma fitted_example_fitted (h : string) (u : option Z) (y_train : list (option string)) :
  SafeLabelEncoding.dropna y_train <> [] -> fitted_on (fitted_example h u y_train) y_train.
Proof.
  intros Hne. exists (SafeLabelEncoding.init h u). unfold fitted_example.
  destruct (fit_ok (SafeLabelEncoding.init h u) y_train Hne) as [e He].
  now rewrite He.
Qed.

(** [transform_value_by_strategy] on an encoder fitted on b, a, b with
    ['use_mode'], for the batch a, null, z. *)
Lemma transform_value_by_strategy_witness :
  fitted_on (fitted_example "use_mode" None [Some "b"; Some "a"; Some "b"])
            [Some "b"; Some "a"; Some "b"] /\
  exists encoded stats e',
    SafeLabelEncoding.transform
      (fitted_example "use_mode" None [Some "b"; Some "a"; Some "b"])
      [Some "a"; None; Some "z"] = Ok (encoded, stats, e').
Proof.
  assert (fitted_on (fitted_example "use_mode" None [Some "b"; Some "a"; Some "b"])
                    [Some "b"; Some "a"; Some "b"]) as Hfit.
  { exists (SafeLabelEncoding.init "use_mode" None). reflexivity. }
  split; [exact Hfit|].
  destruct (transform_value_by_strategy _ _ [Some "a"; None; Some "z"] Hfit)
    as (cl & m & _ & _ & _ & Hlenient & _).
  destruct Hlenient as (encoded & stats & e' & Ht & _).
  - simpl. discriminate.
  - now exists encoded, stats, e'.
Defined.

(** C3 does not hold as the specification states it: an encoder fitted with the ['error']
    strategy does not map a null to the unknown sentinel, it raises. *)
Lemma error_strategy_raises_on_null :
  fitted_on (fitted_example "error" None [Some "a"]) [Some "a"] /\
  SafeLabelEncoding.transform (fitted_example "error" None [Some "a"]) [None]
  = Raise (ValueError "NaN value encountered at index").
Proof.
  split; [|reflexivity].
  exists (SafeLabelEncoding.init "error" None). reflexivity.
Qed.

(** [fit_transform_inverse_roundtrip] on the labels b, a, b. *)
Lemma fit_transform_inverse_roundtrip_witness :
  exists e encoded stats e',
    SafeLabelEncoding.fit (SafeLabelEncoding.init "use_mode" None)
                          (map Some ["b"; "a"; "b"]) = Ok e /\
    SafeLabelEncoding.transform e (map Some ["b"; "a"; "b"]) = Ok (encoded, stats, e') /\
    SafeLabelEncoding.stat_unseen_count stats = 0 /\
    SafeLabelEncoding.inverse_transform e' encoded
    = Ok (map SafeLabelEncoding.Class ["b"; "a"; "b"]).
Proof.
  apply (fit_transform_inverse_roundtrip "use_mode" ["b"; "a"; "b"]). discriminate.
Defined.

(** [use_mode_codes_are_indices] on an encoder fitted on b, a, b, for the
    batch a, z. *)
Lemma use_mode_codes_are_indices_witness :
  exists cl encoded stats e',
    SafeLabelEncoding.classes_ (fitted_example "use_mode" None [Some "b"; Some "a"; Some "b"])
    = Some cl /\
    SafeLabelEncoding.transform
      (fitted_example "use_mode" None [Some "b"; Some "a"; Some "b"])
      (map Some ["a"; "z"]) = Ok (encoded, stats, e') /\
    Forall (fun v => (0 <= v < Z.of_nat (length cl))%Z) encoded.
Proof.
  destruct (use_mode_codes_are_indices
              (fitted_example "use_mode" None [Some "b"; Some "a"; Some "b"])
              [Some "b"; Some "a"; Some "b"] ["a"; "z"])
    as (cl & encoded & stats & e' & Hcl & Ht & Hrange & _).
  - exists (SafeLabelEncoding.init "use_mode" None). reflexivity.
  - reflexivity.
  - now exists cl, encoded, stats, e'.
Defined.

(** C10 does not hold as the specification states it: with ['use_mode'] and the sentinel set
    to 0, the code of the first class is the sentinel, and inverse-transform
    renders it as the unknown placeholder. *)
Lemma use_mode_sentinel_zero_decodes_to_placeholder :
  fitted_on (fitted_example "use_mode" (Some 0%Z) [Some "a"]) [Some "a"] /\
  SafeLabelEncoding.handle_unknown (fitted_example "use_mode" (Some 0%Z) [Some "a"])
  = "use_mode" /\
  exists stats e',
    SafeLabelEncoding.transform (fitted_example "use_mode" (Some 0%Z) [Some "a"])
                                (map Some ["a"]) = Ok ([0%Z], stats, e') /\
    SafeLabelEncoding.inverse_transform e' [0%Z] = Ok [SafeLabelEncoding.UNKNOWN 0%Z].
Proof.
  split; [exists (SafeLabelEncoding.init "use_mode" (Some 0%Z)); reflexivity|].
  split; [reflexivity|].
  eexists. eexists. split; reflexivity.
Qed.

(** ** pandas helpers *)





Lemma cells_dropna_idem (l : list cell) : cells_dropna (cells_dropna l) = cells_dropna l.
Proof.
  unfold cells_dropna. induction l as [|c t IH]; simpl; [reflexivity|].
  destruct (notna c) eqn:E; simpl; [rewrite E|]; now rewrite IH.
Qed.

Section PandasFacts.
Context `{Pandas}.



End PandasFacts.

(** ** The Problem-Type Classifier *)

Section ClassifierFacts.
Context `{Pandas}.


End ClassifierFacts.



(** [astype(int)] stays within [int64]. *)
Lemma astype_int_range (q : Q) : (int64_min <= astype_int q <= int64_max)%Z.
Proof.
  unfold astype_int. cbv zeta.
  destruct ((int64_min <=? Qnum q ÷ Z.pos (Qden q))%Z
            && (int64_max >=? Qnum q ÷ Z.pos (Qden q))%Z) eqn:E.
  - apply andb_prop in E. destruct E as [E1 E2].
    apply Z.leb_le in E1. rewrite Z.geb_leb in E2. apply Z.leb_le in E2. lia.
  - unfold int64_min, int64_max. lia.
Qed.

(** Whole numbers beyond [int64] are not integral in the sense of the
    three classifiers: 1e20 and 2e20 are not close to their [astype(int)],
    so two distinct values in twelve samples are a regression target, with
    the dtype float64. *)
Lemma large_float_labels_are_regression :
  ~ integral (inject_Z (10 ^ 20)) /\
  @DataValidation._infer_problem_type ExamplePandas DataValidation.default large_floats
    (@DataValidation._analyze_column ExamplePandas DataValidation.default large_floats "y")
  = regression /\
  DataValidation.coerce_to_dtype
    (@DataValidation._analyze_column ExamplePandas DataValidation.default large_floats "y")
  = Some "float64"%string /\
  @DataPreprocessing._detect_problem_type ExamplePandas large_floats = regression /\
  @TrainingService._infer_problem_type ExamplePandas large_floats = regression.
Proof.
  split; [|repeat split; vm_compute; reflexivity].
  unfold integral. intros E. vm_compute in E. discriminate.
Qed.

(** ** The Column Health Analyzer *)

Section AnalyzerFacts.
Context `{Pandas}.

(** C5.  A column whose null ratio reaches the validator's [max_null_ratio]
    (0.95 by default) is reported as invalid with the action drop, without
    mixed types and without a coercion target; the report is the same under
    every reading of its values as numbers or dates, since no type inference
    takes place. *)
Theorem high_null_ratio_is_dropped (v : DataValidation.DataValidator) (series : Series)
    (col : string) :
  0 < Series_len series ->
  (DataValidation.max_null_ratio v <= null_ratio series)%Q ->
  DataValidation.inferred_type (DataValidation._analyze_column v series col)
  = DataValidation.invalid /\
  DataValidation.recommended_action (DataValidation._analyze_column v series col)
  = DataValidation.drop /\
  DataValidation.has_mixed_types (DataValidation._analyze_column v series col) = false /\
  DataValidation.coerce_to_dtype (DataValidation._analyze_column v series col) = None /\
  (forall P' : Pandas,
     @DataValidation._analyze_column P' v series col
     = DataValidation._analyze_column v series col) /\
  DataValidation.max_null_ratio DataValidation.default = (95 # 100)%Q.
Proof.
  intros Hlen Hratio.
  assert (Qle_bool (DataValidation.max_null_ratio v * 100)
                   (DataValidation.null_pct_of series) = true) as Hpct.
  { apply Qle_bool_iff. unfold DataValidation.null_pct_of.
    apply Nat.ltb_lt in Hlen. rewrite Hlen. fold (null_ratio series).
    apply Qmult_le_compat_r; [assumption | discriminate]. }
  unfold DataValidation._analyze_column. rewrite Hpct. simpl.
  repeat (split; [reflexivity|]). reflexivity.
Qed.
End AnalyzerFacts.

(** [high_null_ratio_is_dropped] on a column with 19 of 20 values missing. *)
Lemma high_null_ratio_is_dropped_witness :
  DataValidation.recommended_action
    (@DataValidation._analyze_column ExamplePandas DataValidation.default mostly_null "c")
  = DataValidation.drop.
Proof.
  apply (@high_null_ratio_is_dropped ExamplePandas DataValidation.default mostly_null "c").
  - vm_compute. lia.
  - vm_compute. discriminate.
Defined.

(** ** Classification metrics *)

Section MetricsFacts.
Context `{Metrics}.

Lemma classification_metrics_scored (y_true y_pred : list Z) (acc : Q) (average : string) :
  exists m,
    match precision_score y_true y_pred average,
          recall_score y_true y_pred average,
          f1_score y_true y_pred average with
    | Ok precision, Ok recall, Ok f1 =>
        Ok {| TrainingService.accuracy := acc; TrainingService.precision := precision;
              TrainingService.recall := recall; TrainingService.f1 := f1 |}
    | _, _, _ =>
        Ok {| TrainingService.accuracy := acc; TrainingService.precision := acc;
              TrainingService.recall := acc; TrainingService.f1 := acc |}
    end = Ok m /\
    TrainingService.accuracy m = acc /\ scored_with average y_true y_pred acc m.
Proof.
  unfold scored_with.
  destruct (precision_score y_true y_pred average) as [p|];
    [destruct (recall_score y_true y_pred average) as [r|];
     [destruct (f1_score y_true y_pred average) as [f|]|]|];
    eexists; (split; [reflexivity|]); simpl; auto.
Qed.

(** C7.  Whenever [accuracy_score] returns, [_classification_metrics]
    returns and reports that accuracy.  With one distinct class among the
    evaluation labels, precision, recall and F1 are 1.  With exactly two, the
    three scorers are called with [average="binary"], and with any other
    number with [average="weighted"]. *)
Theorem classification_metrics_policy (y_true y_pred : list Q) (acc : Q) :
  accuracy_score (map astype_int y_true) (map astype_int y_pred) = Ok acc ->
  exists m,
    TrainingService._classification_metrics y_true y_pred = Ok m /\
    TrainingService.accuracy m = acc /\
    (length (np_unique (map astype_int y_true)) = 1 ->
     TrainingService.precision m = 1%Q /\ TrainingService.recall m = 1%Q /\
     TrainingService.f1 m = 1%Q) /\
    (length (np_unique (map astype_int y_true)) = 2 ->
     scored_with "binary" (map astype_int y_true) (map astype_int y_pred) acc m) /\
    (length (np_unique (map astype_int y_true)) <> 1 ->
     length (np_unique (map astype_int y_true)) <> 2 ->
     scored_with "weighted" (map astype_int y_true) (map astype_int y_pred) acc m).
Proof.
  intros Hacc. unfold TrainingService._classification_metrics. rewrite Hacc. cbn [bind].
  destruct (length (np_unique (map astype_int y_true))) as [|[|[|n]]] eqn:En; cbn [Nat.eqb].
  - destruct (classification_metrics_scored (map astype_int y_true) (map astype_int y_pred)
                acc "weighted") as (m & Hm & Ha & Hs).
    exists m. split; [exact Hm|]. split; [exact Ha|].
    split; [intros; lia|]. split; intros; first [exact Hs | lia].
  - eexists. split; [reflexivity|]. split; [reflexivity|].
    split; [intros; simpl; auto|]. split; intros; lia.
  - destruct (classification_metrics_scored (map astype_int y_true) (map astype_int y_pred)
                acc "binary") as (m & Hm & Ha & Hs).
    exists m. split; [exact Hm|]. split; [exact Ha|].
    split; [intros; lia|]. split; intros; first [exact Hs | lia].
  - destruct (classification_metrics_scored (map astype_int y_true) (map astype_int y_pred)
                acc "weighted") as (m & Hm & Ha & Hs).
    exists m. split; [exact Hm|]. split; [exact Ha|].
    split; [intros; lia|]. split; intros; first [exact Hs | lia].
Qed.

(** When [accuracy_score] raises, no metrics are returned at all. *)
Lemma classification_metrics_need_accuracy (y_true y_pred : list Q) (e : exn) :
  accuracy_score (map astype_int y_true) (map astype_int y_pred) = Raise e ->
  TrainingService._classification_metrics y_true y_pred = Raise e.
Proof.
  intros Hacc. unfold TrainingService._classification_metrics. now rewrite Hacc.
Qed.
End MetricsFacts.

(** [classification_metrics_policy] on four labels of two classes. *)
Lemma classification_metrics_policy_witness :
  exists m,
    @TrainingService._classification_metrics ExampleMetrics [0; 1; 1; 0]%Q [0; 1; 0; 0]%Q
    = Ok m /\
    TrainingService.accuracy m = (Qnat 3 / Qnat 4)%Q.
Proof.
  destruct (@classification_metrics_policy ExampleMetrics
              [0; 1; 1; 0]%Q [0; 1; 0; 0]%Q (Qnat 3 / Qnat 4)%Q)
    as (m & Hm & Hacc & _).
  - reflexivity.
  - now exists m.
Defined.

(** ** The Preprocessing Pipeline Builder: column routing *)

Lemma route3_fold (slot : string -> Slot) (cols : list string) :
  forall a b c,
    fold_left (route3 slot) cols (a, b, c)
    = (a ++ in_slot slot First cols, b ++ in_slot slot Second cols,
       c ++ in_slot slot Third cols).
Proof.
  unfold in_slot. induction cols as [|col t IH]; intros a b c; simpl.
  - now rewrite !app_nil_r.
  - destruct (slot col); simpl; rewrite IH, <- ?app_assoc; reflexivity.
Qed.

Lemma fold_left_ext {A B : Type} (f g : A -> B -> A) (l : list B) (a : A) :
  (forall x y, f x y = g x y) -> fold_left f l a = fold_left g l a.
Proof.
  intros Hext. revert a. induction l as [|y t IH]; intros a; simpl; [reflexivity|].
  now rewrite Hext, IH.
Qed.

Lemma in_slot_In (slot : string -> Slot) (s : Slot) (cols : list string) (col : string) :
  In col (in_slot slot s cols) <-> In col cols /\ slot col = s.
Proof.
  unfold in_slot. rewrite filter_In. split; intros [HIn Hs]; split; try assumption.
  - destruct (slot col), s; simpl in Hs; congruence.
  - rewrite Hs. now destruct s.
Qed.

Section RoutingFacts.
Context `{Pandas}.

Lemma classify_step_route (X : DataFrame) st col :
  DataPreprocessing.classify_step X st col = route3 (classify_slot X) st col.
Proof.
  destruct st as [[a b] c]. unfold DataPreprocessing.classify_step, route3, classify_slot.
  destruct (Series_len _ =? 0); [reflexivity|]. now destruct (Qltb _ _).
Qed.

Lemma classify_features_slots (X : DataFrame) :
  DataPreprocessing.classify_features X
  = (in_slot (classify_slot X) First (column_names X),
     in_slot (classify_slot X) Second (column_names X),
     in_slot (classify_slot X) Third (column_names X)).
Proof.
  unfold DataPreprocessing.classify_features.
  rewrite (fold_left_ext _ (route3 (classify_slot X)))
    by (intros; apply classify_step_route).
  now rewrite route3_fold.
Qed.
End RoutingFacts.

Lemma cardinality_step_route (X : DataFrame) st col :
  DataPreprocessing.cardinality_step X st col = route3 (cardinality_slot X) st col.
Proof.
  destruct st as [[a b] c].
  unfold DataPreprocessing.cardinality_step, route3, cardinality_slot,
    n_unique_of, n_samples_of.
  destruct (_ || _); [reflexivity|]. now destruct (_ || _).
Qed.

Lemma split_by_cardinality_slots (X : DataFrame) (cats : list string) :
  DataPreprocessing.split_by_cardinality X cats
  = (in_slot (cardinality_slot X) First cats, in_slot (cardinality_slot X) Second cats,
     in_slot (cardinality_slot X) Third cats).
Proof.
  unfold DataPreprocessing.split_by_cardinality.
  rewrite (fold_left_ext _ (route3 (cardinality_slot X)))
    by (intros; apply cardinality_step_route).
  now rewrite route3_fold.
Qed.

Lemma cardinality_slot_third (X : DataFrame) (col : string) :
  cardinality_slot X col = Third <-> apparent_identifier X col.
Proof.
  unfold cardinality_slot, apparent_identifier.
  destruct ((1000 <? n_unique_of X col) || (n_unique_of X col =? n_samples_of X col)) eqn:E.
  - split; [intros _ | reflexivity].
    apply orb_prop in E. destruct E as [E | E]; [left | right].
    + now apply Nat.ltb_lt. + now apply Nat.eqb_eq.
  - apply orb_false_elim in E. destruct E as [E1 E2].
    apply Nat.ltb_ge in E1. apply Nat.eqb_neq in E2.
    split; [destruct (_ || _); discriminate | intros [Hl | He]; [lia | contradiction]].
Qed.

Lemma cardinality_slot_second (X : DataFrame) (col : string) :
  cardinality_slot X col = Second <-> ~ apparent_identifier X col /\ low_cardinality X col.
Proof.
  rewrite <- cardinality_slot_third. unfold cardinality_slot, low_cardinality.
  destruct ((1000 <? n_unique_of X col) || (n_unique_of X col =? n_samples_of X col)).
  - split; [discriminate | intros [Hn _]; now elim Hn].
  - destruct ((50 <? n_unique_of X col)
              || Qltb (5 # 10) (Qnat (n_unique_of X col) / Qnat (n_samples_of X col))) eqn:E.
    + split; [discriminate|]. intros [_ [Hle Hq]]. exfalso.
      apply orb_prop in E. destruct E as [E | E].
      * apply Nat.ltb_lt in E. lia.
      * apply Qltb_lt in E. now apply (Qlt_not_le _ _ E).
    + apply orb_false_elim in E. destruct E as [E1 E2].
      apply Nat.ltb_ge in E1. apply Qltb_ge in E2.
      split; [intros _ | reflexivity]. split; [discriminate | now split].
Qed.

Lemma cardinality_slot_first (X : DataFrame) (col : string) :
  cardinality_slot X col = First <-> ~ apparent_identifier X col /\ ~ low_cardinality X col.
Proof.
  pose proof (cardinality_slot_third X col) as H3.
  pose proof (cardinality_slot_second X col) as H2.
  destruct (cardinality_slot X col); split; try discriminate; try reflexivity.
  - intros _. split.
    + intros Hid. apply H3 in Hid. discriminate.
    + intros Hlow. assert (First = Second) as E; [|discriminate].
      apply H2. split; [|assumption]. intros Hid. apply H3 in Hid. discriminate.
  - intros [Hid Hlow]. exfalso. apply Hlow. now apply H2.
  - intros [Hid _]. exfalso. apply Hid. now apply H3.
Qed.

Section RoutingTheorem.
Context `{Pandas}.

Lemma drop_low_variance_removed (X : DataFrame) (variance_threshold : Q)
    (numeric kept removed : list string) (col : string) :
  DataPreprocessing.drop_low_variance X variance_threshold numeric = (kept, removed) ->
  In col removed -> In col numeric.
Proof.
  unfold DataPreprocessing.drop_low_variance.
  destruct (_ && _); [destruct (negb _)|]; intros E; injection E as <- <-;
    try contradiction.
  intros HIn. now apply filter_In in HIn.
Qed.

(** C8.  For a column the builder took as categorical: if it looks like an
    identifier (more than 1000 distinct values, or as many as non-null rows)
    it is among the removed features and in neither group; otherwise it is
    not removed, it is in the low-cardinality group exactly when it has at
    most 50 distinct values and these are at most half its non-null rows,
    and in the high-cardinality group exactly when not. *)
Theorem categorical_column_routing (X : DataFrame) (variance_threshold : Q) (col : string)
    (numeric categorical all_null : list string) (r : DataPreprocessing.Routing)
    (removed : list string) :
  DataPreprocessing.classify_features X = (numeric, categorical, all_null) ->
  DataPreprocessing.route_features X variance_threshold = (r, removed) ->
  In col categorical ->
  (apparent_identifier X col ->
   In col removed /\
   ~ In col (DataPreprocessing.low_cardinality_cats r) /\
   ~ In col (DataPreprocessing.high_cardinality_cats r)) /\
  (~ apparent_identifier X col ->
   ~ In col removed /\
   (In col (DataPreprocessing.low_cardinality_cats r) <-> low_cardinality X col) /\
   (In col (DataPreprocessing.high_cardinality_cats r) <-> ~ low_cardinality X col)).
Proof.
  intros Hclassify Hroute Hcat.
  unfold DataPreprocessing.route_features in Hroute. rewrite Hclassify in Hroute.
  destruct (DataPreprocessing.drop_low_variance X variance_threshold numeric)
    as [kept removed2] eqn:Evar.
  rewrite split_by_cardinality_slots in Hroute. injection Hroute as <- <-. simpl.
  rewrite classify_features_slots in Hclassify. injection Hclassify as <- <- <-.
  assert (~ In col (in_slot (classify_slot X) Third (column_names X))) as Hnot_null.
  { intros Hc. apply in_slot_In in Hc. apply in_slot_In in Hcat.
    destruct Hc as [_ Hc], Hcat as [_ Hcat]. congruence. }
  assert (~ In col removed2) as Hnot_var.
  { intros Hc. apply (drop_low_variance_removed _ _ _ _ _ _ Evar) in Hc.
    apply in_slot_In in Hc. apply in_slot_In in Hcat.
    destruct Hc as [_ Hc], Hcat as [_ Hcat]. congruence. }
  rewrite !in_app_iff, !in_slot_In.
  rewrite in_slot_In in Hcat, Hnot_null.
  rewrite cardinality_slot_third, cardinality_slot_second, cardinality_slot_first.
  split.
  - intros Hid. tauto.
  - intros Hid. tauto.
Qed.
End RoutingTheorem.

(** [categorical_column_routing] on the column city of [cities]. *)
Lemma categorical_column_routing_witness :
  In "city" (DataPreprocessing.low_cardinality_cats
               (fst (@DataPreprocessing.route_features ExamplePandas cities 0))).
Proof.
  apply (@categorical_column_routing ExamplePandas cities 0 "city"
           [] ["city"; "id"] []
           (fst (@DataPreprocessing.route_features ExamplePandas cities 0))
           (snd (@DataPreprocessing.route_features ExamplePandas cities 0))).
  - reflexivity.
  - reflexivity.
  - simpl. auto.
  - unfold apparent_identifier. vm_compute. intros [Hl | He]; [lia | discriminate].
  - unfold low_cardinality. vm_compute. split; [lia | discriminate].
Defined.

(** ** The train/test split of small datasets *)







(** The rounding matters: for 100 rows and a share of 0.07 the exact product
    is 7, and the double-precision product 7.000000000000001 gives 8 test
    rows; both sizes are within the rule. *)
Lemma n_test_within_rounding :
  n_test_within 100 (7 # 100) 7 /\ n_test_within 100 (7 # 100) 8.
Proof.
  split.
  - exists 7%Q. split; [vm_compute; discriminate | reflexivity].
  - exists (7 + (1 # 1000000000000000))%Q. split; [vm_compute; discriminate | reflexivity].
Qed.

Section SplitFacts.
Context `{Sklearn}.

End SplitFacts.


(** ** The Dataset Validator: when it raises *)

Lemma lookup_has_column {A : Type} (t : string) (l : list (string * A)) :
  existsb (String.eqb t) (map fst l) = true -> exists a, lookup t l = Some a.
Proof.
  induction l as [|[k a] l IH]; simpl; [discriminate|].
  destruct (String.eqb t k); [eauto | exact IH].
Qed.

Lemma lookup_map {A B : Type} (f : string * A -> B) (t : string) (l : list (string * A)) :
  existsb (String.eqb t) (map fst l) = true ->
  exists b, lookup t (map (fun kv => (fst kv, f kv)) l) = Some b.
Proof.
  induction l as [|[k a] l IH]; simpl; [discriminate|].
  destruct (String.eqb t k); [eauto | exact IH].
Qed.

Section ValidatorFacts.
Context `{Pandas}.
Variable v : DataValidation.DataValidator.

(** Step 2 raises exactly for a requested target that is not a column. *)
Lemma analyze_target_cases (df : DataFrame) (target_col : option string) :
  (target_missing df target_col = true /\
   exists e, DataValidation.analyze_target v df target_col
               (DataValidation.analyze_columns v df) = Raise e) \/
  (target_missing df target_col = false /\
   exists r, DataValidation.analyze_target v df target_col
               (DataValidation.analyze_columns v df) = Ok r).
Proof.
  unfold DataValidation.analyze_target, target_missing.
  destruct target_col as [t|]; [|right; eauto].
  destruct (truthy (Some t)); [|right; eauto]. cbn [andb].
  destruct (has_column df t) eqn:Ecol; cbn [negb].
  - right. split; [reflexivity|]. unfold has_column, column_names in Ecol.
    destruct (lookup_has_column t (columns df) Ecol) as [s ->].
    unfold DataValidation.analyze_columns.
    destruct (lookup_map (fun kv => DataValidation._analyze_column v (snd kv) (fst kv))
                t (columns df) Ecol) as [h ->].
    eauto.
  - left. eauto.
Qed.

(** C4 (as amended).  [validate_and_clean] raises exactly when the table is
    absent or empty, or a requested target column is not in the table, or
    the cleaned table has no feature column, or a target column was
    requested and the cleaned table has fewer than 10 rows.  Otherwise it
    returns the cleaned table with a health report marked valid. *)
Theorem validate_and_clean_raises_iff (df : option DataFrame) (target_col : option string) :
  ((exists e, DataValidation.validate_and_clean v df target_col = Raise e) <->
   match df with
   | None => True
   | Some d =>
       df_empty d = true \/
       target_missing d target_col = true \/
       exists cleaned,
         DataValidation.cleaned_table v d target_col = Some cleaned /\
         (DataValidation.feature_columns cleaned target_col = [] \/
          (truthy target_col = true /\ index_len cleaned < 10))
   end) /\
  (forall cleaned report,
     DataValidation.validate_and_clean v df target_col = Ok (cleaned, report) ->
     exists d, df = Some d /\
               DataValidation.cleaned_table v d target_col = Some cleaned /\
               DataValidation.is_valid report = true /\
               DataValidation.total_rows report = index_len cleaned).
Proof.
  destruct df as [d|]; [|split; [split; [trivial | intros _; simpl; eauto] | discriminate]].
  unfold DataValidation.validate_and_clean, DataValidation.cleaned_table.
  destruct (df_empty d) eqn:Eempty.
  { split; [split; [auto | eauto] | discriminate]. }
  destruct (analyze_target_cases d target_col) as [[Hmiss [e He]] | [Hmiss [[th pt] Hr]]].
  - rewrite He. cbn [bind]. split; [split; [auto | eauto] | discriminate].
  - rewrite Hr, Hmiss. cbn [bind].
    destruct (DataValidation.clean_columns d target_col (DataValidation.analyze_columns v d))
      as [[cleaned1 dropped_cols] coerced_cols] eqn:Ecc.
    destruct (DataValidation.clean_target cleaned1 target_col th pt
                (DataValidation.analyze_columns v d)) as [[cleaned2 th'] reports] eqn:Ect.
    set (cleaned := DataValidation.drop_null_target_rows cleaned2 target_col).
    destruct (length (DataValidation.feature_columns cleaned target_col) =? 0) eqn:Ecols.
    + apply Nat.eqb_eq, length_zero_iff_nil in Ecols.
      split; [split; [intros _ | eauto] | discriminate].
      right. right. exists cleaned. auto.
    + apply Nat.eqb_neq in Ecols.
      assert (DataValidation.feature_columns cleaned target_col <> []) as Hne.
      { intros E. rewrite E in Ecols. now apply Ecols. }
      destruct (truthy target_col && (index_len cleaned <? 10)) eqn:Erows.
      * apply andb_prop in Erows. destruct Erows as [Ht Er]. apply Nat.ltb_lt in Er.
        split; [split; [intros _ | eauto] | discriminate].
        right. right. exists cleaned. auto.
      * split.
        -- split; [intros [e He]; discriminate|].
           intros [Hd | [Hd | [c [Hc [Hd | [Ht Hr10]]]]]]; try discriminate;
             injection Hc as <-; [contradiction|].
           apply Nat.ltb_lt in Hr10. rewrite Ht, Hr10 in Erows. discriminate.
        -- intros c report Hok. injection Hok as <- <-.
           exists d. split; [reflexivity|]. split; [|split; reflexivity].
           unfold DataValidation.cleaned_table. now rewrite Hr, Ecc, Ect.
Qed.
End ValidatorFacts.

(** C4 does not hold as the specification states it: without a target column, a table whose
    cleaned form has 5 rows (fewer than 10) is returned, not refused. *)
Lemma few_rows_without_target_are_accepted :
  exists report,
    @DataValidation.validate_and_clean ExamplePandas DataValidation.default
      (Some five_rows) None = Ok (five_rows, report) /\
    @DataValidation.cleaned_table ExamplePandas DataValidation.default five_rows None
    = Some five_rows /\
    index_len five_rows < 10.
Proof.
  eexists. split; [vm_compute; reflexivity|]. split; [vm_compute; reflexivity|].
  simpl. lia.
Qed.

(** ** Fitting sees the training partition only *)

Section LeakageFacts.
Context `{Pandas} `{Sklearn} {L : Type} `{Label L} `{Numpy L}.

Lemma fit_on_train_inv (self self' : DataPreprocessing.State) (X_train X_test : DataFrame)
    (y_train : Series) (use_target_encoder : bool) (variance_threshold : Q)
    (X_train_processed X_test_processed : Matrix) (fitted : Fitted) :
  DataPreprocessing.fit_on_train self X_train y_train X_test use_target_encoder
    variance_threshold = Ok (X_train_processed, X_test_processed, fitted, self') ->
  exists preprocessor,
    DataPreprocessing.build_pipeline self X_train use_target_encoder variance_threshold
    = Ok (preprocessor, self') /\
    fit_transform preprocessor X_train y_train = Ok (fitted, X_train_processed) /\
    transform fitted X_test = Ok X_test_processed.
Proof.
  unfold DataPreprocessing.fit_on_train.
  destruct (DataPreprocessing.build_pipeline self X_train use_target_encoder
              variance_threshold) as [[preprocessor s]|] eqn:Eb; cbn [bind]; [|discriminate].
  destruct (fit_transform preprocessor X_train y_train) as [[f m]|] eqn:Ef; [|discriminate].
  destruct (transform f X_test) as [m'|] eqn:Et; [|discriminate].
  intros E. injection E as <- <- <- <-. now exists preprocessor.
Qed.

Lemma preprocess_data_inv (self self' : DataPreprocessing.State) (df : DataFrame)
    (target_col : string) (test_size : Q) (use_target_encoder : bool)
    (variance_threshold : Q) (random_state : Z) (out : DataPreprocessing.Preprocessed) :
  DataPreprocessing.preprocess_data self df target_col test_size use_target_encoder
    variance_threshold random_state = Ok (out, self') ->
  exists X y problem_type X_train X_test self1,
    DataPreprocessing.split_dataset X y problem_type test_size random_state
    = Ok (X_train, X_test, DataPreprocessing.y_train out, DataPreprocessing.y_test out) /\
    DataPreprocessing.fit_on_train self X_train (DataPreprocessing.y_train out) X_test
      use_target_encoder variance_threshold
    = Ok (DataPreprocessing.X_train_processed out, DataPreprocessing.X_test_processed out,
          DataPreprocessing.fitted_preprocessor out, self1).
Proof.
  unfold DataPreprocessing.preprocess_data, DataPreprocessing.wrap_errors.
  match goal with |- match ?body with _ => _ end = _ -> _ =>
    destruct body as [res|e] eqn:E; [|destruct e; discriminate]
  end.
  intros Eres. injection Eres as ->.
  destruct (DataValidation.validate_and_clean _ _ _) as [[cleaned_df health_report]|];
    cbn [bind] in E; [|discriminate].
  destruct (lookup target_col (columns cleaned_df)) as [y0|]; [|discriminate].
  destruct (forallb isna (values y0)); [discriminate|].
  destruct (if existsb isna (values y0) then _ else _) as [X y].
  destruct (index_len X <? 10); [discriminate|].
  match type of E with context [DataPreprocessing.split_dataset X y ?pt _ _] =>
    set (problem_type := pt) in *
  end.
  destruct (DataPreprocessing.split_dataset X y problem_type test_size random_state)
    as [[[[X_train X_test] y_train] y_test]|] eqn:Esplit; cbn [bind] in E; [|discriminate].
  destruct (DataPreprocessing.fit_on_train self X_train y_train X_test use_target_encoder
              variance_threshold) as [[[[a b] f] s]|] eqn:Efit; cbn [bind] in E;
    [|discriminate].
  injection E as <- <-. simpl.
  now exists X, y, problem_type, X_train, X_test, s.
Qed.

Lemma safe_encode_labels_inv (y_train y_test : list (option L)) (h : string)
    (r : SafeLabelEncoding.Encoded L) :
  SafeLabelEncoding.safe_encode_labels y_train y_test h = Ok r ->
  exists e train_stats e1,
    SafeLabelEncoding.fit (SafeLabelEncoding.init h None) y_train = Ok e /\
    SafeLabelEncoding.transform e y_train
    = Ok (SafeLabelEncoding.y_train_encoded r, train_stats, e1) /\
    SafeLabelEncoding.classes_ (SafeLabelEncoding.fitted_encoder r)
    = SafeLabelEncoding.classes_ e /\
    SafeLabelEncoding.mode_class_ (SafeLabelEncoding.fitted_encoder r)
    = SafeLabelEncoding.mode_class_ e.
Proof.
  unfold SafeLabelEncoding.safe_encode_labels, SafeLabelEncoding.fit_transform.
  destruct (SafeLabelEncoding.fit (SafeLabelEncoding.init h None) y_train) as [e|] eqn:Efit;
    cbn [bind]; [|discriminate].
  destruct (SafeLabelEncoding.transform e y_train) as [[[enc1 st1] e1]|] eqn:Et1;
    cbn [bind]; [|discriminate].
  destruct (SafeLabelEncoding.transform e1 y_test) as [[[enc2 st2] e2]|] eqn:Et2;
    cbn [bind]; [|discriminate].
  intros E. injection E as <-. simpl.
  destruct (transform_frame _ _ _ _ _ Et1) as (Hc1 & Hm1 & _).
  destruct (transform_frame _ _ _ _ _ Et2) as (Hc2 & Hm2 & _).
  exists e, st1, e1. repeat split; congruence.
Qed.

(** C2.  Whatever [preprocess_data] returns was obtained by building the
    pipeline from the training partition of its split and fitting it on that
    partition and its labels; the test partition is passed to [transform]
    alone, which returns a matrix and no fitted state.  The encoder
    [safe_encode_labels] returns has the vocabulary and the mode of [fit] on
    the training labels, and the training codes are those of that encoder:
    none of them depends on the test labels.  The same holds of the encoder
    the trainer keeps. *)
Theorem fitting_uses_training_partition_only :
  (forall self self' df target_col test_size use_target_encoder variance_threshold
          random_state out,
     DataPreprocessing.preprocess_data self df target_col test_size use_target_encoder
       variance_threshold random_state = Ok (out, self') ->
     exists X y problem_type X_train X_test preprocessor self1,
       DataPreprocessing.split_dataset X y problem_type test_size random_state
       = Ok (X_train, X_test, DataPreprocessing.y_train out,
             DataPreprocessing.y_test out) /\
       DataPreprocessing.build_pipeline self X_train use_target_encoder variance_threshold
       = Ok (preprocessor, self1) /\
       fit_transform preprocessor X_train (DataPreprocessing.y_train out)
       = Ok (DataPreprocessing.fitted_preprocessor out,
             DataPreprocessing.X_train_processed out) /\
       transform (DataPreprocessing.fitted_preprocessor out) X_test
       = Ok (DataPreprocessing.X_test_processed out)) /\
  (forall self X_train y_train X_test X_test' use_target_encoder variance_threshold
          r r',
     DataPreprocessing.fit_on_train self X_train y_train X_test use_target_encoder
       variance_threshold = Ok r ->
     DataPreprocessing.fit_on_train self X_train y_train X_test' use_target_encoder
       variance_threshold = Ok r' ->
     fst (fst (fst r)) = fst (fst (fst r')) /\ snd (fst r) = snd (fst r') /\
     snd r = snd r') /\
  (forall (y_train y_test : list (option L)) h r,
     SafeLabelEncoding.safe_encode_labels y_train y_test h = Ok r ->
     exists e train_stats e1,
       SafeLabelEncoding.fit (SafeLabelEncoding.init h None) y_train = Ok e /\
       SafeLabelEncoding.transform e y_train
       = Ok (SafeLabelEncoding.y_train_encoded r, train_stats, e1) /\
       SafeLabelEncoding.classes_ (SafeLabelEncoding.fitted_encoder r)
       = SafeLabelEncoding.classes_ e /\
       SafeLabelEncoding.mode_class_ (SafeLabelEncoding.fitted_encoder r)
       = SafeLabelEncoding.mode_class_ e) /\
  (forall (y_train y_test : list (option L)) train_codes test_codes kept,
     TrainingService._encode_labels_safe y_train y_test
     = Ok (train_codes, test_codes, kept) ->
     exists e,
       SafeLabelEncoding.fit (SafeLabelEncoding.init "use_mode" None) y_train = Ok e /\
       SafeLabelEncoding.classes_ (TrainingService.label_encoder kept)
       = SafeLabelEncoding.classes_ e /\
       SafeLabelEncoding.mode_class_ (TrainingService.label_encoder kept)
       = SafeLabelEncoding.mode_class_ e).
Proof.
  split; [|split; [|split]].
  - intros self self' df target_col test_size ute vt rs out Hrun.
    destruct (preprocess_data_inv _ _ _ _ _ _ _ _ _ Hrun)
      as (X & y & pt & X_train & X_test & self1 & Hsplit & Hfit).
    destruct (fit_on_train_inv _ _ _ _ _ _ _ _ _ _ Hfit) as (pre & Hb & Hf & Ht).
    now exists X, y, pt, X_train, X_test, pre, self1.
  - intros self X_train y_train X_test X_test' ute vt
           [[[a b] f] s] [[[a' b'] f'] s'] Hr Hr'.
    destruct (fit_on_train_inv _ _ _ _ _ _ _ _ _ _ Hr) as (pre & Hb & Hf & _).
    destruct (fit_on_train_inv _ _ _ _ _ _ _ _ _ _ Hr') as (pre' & Hb' & Hf' & _).
    simpl. rewrite Hb in Hb'. injection Hb' as <- <-.
    rewrite Hf in Hf'. injection Hf' as <- <-. auto.
  - intros y_train y_test h r. apply safe_encode_labels_inv.
  - intros y_train y_test train_codes test_codes kept.
    unfold TrainingService._encode_labels_safe.
    destruct (TrainingService.validate_raw_labels y_train y_test); cbn [bind];
      [|discriminate].
    destruct (SafeLabelEncoding.safe_encode_labels y_train y_test "use_mode")
      as [r|] eqn:Er; cbn [bind]; [|discriminate].
    intros E. injection E as _ _ <-. simpl.
    destruct (safe_encode_labels_inv _ _ _ _ Er) as (e & _ & _ & Hfit & _ & Hc & Hm).
    now exists e.
Qed.
End LeakageFacts.

(** [fitting_uses_training_partition_only] on a run over twelve rows. *)
Lemma fitting_uses_training_partition_only_witness :
  exists out self',
    @DataPreprocessing.preprocess_data ExamplePandas ExampleSklearn DataPreprocessing.init
      twelve_with_target "y" (2 # 10) false 0 42 = Ok (out, self') /\
    exists X_train preprocessor,
      @fit_transform ExampleSklearn preprocessor X_train (DataPreprocessing.y_train out)
      = Ok (DataPreprocessing.fitted_preprocessor out,
            DataPreprocessing.X_train_processed out).
Proof.
  destruct (@DataPreprocessing.preprocess_data ExamplePandas ExampleSklearn
              DataPreprocessing.init twelve_with_target "y" (2 # 10) false 0 42)
    as [[out self']|] eqn:Erun; [|vm_compute in Erun; discriminate].
  exists out, self'. split; [reflexivity|].
  destruct (proj1 (@fitting_uses_training_partition_only ExamplePandas ExampleSklearn
                     string Label_string ExampleNumpy) _ _ _ _ _ _ _ _ _ Erun)
    as (X & y & pt & X_train & X_test & pre & self1 & Hsplit & Hb & Hf & Ht).
  exists X_train, pre. exact Hf.
Defined.

(** * Further properties of the code *)

(** ** The Safe Label Encoder: fitting, statistics, decoding *)

Section EncoderMore.
Import SafeLabelEncoding.
Context {L : Type} `{Label L} `{Numpy L}.

Lemma fit_raises_iff (e0 : SafeLabelEncoder L) (y : list (option L)) :
  (exists ex, fit e0 y = Raise ex) <-> dropna y = [].
Proof.
  unfold fit. destruct (length (dropna y) =? 0) eqn:E.
  - apply Nat.eqb_eq, length_zero_iff_nil in E. split; [auto | eauto].
  - apply Nat.eqb_neq in E. split; [intros [ex Hex]; discriminate|].
    intros Hnil. rewrite Hnil in E. simpl in E. lia.
Qed.

(** X1.  [fit] raises exactly when the training labels hold no non-null
    value.  Otherwise the vocabulary it stores is strictly increasing (so
    without repeats), holds exactly the non-null training labels, and
    [mapping_stats_] records it with its size. *)
Theorem fit_vocabulary (e0 : SafeLabelEncoder L) (y : list (option L)) :
  ((exists ex, fit e0 y = Raise ex) <-> dropna y = []) /\
  (forall e, fit e0 y = Ok e ->
     exists cl,
       classes_ e = Some cl /\
       StronglySorted label_lt cl /\
       (forall l, In l cl <-> In (Some l) y) /\
       exists stats, mapping_stats_ e = Some stats /\
                     classes stats = cl /\ n_classes stats = length cl).
Proof.
  split.
  - apply fit_raises_iff.
  - intros e Hfit. destruct (fit_inv e0 e y Hfit) as (Hcl & _).
    exists (np_unique (dropna y)). split; [assumption|].
    split; [apply np_unique_sorted|]. split.
    + intros l. rewrite np_unique_In. apply dropna_In.
    + unfold fit in Hfit. destruct (length (dropna y) =? 0); [discriminate|].
      injection Hfit as <-. simpl. eauto.
Qed.

(** What the loop body of [transform] records beside the code. *)
Lemma transform_label_flags (e : SafeLabelEncoder L) (cl : list L) (label : option L)
    (v : Z) (b : bool) (u : list L) :
  transform_label e cl label = Ok (v, b, u) ->
  b = negb (seen cl label) /\ u = dropna (if b then [label] else []).
Proof.
  unfold transform_label. destruct label as [l|]; cbn [seen].
  - destruct (np_contains cl l); cbn [negb].
    + destruct (LabelEncoder_transform (encoder e) l); cbn [bind]; [|discriminate].
      intros E. injection E as _ <- <-. auto.
    + destruct (handle_unknown e =? "error")%string; [discriminate|].
      destruct (handle_unknown e =? "use_mode")%string.
      * destruct (mode_class_ e); [|discriminate].
        destruct (LabelEncoder_transform (encoder e) l0); cbn [bind]; [|discriminate].
        intros E. injection E as _ <- <-. auto.
      * intros E. injection E as _ <- <-. auto.
  - destruct (handle_unknown e =? "error")%string; [discriminate|].
    intros E. injection E as _ <- <-. auto.
Qed.

Lemma transform_loop_flags (e : SafeLabelEncoder L) (cl : list L) (y : list (option L)) :
  forall encoded mask unseen,
    transform_loop e cl y = Ok (encoded, mask, unseen) ->
    length encoded = length y /\
    mask = map (fun l => negb (seen cl l)) y /\
    unseen = dropna (filter (fun l => negb (seen cl l)) y).
Proof.
  induction y as [|label rest IH]; intros encoded mask unseen; simpl.
  - intros E. injection E as <- <- <-. auto.
  - destruct (transform_label e cl label) as [[[v b] u]|] eqn:El; cbn [bind]; [|discriminate].
    destruct (transform_loop e cl rest) as [[[enc' mask'] unseen']|] eqn:Er; cbn [bind];
      [|discriminate].
    intros E. injection E as <- <- <-.
    destruct (transform_label_flags _ _ _ _ _ _ El) as [-> ->].
    destruct (IH _ _ _ eq_refl) as (Hlen & -> & ->).
    split; [simpl; lia|]. split; [reflexivity|].
    destruct (negb (seen cl label)); [|reflexivity].
    destruct label; reflexivity.
Qed.

Lemma mask_sum_filter {A : Type} (f : A -> bool) (y : list A) :
  mask_sum (map f y) = length (filter f y).
Proof.
  unfold mask_sum. induction y as [|x t IH]; simpl; [reflexivity|].
  destruct (f x); simpl; now rewrite IH.
Qed.

Lemma existsb_map_filter {A : Type} (f : A -> bool) (y : list A) :
  existsb (fun b : bool => b) (map f y) = false -> filter f y = [].
Proof.
  induction y as [|x t IH]; simpl; [reflexivity|].
  destruct (f x); simpl; [discriminate | exact IH].
Qed.

Lemma transform_length (e e' : SafeLabelEncoder L) (y : list (option L))
    (encoded : list Z) (stats : TransformStats) :
  transform e y = Ok (encoded, stats, e') -> length encoded = length y.
Proof.
  unfold transform. destruct (classes_ e) as [cl|]; [|discriminate].
  destruct (transform_loop e cl y) as [[[enc mask] unseen]|] eqn:El; cbn [bind];
    [|discriminate].
  intros E. injection E as <- _ _.
  now destruct (transform_loop_flags _ _ _ _ _ _ El).
Qed.

(** X2.  When [transform] returns: there is one code per value; the
    statistics count as unseen the values that are null or outside the
    vocabulary, and list the labels outside the vocabulary sorted and once
    each; the encoder's running list of unseen labels grows by exactly that
    list, and nothing is removed from it. *)
Theorem transform_statistics (e e' : SafeLabelEncoder L) (y : list (option L))
    (encoded : list Z) (stats : TransformStats) :
  transform e y = Ok (encoded, stats, e') ->
  exists cl,
    classes_ e = Some cl /\
    length encoded = length y /\
    total_samples stats = length y /\
    stat_unseen_count stats = length (filter (fun l => negb (seen cl l)) y) /\
    stat_unseen_labels stats = np_unique (dropna (filter (fun l => negb (seen cl l)) y)) /\
    unseen_labels_ e' = unseen_labels_ e ++ stat_unseen_labels stats /\
    strategy_used stats = handle_unknown e.
Proof.
  unfold transform. destruct (classes_ e) as [cl|]; [|discriminate].
  destruct (transform_loop e cl y) as [[[enc mask] unseen]|] eqn:El; cbn [bind];
    [|discriminate].
  intros E. injection E as <- <- <-.
  destruct (transform_loop_flags _ _ _ _ _ _ El) as (Hlen & -> & ->).
  exists cl. split; [reflexivity|]. split; [assumption|]. cbn.
  split; [reflexivity|]. split; [apply mask_sum_filter|].
  destruct (existsb (fun b : bool => b) (map (fun l => negb (seen cl l)) y)) eqn:Eany; cbn.
  - auto.
  - rewrite (existsb_map_filter _ _ Eany). cbn. rewrite app_nil_r. auto.
Qed.

(** The loop body reads the configuration and the fitted state only. *)
Lemma transform_label_agree (e1 e2 : SafeLabelEncoder L) (cl : list L) (label : option L) :
  encoder e1 = encoder e2 -> handle_unknown e1 = handle_unknown e2 ->
  unknown_value e1 = unknown_value e2 -> mode_class_ e1 = mode_class_ e2 ->
  transform_label e1 cl label = transform_label e2 cl label.
Proof.
  intros He Hh Hu Hm. unfold transform_label. now rewrite He, Hh, Hu, Hm.
Qed.

Lemma transform_loop_agree (e1 e2 : SafeLabelEncoder L) (cl : list L) (y : list (option L)) :
  encoder e1 = encoder e2 -> handle_unknown e1 = handle_unknown e2 ->
  unknown_value e1 = unknown_value e2 -> mode_class_ e1 = mode_class_ e2 ->
  transform_loop e1 cl y = transform_loop e2 cl y.
Proof.
  intros He Hh Hu Hm. induction y as [|label rest IH]; simpl; [reflexivity|].
  now rewrite (transform_label_agree e1 e2 cl label He Hh Hu Hm), IH.
Qed.

(** X3.  A call to [transform] leaves the encoder such that every later
    call returns the codes and statistics it would have returned before:
    the running list of unseen labels is the only state that changes, and
    no result depends on it. *)
Theorem transform_does_not_depend_on_history (e e1 : SafeLabelEncoder L)
    (y y' : list (option L)) (encoded : list Z) (stats : TransformStats) :
  transform e y = Ok (encoded, stats, e1) ->
  outcome (transform e1 y') = outcome (transform e y').
Proof.
  intros Ht. destruct (transform_frame _ _ _ _ _ Ht) as (Hc & Hm & He & Hh & Hu).
  unfold transform. rewrite Hc. destruct (classes_ e) as [cl|]; [|reflexivity].
  rewrite (transform_loop_agree e1 e cl y' He Hh Hu Hm).
  destruct (transform_loop e cl y') as [[[enc mask] unseen]|]; cbn; [|reflexivity].
  now rewrite Hh.
Qed.

(** X4.  On an encoder with a vocabulary, [inverse_transform] never raises:
    it returns one value per code, the unknown placeholder for the sentinel,
    the invalid placeholder for any other code outside the vocabulary, and
    the class at that position otherwise. *)
Theorem inverse_transform_total (e : SafeLabelEncoder L) (cl : list L) (codes : list Z) :
  classes_ e = Some cl ->
  exists decoded,
    inverse_transform e codes = Ok decoded /\ Forall2 (decodes e cl) codes decoded.
Proof.
  intros Hcl. induction codes as [|v rest IH]; simpl.
  - exists []. split; [reflexivity | constructor].
  - destruct IH as [ds [Hds HF]]. unfold inverse_label. rewrite Hcl.
    destruct (v =? unknown_value e)%Z eqn:Eu.
    + apply Z.eqb_eq in Eu. cbn [bind]. rewrite Hds. cbn [bind].
      eexists. split; [reflexivity|]. constructor; [|assumption].
      split; [auto | intros Hne; contradiction].
    + apply Z.eqb_neq in Eu.
      destruct ((v <? 0) || (v >=? Z.of_nat (length cl)))%Z eqn:Er.
      * cbn [bind]. rewrite Hds. cbn [bind].
        eexists. split; [reflexivity|]. constructor; [|assumption].
        split; [intros Heq; contradiction|]. intros _. split; [auto|].
        intros Hin. apply orb_prop in Er.
        destruct Er as [Er | Er]; [apply Z.ltb_lt in Er | rewrite Z.geb_leb in Er;
                                   apply Z.leb_le in Er]; lia.
      * apply orb_false_elim in Er. destruct Er as [E1 E2].
        apply Z.ltb_ge in E1. rewrite Z.geb_leb in E2. apply Z.leb_gt in E2.
        destruct (nth_error cl (Z.to_nat v)) as [c|] eqn:En.
        -- cbn [bind]. rewrite Hds. cbn [bind].
           eexists. split; [reflexivity|]. constructor; [|assumption].
           split; [intros Heq; contradiction|]. intros _. split; [intros; lia|].
           intros _. now exists c.
        -- apply nth_error_None in En. lia.
Qed.

Lemma inverse_of_encodes (e : SafeLabelEncoder L) (cl : list L) (m : L)
    (y : list (option L)) (encoded : list Z) :
  classes_ e = Some cl ->
  (handle_unknown e =? "use_mode")%string = false ->
  ~ (0 <= unknown_value e < Z.of_nat (length cl))%Z ->
  Forall2 (encodes e cl m) y encoded ->
  inverse_transform e encoded = Ok (map (decoded_value e cl) y).
Proof.
  intros Hcl Hmode Hsent HF. induction HF as [|label v y' encoded' Henc _ IH]; simpl.
  - reflexivity.
  - rewrite IH. clear IH.
    assert (inverse_label e v = Ok (decoded_value e cl label)) as ->; [|reflexivity].
    unfold inverse_label, decoded_value. destruct label as [l|]; cbn [encodes] in Henc.
    + destruct Henc as [Hknown Hunknown]. destruct (np_contains cl l) eqn:Ec.
      * apply np_contains_In in Ec.
        destruct (vocabulary_index_range cl l v (Hknown Ec)) as [Hrange _].
        destruct (Hknown Ec) as [i [Hi ->]].
        replace (Z.of_nat i =? unknown_value e)%Z with false
          by (symmetry; apply Z.eqb_neq; lia).
        rewrite Hcl.
        replace (Z.of_nat i <? 0)%Z with false by (symmetry; apply Z.ltb_ge; lia).
        replace (Z.of_nat i >=? Z.of_nat (length cl))%Z with false
          by (symmetry; rewrite Z.geb_leb; apply Z.leb_gt; lia).
        cbn [orb]. now rewrite Nat2Z.id, Hi.
      * assert (~ In l cl) as Hl.
        { intros Hl. apply np_contains_In in Hl. congruence. }
        specialize (Hunknown Hl). rewrite Hmode in Hunknown. subst v.
        now rewrite Z.eqb_refl.
    + subst v. now rewrite Z.eqb_refl.
Qed.

(** X5.  With unknown values encoded by a sentinel that is not a position
    of the vocabulary (any strategy but ['error'] and ['use_mode'], and for
    instance the default -1), transforming any batch and inverse-transforming
    the codes gives each known label back as itself and the unknown
    placeholder for every null and every unknown label. *)
Theorem transform_inverse_with_sentinel (e : SafeLabelEncoder L)
    (y_train y : list (option L)) :
  fitted_on e y_train ->
  handle_unknown e <> "error" -> handle_unknown e <> "use_mode" ->
  (unknown_value e < 0)%Z ->
  exists cl encoded stats e',
    classes_ e = Some cl /\
    transform e y = Ok (encoded, stats, e') /\
    inverse_transform e' encoded = Ok (map (decoded_value e cl) y).
Proof.
  intros [e0 Hfit] Herr Hmode Hneg.
  destruct (fit_inv e0 e y_train Hfit) as (Hcl & He & _ & _ & _ & m & Hm & HInm & _).
  destruct (transform_loop_lenient e _ m y He Hm HInm Herr) as [encoded [unseen [Hl HF]]].
  destruct (transform_of_loop e _ _ _ _ _ Hcl Hl) as [stats [e' [Ht _]]].
  destruct (transform_frame _ _ _ _ _ Ht) as (Hc' & Hm' & He' & Hh' & Hu').
  exists (np_unique (dropna y_train)), encoded, stats, e'.
  split; [assumption|]. split; [assumption|].
  apply String.eqb_neq in Hmode.
  assert (forall label v, encodes e (np_unique (dropna y_train)) m label v ->
                          encodes e' (np_unique (dropna y_train)) m label v) as Hsame.
  { intros [l|] v; unfold encodes; now rewrite ?Hh', ?Hu'. }
  rewrite (inverse_of_encodes e' (np_unique (dropna y_train)) m y encoded).
  - f_equal. apply map_ext. intros [l|]; unfold decoded_value; now rewrite Hu'.
  - congruence.
  - now rewrite Hh'.
  - rewrite Hu'. lia.
  - clear -HF Hsame. induction HF; constructor; auto.
Qed.

(** A lenient transform on a fitted encoder returns. *)
Lemma transform_lenient_ok (e : SafeLabelEncoder L) (cl : list L) (m : L)
    (y : list (option L)) :
  classes_ e = Some cl -> encoder e = Some cl -> mode_class_ e = Some m -> In m cl ->
  handle_unknown e <> "error" ->
  exists encoded stats e', transform e y = Ok (encoded, stats, e').
Proof.
  intros Hcl He Hm HIn Hstrat.
  destruct (transform_loop_lenient e cl m y He Hm HIn Hstrat) as [encoded [unseen [Hl _]]].
  destruct (transform_of_loop e cl _ _ _ _ Hcl Hl) as [stats [e' [Ht _]]].
  now exists encoded, stats, e'.
Qed.

(** X6.  Under every strategy but ['error'], [safe_encode_labels] raises
    exactly when there is no non-null training label; otherwise it returns
    one code per training label and one per test label, whatever the test
    labels are.  The trainer first checks the label distribution, then
    calls it with ['use_mode']: when neither label vector holds a null,
    [_encode_labels_safe] raises exactly when there is no training label;
    when [np.unique] cannot sort one of the raw vectors, it raises a
    [TypeError] before encoding anything. *)
Theorem lenient_encoding_raises_iff (y_train y_test : list (option L)) (h : string) :
  h <> "error"%string ->
  ((exists ex, safe_encode_labels y_train y_test h = Raise ex) <-> dropna y_train = []) /\
  (forall r, safe_encode_labels y_train y_test h = Ok r ->
     length (y_train_encoded r) = length y_train /\
     length (y_test_encoded r) = length y_test) /\
  (~ In None y_train -> ~ In None y_test ->
   ((exists ex, TrainingService._encode_labels_safe y_train y_test = Raise ex) <->
    y_train = [])) /\
  (unique_raises y_train || unique_raises y_test = true ->
   exists msg, TrainingService._encode_labels_safe y_train y_test = Raise (TypeError msg)).
Proof.
  intros Hstrat.
  assert (forall h', h' <> "error"%string ->
            ((exists ex, safe_encode_labels y_train y_test h' = Raise ex) <->
             dropna y_train = []) /\
            (forall r, safe_encode_labels y_train y_test h' = Ok r ->
               length (y_train_encoded r) = length y_train /\
               length (y_test_encoded r) = length y_test)) as Hgen.
  { intros h' Hh'. unfold safe_encode_labels, fit_transform.
    destruct (fit (init h' None) y_train) as [e|ex] eqn:Efit; cbn [bind].
    - destruct (fit_inv _ _ _ Efit) as (Hcl & He & Hh & _ & _ & m & Hm & HInm & _).
      assert (handle_unknown e <> "error"%string) as Hne by (rewrite Hh; exact Hh').
      destruct (transform_lenient_ok e _ m y_train Hcl He Hm HInm Hne)
        as (enc1 & st1 & e1 & Ht1).
      destruct (transform_frame _ _ _ _ _ Ht1) as (Hc1 & Hm1 & He1 & Hh1 & _).
      destruct (transform_lenient_ok e1 (np_unique (dropna y_train)) m y_test)
        as (enc2 & st2 & e2 & Ht2); try congruence.
      rewrite Ht1. cbn [bind]. rewrite Ht2. cbn [bind]. split.
      + split; [intros [ex Hex]; discriminate|].
        intros Hnil. apply (fit_raises_iff (init h' None) y_train) in Hnil.
        destruct Hnil as [ex Hex]. congruence.
      + intros r E. injection E as <-. cbn [y_train_encoded y_test_encoded].
        split; [exact (transform_length _ _ _ _ _ Ht1)
               | exact (transform_length _ _ _ _ _ Ht2)].
    - split; [|discriminate]. split; [intros _ | eauto].
      apply (fit_raises_iff (init h' None) y_train). eauto. }
  destruct (Hgen h Hstrat) as [Hraise Hlen].
  split; [exact Hraise|]. split; [exact Hlen|]. split.
  - intros Hnonull Hnonull'.
    assert (dropna y_train = [] <-> y_train = []) as Hdrop.
    { split; [|intros ->; reflexivity].
      destruct y_train as [|[l|] t]; [reflexivity | discriminate |].
      exfalso. apply Hnonull. now left. }
    rewrite <- Hdrop.
    destruct (Hgen "use_mode"%string) as [Hmode _]; [discriminate|].
    rewrite <- Hmode.
    unfold TrainingService._encode_labels_safe, TrainingService.validate_raw_labels.
    destruct (unique_raises y_train) eqn:E1;
      [apply unique_raises_null in E1; contradiction|].
    destruct (unique_raises y_test) eqn:E2;
      [apply unique_raises_null in E2; contradiction|].
    cbn [orb bind].
    destruct (safe_encode_labels y_train y_test "use_mode") as [r|ex]; cbn [bind].
    + split; intros [ex Hex]; discriminate.
    + split; eauto.
  - intros Hr.
    unfold TrainingService._encode_labels_safe, TrainingService.validate_raw_labels.
    rewrite Hr. cbn [bind]. eauto.
Qed.
End EncoderMore.

(** ** The label distribution check *)

Section DistributionFacts.
Import SafeLabelEncoding.
Context {L : Type} `{Label L}.

Lemma np_argmin_from_spec (l : list nat) :
  forall pre i best_i best,
    i = length pre -> nth_error (pre ++ l) best_i = Some best ->
    (forall c, In c pre -> best <= c) ->
    let a := np_argmin_from l i best_i best in
    exists m, nth_error (pre ++ l) a = Some m /\ forall c, In c (pre ++ l) -> m <= c.
Proof.
  induction l as [|c t IH]; intros pre i best_i best Hi Hbest Hmin; simpl.
  - exists best. split; [assumption|]. rewrite app_nil_r. assumption.
  - replace (pre ++ c :: t) with ((pre ++ [c]) ++ t) in *
      by (rewrite <- app_assoc; reflexivity).
    destruct (c <? best) eqn:E.
    + apply Nat.ltb_lt in E.
      apply (IH (pre ++ [c]) (S i) i c).
      * rewrite length_app. simpl. lia.
      * subst i. rewrite nth_error_app1 by (rewrite length_app; simpl; lia).
        rewrite nth_error_app2 by lia. now rewrite Nat.sub_diag.
      * intros c' HIn. apply in_app_or in HIn. destruct HIn as [HIn | [-> | []]].
        -- specialize (Hmin _ HIn). lia.
        -- lia.
    + apply Nat.ltb_ge in E.
      apply (IH (pre ++ [c]) (S i) best_i best).
      * rewrite length_app. simpl. lia.
      * assumption.
      * intros c' HIn. apply in_app_or in HIn. destruct HIn as [HIn | [-> | []]].
        -- now apply Hmin.
        -- assumption.
Qed.

(** [np.argmin] points at a minimum of a non-empty array. *)
Lemma np_argmin_spec (l : list nat) :
  l <> [] ->
  exists m, nth_error l (np_argmin l) = Some m /\ forall c, In c l -> m <= c.
Proof.
  destruct l as [|c t]; [congruence|]. intros _.
  unfold np_argmin.
  apply (np_argmin_from_spec t [c] 1 0 c); try reflexivity.
  intros c' [-> | []]. lia.
Qed.

Lemma filter_empty_iff {A : Type} (f : A -> bool) (l : list A) :
  filter f l = [] <-> forall x, In x l -> f x = false.
Proof.
  induction l as [|a t IH]; simpl.
  - split; [intros _ x [] | reflexivity].
  - destruct (f a) eqn:E.
    + split; [discriminate|]. intros Hall. specialize (Hall a (or_introl eq_refl)). congruence.
    + rewrite IH. split.
      * intros Hall x [<- | Hx]; auto.
      * intros Hall x Hx. apply Hall. now right.
Qed.

Lemma count_of_pos (l : L) (y : list L) : In l y -> 1 <= count_of l y.
Proof.
  intros Hl. unfold count_of.
  destruct (filter (label_eqb l) y) as [|x t] eqn:E; [|simpl; lia].
  rewrite filter_empty_iff in E. specialize (E l Hl).
  rewrite label_eqb_refl in E. discriminate.
Qed.

Lemma indicator_sum_absent (U : list L) (x : L) :
  ~ In x U -> list_sum (map (fun u => if label_eqb u x then 1 else 0) U) = 0.
Proof.
  induction U as [|u U' IH]; simpl; [reflexivity|].
  intros Hx. destruct (label_eqb u x) eqn:E.
  - apply label_eqb_eq in E. subst u. tauto.
  - apply IH. tauto.
Qed.

Lemma indicator_sum_present (U : list L) (x : L) :
  NoDup U -> In x U -> list_sum (map (fun u => if label_eqb u x then 1 else 0) U) = 1.
Proof.
  induction U as [|u U' IH]; simpl; [tauto|].
  intros Hnd Hx. inversion Hnd as [|? ? Hu Hnd']; subst.
  destruct (label_eqb u x) eqn:E.
  - apply label_eqb_eq in E. subst u. now rewrite indicator_sum_absent.
  - destruct Hx as [-> | Hx]; [rewrite label_eqb_refl in E; discriminate|].
    now apply IH.
Qed.

Lemma list_sum_map_add {A : Type} (f g : A -> nat) (l : list A) :
  list_sum (map (fun a => f a + g a) l) = list_sum (map f l) + list_sum (map g l).
Proof.
  induction l as [|a t IH]; simpl; [reflexivity|]. rewrite IH. lia.
Qed.

(** The counts of [np.unique(y, return_counts=True)] add up to the size. *)
Lemma np_counts_sum (U y : list L) :
  NoDup U -> (forall l, In l y -> In l U) -> list_sum (np_counts U y) = length y.
Proof.
  intros Hnd. unfold np_counts. induction y as [|x t IH]; intros Hincl.
  - simpl. clear. induction U as [|u U' IHU]; simpl; [reflexivity | exact IHU].
  - rewrite (map_ext _ (fun u => (if label_eqb u x then 1 else 0)
                                 + length (filter (label_eqb u) t))).
    + rewrite list_sum_map_add, indicator_sum_present, IH; simpl; auto.
      * intros l Hl. apply Hincl. now right.
      * apply Hincl. now left.
    + intros u. simpl. destruct (label_eqb u x); reflexivity.
Qed.

Lemma np_counts_ge_length (U y : list L) :
  (forall l, In l U -> 1 <= count_of l y) -> length U <= list_sum (np_counts U y).
Proof.
  unfold np_counts. induction U as [|u U' IH]; intros Hpos; simpl; [lia|].
  specialize (Hpos u (or_introl eq_refl)) as Hu. unfold count_of in Hu.
  assert (length U' <= list_sum (map (fun u0 => length (filter (label_eqb u0) y)) U')).
  { apply IH. intros l Hl. apply Hpos. now right. }
  lia.
Qed.

Lemma combine_counts_In (U y : list L) (l : L) (c : nat) :
  In (l, c) (combine U (np_counts U y)) <-> In l U /\ c = count_of l y.
Proof.
  unfold np_counts. induction U as [|u U' IH]; simpl; [tauto|].
  rewrite IH. split.
  - intros [E | [Hl Hc]]; [injection E as <- <-|]; auto.
  - intros [[<- | Hl] ->]; auto.
Qed.

Lemma combine_counts_snd (U y : list L) :
  map snd (combine U (np_counts U y)) = np_counts U y.
Proof.
  unfold np_counts. induction U as [|u U' IH]; simpl; [reflexivity|]. now rewrite IH.
Qed.

(** The three groups of entries of [issues]. *)
Lemma issues_split (y_train y_test : list L) (k : nat) (i : LabelIssue) :
  In i (issues (validate_label_distribution y_train y_test k)) ->
  let train_unique := np_unique y_train in
  let train_counts := np_counts train_unique y_train in
  let sparse := filter (fun kc : L * nat => snd kc <? k) (combine train_unique train_counts) in
  let unseen := filter (fun l => negb (np_contains train_unique l)) (np_unique y_test) in
  (i = sparse_classes (length sparse) sparse /\ sparse <> []) \/
  (i = unseen_test_labels (length unseen) (firstn 10 unseen) /\ unseen <> []) \/
  (exists max_class min_class,
     1 < length train_counts /\
     nth_error train_unique (np_argmax train_counts) = Some max_class /\
     nth_error train_unique (np_argmin train_counts) = Some min_class /\
     let max_count := nth (np_argmax train_counts) train_counts 0 in
     let min_count := nth (np_argmin train_counts) train_counts 0 in
     let ratio := (inject_Z (Z.of_nat max_count) / inject_Z (Z.of_nat min_count))%Q in
     Qle_bool ratio 50 = false /\
     i = class_imbalance ratio max_class max_count min_class min_count).
Proof.
  unfold validate_label_distribution. cbn [issues]. intros Hi.
  apply in_app_or in Hi. destruct Hi as [Hi | Hi].
  - left. destruct (filter _ (combine _ _)) as [|s ss] eqn:Es; simpl in Hi; [tauto|].
    destruct Hi as [<- | []]. split; [reflexivity | discriminate].
  - apply in_app_or in Hi. destruct Hi as [Hi | Hi].
    + right. left.
      destruct (filter _ (np_unique y_test)) as [|s ss] eqn:Es; simpl in Hi; [tauto|].
      destruct Hi as [<- | []]. split; [reflexivity | discriminate].
    + right. right.
      destruct (1 <? length (np_counts (np_unique y_train) y_train)) eqn:E1;
        [|destruct Hi].
      apply Nat.ltb_lt in E1.
      destruct (Qle_bool _ 50) eqn:Eq; cbn [negb] in Hi; [destruct Hi|].
      destruct (nth_error (np_unique y_train) (np_argmax _)) as [max_class|];
        [|destruct Hi].
      destruct (nth_error (np_unique y_train) (np_argmin _)) as [min_class|];
        [|destruct Hi].
      destruct Hi as [<- | []]. exists max_class, min_class. auto.
Qed.

(** X7.  The distribution check reports [valid] exactly when every test
    label occurs among the training labels; sparse classes and imbalance
    are warnings and never make the report invalid. *)
Theorem label_distribution_valid_iff (y_train y_test : list L) (k : nat) :
  valid (validate_label_distribution y_train y_test k) = true <->
  (forall l, In l y_test -> In l y_train).
Proof.
  assert ((forall l, In l y_test -> In l y_train) <->
          filter (fun l => negb (np_contains (np_unique y_train) l)) (np_unique y_test) = [])
    as ->.
  { rewrite filter_empty_iff. split.
    - intros Hall l Hl. rewrite np_unique_In in Hl. apply Hall in Hl.
      rewrite <- np_unique_In, <- np_contains_In in Hl. now rewrite Hl.
    - intros Hall l Hl. rewrite <- np_unique_In in Hl. apply Hall in Hl.
      apply negb_false_iff in Hl. rewrite np_contains_In, np_unique_In in Hl.
      exact Hl. }
  unfold validate_label_distribution. cbn [valid]. rewrite Nat.eqb_eq, length_zero_iff_nil.
  rewrite filter_empty_iff. split.
  - intros Hnone.
    destruct (filter _ (np_unique y_test)) as [|s ss] eqn:Es; [reflexivity|].
    specialize (Hnone (unseen_test_labels (length (s :: ss)) (firstn 10 (s :: ss)))).
    cbn [is_error] in Hnone. enough (true = false) by discriminate.
    apply Hnone. apply in_or_app. right. apply in_or_app. left. now left.
  - intros Hnil i Hi.
    destruct (issues_split y_train y_test k i Hi) as [[-> _] | [[_ Hne] | Himb]].
    + reflexivity.
    + contradiction.
    + destruct Himb as (? & ? & _ & _ & _ & _ & ->). reflexivity.
Qed.

(** X8.  The two distributions of the report are class counts: each lists
    exactly the labels that occur, each with its positive number of
    occurrences, and the counts add up to the number of samples. *)
Theorem label_distribution_counts (y_train y_test : list L) (k : nat) :
  let r := validate_label_distribution y_train y_test k in
  (forall l c, In (l, c) (train_distribution r) <->
               In l y_train /\ c = count_of l y_train) /\
  (forall l c, In (l, c) (test_distribution r) <->
               In l y_test /\ c = count_of l y_test) /\
  (forall l c, In (l, c) (train_distribution r) -> 1 <= c) /\
  list_sum (map snd (train_distribution r)) = length y_train /\
  list_sum (map snd (test_distribution r)) = length y_test /\
  n_train_classes r = length (train_distribution r) /\
  n_train_classes r <= length y_train.
Proof.
  unfold validate_label_distribution.
  cbn [train_distribution test_distribution n_train_classes].
  assert (forall y : list L, list_sum (np_counts (np_unique y) y) = length y) as Hsum.
  { intros y. apply np_counts_sum; [apply np_unique_NoDup|].
    intros l. apply np_unique_In. }
  repeat split.
  - apply combine_counts_In in H0. now apply np_unique_In.
  - now apply combine_counts_In in H0.
  - intros [Hl ->]. apply combine_counts_In. split; [now apply np_unique_In | reflexivity].
  - apply combine_counts_In in H0. now apply np_unique_In.
  - now apply combine_counts_In in H0.
  - intros [Hl ->]. apply combine_counts_In. split; [now apply np_unique_In | reflexivity].
  - intros l c Hlc. apply combine_counts_In in Hlc. destruct Hlc as [Hl ->].
    apply count_of_pos. now apply np_unique_In.
  - rewrite combine_counts_snd. apply Hsum.
  - rewrite combine_counts_snd. apply Hsum.
  - rewrite length_combine. unfold np_counts. rewrite length_map. lia.
  - pose proof (np_counts_ge_length (np_unique y_train) y_train) as Hge.
    rewrite Hsum in Hge. apply Hge.
    intros l Hl. apply count_of_pos. now apply np_unique_In.
Qed.
End DistributionFacts.

Section DistributionIssues.
Import SafeLabelEncoding.
Context {L : Type} `{Label L}.

(** X9.  A sparse-classes warning lists exactly the training classes with
    fewer than [min_samples_per_class] samples, with their counts, and says
    how many they are; it is reported only when there is such a class, so
    never for a threshold of 0 or 1 (the trainer passes 1). *)
Theorem sparse_classes_reported (y_train y_test : list L) (k n : nat)
    (details : list (L * nat)) :
  In (sparse_classes n details) (issues (validate_label_distribution y_train y_test k)) ->
  2 <= k /\ n = length details /\ details <> [] /\
  forall l c, In (l, c) details <->
              In l y_train /\ c = count_of l y_train /\ c < k.
Proof.
  intros Hi.
  destruct (issues_split y_train y_test k _ Hi) as [[E Hne] | [[E _] | Himb]].
  - injection E as -> ->.
    assert (forall l c,
      In (l, c) (filter (fun kc : L * nat => snd kc <? k)
                   (combine (np_unique y_train) (np_counts (np_unique y_train) y_train))) <->
      In l y_train /\ c = count_of l y_train /\ c < k) as Hd.
    { intros l c. rewrite filter_In, combine_counts_In, np_unique_In. cbn [snd].
      rewrite Nat.ltb_lt. tauto. }
    split; [|auto].
    destruct (filter _ (combine _ _)) as [|[l c] t]; [contradiction|].
    destruct (proj1 (Hd l c) (or_introl eq_refl)) as (Hl & -> & Hlt).
    pose proof (count_of_pos l y_train Hl). lia.
  - discriminate.
  - destruct Himb as (? & ? & _ & _ & _ & _ & E). discriminate.
Qed.

(** X10.  A class-imbalance warning names a most frequent and a least
    frequent training class with their counts, and is reported only when
    the larger count is more than 50 times the smaller. *)
Theorem class_imbalance_reported (y_train y_test : list L) (k : nat) (ratio : Q)
    (max_class min_class : L) (max_count min_count : nat) :
  In (class_imbalance ratio max_class max_count min_class min_count)
     (issues (validate_label_distribution y_train y_test k)) ->
  In max_class y_train /\ In min_class y_train /\
  max_count = count_of max_class y_train /\ min_count = count_of min_class y_train /\
  (forall l, In l y_train -> min_count <= count_of l y_train <= max_count) /\
  50 * min_count < max_count.
Proof.
  intros Hi.
  destruct (issues_split y_train y_test k _ Hi) as [[E _] | [[E _] | Himb]];
    [discriminate | discriminate |].
  destruct Himb as (cmax & cmin & Hlen & Hmax & Hmin & Hratio & E).
  injection E as -> -> -> -> ->.
  set (U := np_unique y_train) in *. set (counts := np_counts U y_train) in *.
  assert (counts <> []) as Hne by (destruct counts; [simpl in Hlen; lia | discriminate]).
  destruct (np_argmax_spec counts Hne) as [mx [Hmx Hmx_all]].
  destruct (np_argmin_spec counts Hne) as [mn [Hmn Hmn_all]].
  pose proof (occurrences_counts y_train U _ _ Hmax) as Hcmax.
  pose proof (occurrences_counts y_train U _ _ Hmin) as Hcmin.
  fold counts in Hcmax, Hcmin. fold (count_of cmax y_train) in Hcmax.
  fold (count_of cmin y_train) in Hcmin.
  rewrite Hmx in Hcmax. rewrite Hmn in Hcmin.
  injection Hcmax as ->. injection Hcmin as ->.
  rewrite (nth_error_nth _ _ 0 Hmx) in *. rewrite (nth_error_nth _ _ 0 Hmn) in *.
  assert (In cmax y_train) as HInmax by (apply np_unique_In; eapply nth_error_In; eauto).
  assert (In cmin y_train) as HInmin by (apply np_unique_In; eapply nth_error_In; eauto).
  repeat split; auto.
  - apply Hmn_all. unfold counts, np_counts. apply in_map_iff. exists l.
    split; [reflexivity | now apply np_unique_In].
  - apply Hmx_all. unfold counts, np_counts. apply in_map_iff. exists l.
    split; [reflexivity | now apply np_unique_In].
  - pose proof (count_of_pos cmin y_train HInmin) as Hpos.
    destruct (Nat.lt_ge_cases (50 * count_of cmin y_train) (count_of cmax y_train))
      as [Hlt | Hge]; [assumption|].
    enough (Qle_bool (inject_Z (Z.of_nat (count_of cmax y_train))
                      / inject_Z (Z.of_nat (count_of cmin y_train))) 50 = true)
      by congruence.
    apply Qle_bool_iff. apply Qle_shift_div_r.
    + replace 0%Q with (inject_Z 0) by reflexivity. rewrite <- Zlt_Qlt. lia.
    + replace 50%Q with (inject_Z 50) by reflexivity.
      rewrite <- inject_Z_mult, <- Zle_Qle. lia.
Qed.

Lemma forallb_seen (cl : list L) (y : list (option L)) :
  forallb (seen cl) y = true <-> ~ In None y /\ forall l, In (Some l) y -> In l cl.
Proof.
  rewrite forallb_forall. split.
  - intros Hall. split.
    + intros Hnone. specialize (Hall _ Hnone). discriminate.
    + intros l Hl. specialize (Hall _ Hl). now apply np_contains_In in Hall.
  - intros [Hnone Hall] [l|] Hl; [|contradiction].
    cbn [seen]. apply np_contains_In. auto.
Qed.

(** X11.  Under the ['error'] strategy [safe_encode_labels] returns exactly
    when there is a training label, neither label vector holds a null, and
    every test label occurs among the training labels; it then reports no
    unseen value. *)
Theorem strict_encoding_succeeds_iff (y_train y_test : list (option L)) :
  ((exists r, safe_encode_labels y_train y_test "error" = Ok r) <->
   y_train <> [] /\ ~ In None y_train /\ ~ In None y_test /\
   forall l, In (Some l) y_test -> In (Some l) y_train) /\
  (forall r, safe_encode_labels y_train y_test "error" = Ok r ->
     stat_unseen_count (train (combined_stats r)) = 0 /\
     stat_unseen_count (test (combined_stats r)) = 0).
Proof.
  set (cl := np_unique (dropna y_train)).
  assert (forall l, In l cl <-> In (Some l) y_train) as Hcl_In.
  { intros l. unfold cl. rewrite np_unique_In. apply dropna_In. }
  assert (forall e1, fit (init "error" None) y_train = Ok e1 ->
          forallb (seen cl) y_train = false ->
          exists ex, transform e1 y_train = Raise ex) as Htrain_raise.
  { intros e1 Efit Hunseen.
    destruct (fit_inv _ _ _ Efit) as (Hcl & He & Hh & _).
    destruct (transform_loop_strict e1 _ y_train He Hh Hunseen) as [msg Hmsg].
    rewrite (transform_of_raise e1 _ y_train _ Hcl Hmsg). eauto. }
  assert (forall e1, fit (init "error" None) y_train = Ok e1 ->
          forallb (seen cl) y_train = true -> forallb (seen cl) y_test = true ->
          exists enc1 st1 enc2 st2,
            transform e1 y_train = Ok (enc1, st1, e1) /\ stat_unseen_count st1 = 0 /\
            transform e1 y_test = Ok (enc2, st2, e1) /\ stat_unseen_count st2 = 0)
    as Hboth.
  { intros e1 Efit H1 H2.
    destruct (fit_inv _ _ _ Efit) as (Hcl & He & _ & _ & _ & m & _).
    destruct (transform_seen e1 _ m y_train Hcl He H1) as (enc1 & st1 & Ht1 & Hz1 & _).
    destruct (transform_seen e1 _ m y_test Hcl He H2) as (enc2 & st2 & Ht2 & Hz2 & _).
    exists enc1, st1, enc2, st2. auto. }
  split; [split|].
  - intros [r Hr].
    destruct (forallb (seen cl) y_test) eqn:Etest.
    + destruct (forallb (seen cl) y_train) eqn:Etrain.
      * apply forallb_seen in Etest, Etrain.
        destruct Etest as [Hn2 Hall2]. destruct Etrain as [Hn1 _].
        split; [|split; [assumption|split; [assumption|]]].
        -- intros ->. unfold safe_encode_labels, fit_transform in Hr. discriminate.
        -- intros l Hl. apply Hcl_In. auto.
      * unfold safe_encode_labels, fit_transform in Hr.
        destruct (fit (init "error" None) y_train) as [e1|] eqn:Efit; cbn [bind] in Hr;
          [|discriminate].
        destruct (Htrain_raise e1 eq_refl eq_refl) as [ex Hex].
        rewrite Hex in Hr. discriminate.
    + destruct (safe_encode_labels_strict y_train y_test Etest) as [ex Hex]. congruence.
  - intros (Hne & Hn1 & Hn2 & Hsub).
    assert (dropna y_train <> []) as Hdrop.
    { destruct y_train as [|[l|] t]; [contradiction | | exfalso; apply Hn1; now left].
      intros E. assert (In l (dropna (Some l :: t))) as Hl by (apply dropna_In; now left).
      rewrite E in Hl. destruct Hl. }
    destruct (fit_ok (init "error" None) y_train Hdrop) as [e1 Efit].
    destruct (Hboth e1 Efit) as (enc1 & st1 & enc2 & st2 & Ht1 & _ & Ht2 & _).
    + apply forallb_seen. split; [assumption|]. intros l. apply Hcl_In.
    + apply forallb_seen. split; [assumption|]. intros l Hl. apply Hcl_In. auto.
    + unfold safe_encode_labels, fit_transform. rewrite Efit. cbn [bind].
      rewrite Ht1. cbn [bind]. rewrite Ht2. cbn [bind]. eauto.
  - intros r Hr.
    unfold safe_encode_labels, fit_transform in Hr.
    destruct (fit (init "error" None) y_train) as [e1|] eqn:Efit; cbn [bind] in Hr;
      [|discriminate].
    destruct (forallb (seen cl) y_train) eqn:Etrain.
    + destruct (forallb (seen cl) y_test) eqn:Etest.
      * destruct (Hboth e1 eq_refl eq_refl eq_refl)
          as (enc1 & st1 & enc2 & st2 & Ht1 & Hz1 & Ht2 & Hz2).
        rewrite Ht1 in Hr. cbn [bind] in Hr. rewrite Ht2 in Hr. cbn [bind] in Hr.
        injection Hr as <-. auto.
      * destruct (safe_encode_labels_strict y_train y_test Etest) as [ex Hex].
        unfold safe_encode_labels, fit_transform in Hex. rewrite Efit in Hex.
        cbn [bind] in Hex. destruct (transform e1 y_train) as [[[? ?] e2]|]; cbn [bind] in *;
          [|discriminate].
        congruence.
    + destruct (Htrain_raise e1 eq_refl eq_refl) as [ex Hex].
      rewrite Hex in Hr. discriminate.
Qed.
End DistributionIssues.

(** [transform_statistics] on an encoder fitted on b, a, b with ['use_mode'],
    for the batch a, null, z, z. *)
Lemma transform_statistics_witness :
  exists encoded stats e',
    SafeLabelEncoding.transform
      (fitted_example "use_mode" None [Some "b"; Some "a"; Some "b"])
      [Some "a"; None; Some "z"; Some "z"] = Ok (encoded, stats, e') /\
    SafeLabelEncoding.stat_unseen_count stats = 3 /\
    SafeLabelEncoding.stat_unseen_labels stats = ["z"].
Proof.
  destruct (SafeLabelEncoding.transform
              (fitted_example "use_mode" None [Some "b"; Some "a"; Some "b"])
              [Some "a"; None; Some "z"; Some "z"]) as [[[encoded stats] e']|ex] eqn:Et;
    [|vm_compute in Et; discriminate].
  exists encoded, stats, e'. split; [reflexivity|].
  destruct (transform_statistics _ _ _ _ _ Et) as (cl & Hcl & _ & _ & Hcount & Hlabels & _).
  vm_compute in Hcl. injection Hcl as <-.
  split; [exact Hcount | exact Hlabels].
Defined.

(** [transform_does_not_depend_on_history]: after the batch z, the batch
    a, y is encoded as before. *)
Lemma transform_does_not_depend_on_history_witness :
  exists encoded stats e1,
    SafeLabelEncoding.transform
      (fitted_example "use_mode" None [Some "b"; Some "a"; Some "b"])
      [Some "z"] = Ok (encoded, stats, e1) /\
    outcome (SafeLabelEncoding.transform e1 [Some "a"; Some "y"])
    = outcome (SafeLabelEncoding.transform
                 (fitted_example "use_mode" None [Some "b"; Some "a"; Some "b"])
                 [Some "a"; Some "y"]).
Proof.
  destruct (SafeLabelEncoding.transform
              (fitted_example "use_mode" None [Some "b"; Some "a"; Some "b"])
              [Some "z"]) as [[[encoded stats] e1]|ex] eqn:Et;
    [|vm_compute in Et; discriminate].
  exists encoded, stats, e1. split; [reflexivity|].
  exact (transform_does_not_depend_on_history _ _ _ _ _ _ Et).
Defined.

(** [inverse_transform_total] on the codes 0, 1, -1, 7 of a two-class
    vocabulary. *)
Lemma inverse_transform_total_witness :
  SafeLabelEncoding.classes_ (fitted_example "use_mode" None [Some "b"; Some "a"; Some "b"])
  = Some ["a"; "b"] /\
  exists decoded,
    SafeLabelEncoding.inverse_transform
      (fitted_example "use_mode" None [Some "b"; Some "a"; Some "b"])
      [0; 1; -1; 7]%Z = Ok decoded /\
    Forall2 (decodes (fitted_example "use_mode" None [Some "b"; Some "a"; Some "b"])
                     ["a"; "b"])
            [0; 1; -1; 7]%Z decoded.
Proof.
  split; [reflexivity|].
  apply (inverse_transform_total
           (fitted_example "use_mode" None [Some "b"; Some "a"; Some "b"]) ["a"; "b"]).
  reflexivity.
Defined.

(** [transform_inverse_with_sentinel] on an encoder fitted on b, a with
    ['use_encoded_value'], for the batch a, null, z. *)
Lemma transform_inverse_with_sentinel_witness :
  fitted_on (fitted_example "use_encoded_value" None [Some "b"; Some "a"])
            [Some "b"; Some "a"] /\
  exists cl encoded stats e',
    SafeLabelEncoding.classes_ (fitted_example "use_encoded_value" None [Some "b"; Some "a"])
    = Some cl /\
    SafeLabelEncoding.transform
      (fitted_example "use_encoded_value" None [Some "b"; Some "a"])
      [Some "a"; None; Some "z"] = Ok (encoded, stats, e') /\
    SafeLabelEncoding.inverse_transform e' encoded
    = Ok (map (decoded_value (fitted_example "use_encoded_value" None [Some "b"; Some "a"]) cl)
              [Some "a"; None; Some "z"]).
Proof.
  assert (fitted_on (fitted_example "use_encoded_value" None [Some "b"; Some "a"])
                    [Some "b"; Some "a"]) as Hfit.
  { exists (SafeLabelEncoding.init "use_encoded_value" None). reflexivity. }
  split; [exact Hfit|].
  apply (transform_inverse_with_sentinel _ _ [Some "a"; None; Some "z"] Hfit).
  - simpl. discriminate.
  - simpl. discriminate.
  - reflexivity.
Defined.

(** [sparse_classes_reported]: with a threshold of 2, the class b of
    a, a, b is sparse. *)
Lemma sparse_classes_reported_witness :
  In (SafeLabelEncoding.sparse_classes 1 [("b", 1)])
     (SafeLabelEncoding.issues
        (SafeLabelEncoding.validate_label_distribution ["a"; "a"; "b"] ["a"] 2)) /\
  2 <= 2 /\ 1 = length [("b", 1)].
Proof.
  assert (In (SafeLabelEncoding.sparse_classes 1 [("b", 1)])
             (SafeLabelEncoding.issues
                (SafeLabelEncoding.validate_label_distribution ["a"; "a"; "b"] ["a"] 2)))
    as Hi by (vm_compute; left; reflexivity).
  split; [exact Hi|].
  destruct (sparse_classes_reported _ _ _ _ _ Hi) as (Hk & Hn & _).
  split; [exact Hk | exact Hn].
Defined.

(** [class_imbalance_reported]: 51 samples of a against one of b. *)
Lemma class_imbalance_reported_witness :
  In (SafeLabelEncoding.class_imbalance (51 # 1) "a" 51 "b" 1)
     (SafeLabelEncoding.issues
        (SafeLabelEncoding.validate_label_distribution (repeat "a" 51 ++ ["b"]) ["a"] 1)) /\
  50 * 1 < 51.
Proof.
  assert (In (SafeLabelEncoding.class_imbalance (51 # 1) "a" 51 "b" 1)
             (SafeLabelEncoding.issues
                (SafeLabelEncoding.validate_label_distribution
                   (repeat "a" 51 ++ ["b"]) ["a"] 1)))
    as Hi by (vm_compute; left; reflexivity).
  split; [exact Hi|].
  destruct (class_imbalance_reported _ _ _ _ _ _ _ _ Hi) as (_ & _ & _ & _ & _ & Hlt).
  exact Hlt.
Defined.

(** ** The validator: what a returned table and report look like *)

Lemma column_names_drop_column (d : DataFrame) (c : string) :
  column_names (drop_column d c) = filter (fun c' => negb (String.eqb c c')) (column_names d).
Proof.
  unfold column_names, drop_column. cbn [columns].
  induction (columns d) as [|[k s] t IH]; simpl; [reflexivity|].
  destruct (String.eqb c k); simpl; now rewrite IH.
Qed.

Lemma column_names_set_column (d : DataFrame) (c : string) (s : Series) :
  column_names (set_column d c s) = column_names d.
Proof.
  unfold column_names, set_column. cbn [columns]. rewrite map_map.
  apply map_ext. intros [k x]. simpl. destruct (String.eqb c k); reflexivity.
Qed.

Lemma column_names_select_rows (d : DataFrame) (keep : list bool) :
  column_names (select_rows d keep) = column_names d.
Proof.
  unfold column_names, select_rows. cbn [columns]. rewrite map_map.
  apply map_ext. intros [k x]. reflexivity.
Qed.

Lemma filter_all {A : Type} (l : list A) : filter (fun _ => true) l = l.
Proof. induction l as [|a t IH]; simpl; [reflexivity | now rewrite IH]. Qed.

Lemma filter_filter {A : Type} (p q : A -> bool) (l : list A) :
  filter p (filter q l) = filter (fun x => q x && p x) l.
Proof.
  induction l as [|a t IH]; simpl; [reflexivity|].
  destruct (q a); simpl; [destruct (p a)|]; now rewrite IH.
Qed.

Lemma mem_In (c : string) (names : list string) : mem c names = true <-> In c names.
Proof.
  unfold mem. rewrite existsb_exists. split.
  - intros [x [Hx E]]. apply String.eqb_eq in E. now subst.
  - intros Hc. exists c. split; [assumption | apply String.eqb_refl].
Qed.

Lemma lookup_In {A : Type} (k : string) (l : list (string * A)) (a : A) :
  lookup k l = Some a -> In (k, a) l.
Proof.
  induction l as [|[k' a'] t IH]; simpl; [discriminate|].
  destruct (String.eqb k k') eqn:E.
  - apply String.eqb_eq in E. subst k'. intros E. injection E as ->. now left.
  - intros Hl. right. now apply IH.
Qed.

Lemma lookup_map_snd {A B : Type} (f : A -> B) (k : string) (l : list (string * A)) (a : A) :
  lookup k l = Some a ->
  lookup k (map (fun kv => (fst kv, f (snd kv))) l) = Some (f a).
Proof.
  induction l as [|[k' a'] t IH]; simpl; [discriminate|].
  destruct (String.eqb k k'); [intros E; injection E as ->; reflexivity | exact IH].
Qed.

Lemma keep_where_notna (l : list cell) :
  keep_where (map negb (map isna l)) l = cells_dropna l.
Proof.
  unfold cells_dropna, notna. induction l as [|c t IH]; simpl; [reflexivity|].
  destruct (isna c); simpl; now rewrite IH.
Qed.

Lemma keep_where_length {A : Type} (keep : list bool) (l : list A) :
  length keep = length l ->
  length (keep_where keep l) = length (filter (fun b => b) keep).
Proof.
  revert l. induction keep as [|b k IH]; intros [|x t]; simpl; try discriminate; auto.
  intros E. injection E as E. destruct b; simpl; auto.
Qed.

Lemma filter_length_le {A : Type} (f : A -> bool) (l : list A) :
  length (filter f l) <= length l.
Proof.
  induction l as [|a t IH]; simpl; [lia|]. destruct (f a); simpl; lia.
Qed.

Section ValidatorShape.
Context `{Pandas}.
Variable v : DataValidation.DataValidator.

(** The loop of step 3 removes the columns of [to_drop] and nothing else;
    it keeps the rows. *)
Lemma clean_columns_fold (target_col : option string)
    (reports : list (string * DataValidation.ColumnHealth)) :
  forall d0 dr0 co0 d dr co,
    fold_left (DataValidation.clean_step target_col) reports (d0, dr0, co0) = (d, dr, co) ->
    index_len d = index_len d0 /\
    dr = dr0 ++ to_drop target_col reports /\
    column_names d
    = filter (fun c => negb (mem c (to_drop target_col reports))) (column_names d0) /\
    (well_formed d0 -> well_formed d).
Proof.
  induction reports as [|[c h] rest IH]; intros d0 dr0 co0 d dr co Hfold.
  - simpl in Hfold. injection Hfold as <- <- <-. unfold to_drop. simpl.
    rewrite app_nil_r, filter_all. auto.
  - cbn [fold_left] in Hfold. unfold DataValidation.clean_step in Hfold at 2.
    unfold to_drop. cbn [filter fst snd].
    destruct (is_target target_col c) eqn:Et; cbn [negb andb].
    + exact (IH _ _ _ _ _ _ Hfold).
    + destruct (DataValidation.recommended_action h) eqn:Ea;
        [assert (is_drop h = false) as -> by (unfold is_drop; now rewrite Ea)
        |assert (is_drop h = true) as -> by (unfold is_drop; now rewrite Ea)
        |assert (is_drop h = false) as -> by (unfold is_drop; now rewrite Ea)].
      * exact (IH _ _ _ _ _ _ Hfold).
      * destruct (IH _ _ _ _ _ _ Hfold) as (Hi & Hd & Hn & Hwf).
        split; [exact Hi|]. split.
        -- rewrite Hd, <- app_assoc. reflexivity.
        -- split.
           ++ rewrite Hn, column_names_drop_column, filter_filter. apply filter_ext.
              intros x. cbn [map fst]. unfold mem at 2. cbn [existsb].
              fold (mem x (to_drop target_col rest)). unfold to_drop.
              rewrite (String.eqb_sym x c), negb_orb. reflexivity.
           ++ intros Hwf0. apply Hwf. unfold well_formed, drop_column in *.
              cbn [columns index_len]. apply Forall_forall. intros kv Hkv.
              apply filter_In in Hkv. destruct Hkv as [Hkv _].
              rewrite Forall_forall in Hwf0. auto.
      * destruct (lookup c (columns d0)) as [s|] eqn:El;
          [|exact (IH _ _ _ _ _ _ Hfold)].
        destruct (IH _ _ _ _ _ _ Hfold) as (Hi & Hd & Hn & Hwf).
        split; [exact Hi|]. split; [exact Hd|]. split.
        -- rewrite Hn, column_names_set_column. reflexivity.
        -- intros Hwf0. apply Hwf. unfold well_formed, set_column in *.
           cbn [columns index_len]. rewrite Forall_forall in *.
           intros kv Hkv. apply in_map_iff in Hkv. destruct Hkv as [[k x] [<- Hx]].
           cbn [fst]. destruct (String.eqb c k); [|auto]. cbn [snd].
           apply lookup_In in El. specialize (Hwf0 _ El). cbn [snd] in Hwf0.
           rewrite <- Hwf0. unfold DataValidation._coerce_column.
           destruct (DataValidation.coerce_to_dtype h) as [dt|]; [|reflexivity].
           destruct (String.eqb dt "int64" || String.eqb dt "float64")%string;
             [unfold Series_len; simpl; apply length_map|].
           destruct (String.eqb dt "datetime64[ns]");
             [unfold Series_len; simpl; apply length_map|].
           destruct (String.eqb dt "object");
             [unfold Series_len; simpl; apply length_map | reflexivity].
Qed.

Lemma well_formed_set_column (d : DataFrame) (c : string) (s s0 : Series) :
  lookup c (columns d) = Some s0 -> Series_len s = Series_len s0 ->
  well_formed d -> well_formed (set_column d c s).
Proof.
  intros El Hlen Hwf. apply lookup_In in El.
  unfold well_formed, set_column in *. cbn [columns index_len].
  rewrite Forall_forall in *. intros kv Hkv.
  apply in_map_iff in Hkv. destruct Hkv as [[k x] [<- Hx]].
  cbn [fst]. destruct (String.eqb c k); [|auto]. cbn [snd].
  specialize (Hwf _ El). cbn [snd] in Hwf. congruence.
Qed.

Lemma clean_target_column_shape (d : DataFrame) (t : string) (s : Series)
    (h : DataValidation.ColumnHealth) (pt : option ProblemType) :
  lookup t (columns d) = Some s ->
  let d' := fst (DataValidation._clean_target_column d t s h pt) in
  column_names d' = column_names d /\ index_len d' = index_len d /\
  (well_formed d -> well_formed d').
Proof.
  intros El. unfold DataValidation._clean_target_column.
  assert (Series_len (Series_to_numeric s) = Series_len s) as Hnum
    by (unfold Series_len; simpl; apply length_map).
  assert (Series_len (Series_astype_str s) = Series_len s) as Hstr
    by (unfold Series_len; simpl; apply length_map).
  destruct pt as [[|]|]; destruct (DataValidation.inferred_type h);
    try destruct (Series_nunique s <? 20); cbn [fst];
    (split; [|split]); auto using column_names_set_column;
    intros Hwf; eapply well_formed_set_column; eauto.
Qed.

(** Step 4 keeps the columns and the rows. *)
Lemma clean_target_shape (c1 c2 : DataFrame) (target_col : option string)
    (th th' : option DataValidation.ColumnHealth) (pt : option ProblemType)
    (reports reports' : list (string * DataValidation.ColumnHealth)) :
  DataValidation.clean_target c1 target_col th pt reports = (c2, th', reports') ->
  column_names c2 = column_names c1 /\ index_len c2 = index_len c1 /\
  (well_formed c1 -> well_formed c2).
Proof.
  unfold DataValidation.clean_target.
  destruct target_col as [t|]; [|intros E; injection E as <- _ _; auto].
  destruct th as [h|]; [|intros E; injection E as <- _ _; auto].
  destruct (truthy (Some t) && has_column c1 t); [|intros E; injection E as <- _ _; auto].
  destruct (lookup t (columns c1)) as [s|] eqn:El; [|intros E; injection E as <- _ _; auto].
  pose proof (clean_target_column_shape c1 t s h pt El) as Hshape.
  destruct (DataValidation._clean_target_column c1 t s h pt) as [d h'].
  intros E. injection E as <- _ _. exact Hshape.
Qed.

(** Step 5 keeps the columns, removes rows only, and leaves a target
    column without a missing value. *)
Lemma drop_null_target_rows_shape (d : DataFrame) (target_col : option string) :
  let d' := DataValidation.drop_null_target_rows d target_col in
  column_names d' = column_names d /\
  (well_formed d -> well_formed d' /\ index_len d' <= index_len d) /\
  (truthy target_col = false -> d' = d).
Proof.
  unfold DataValidation.drop_null_target_rows.
  destruct target_col as [t|]; [|cbn; auto].
  destruct (truthy (Some t)); [|cbn; auto].
  destruct (lookup t (columns d)) as [s|] eqn:El; [|cbn; auto].
  unfold DataValidation.remove_null_targets.
  destruct (existsb (fun b : bool => b) (map isna (values s))); [|cbn; auto].
  cbn zeta. split; [apply column_names_select_rows|]. split; [|discriminate].
  intros Hwf. apply lookup_In in El.
  assert (length (map negb (map isna (values s))) = index_len d) as Hkeep.
  { rewrite !length_map. unfold well_formed in Hwf. rewrite Forall_forall in Hwf.
    exact (Hwf _ El). }
  split.
  - unfold well_formed, select_rows in *. cbn [columns index_len].
    rewrite Forall_forall in *. intros kv Hkv.
    apply in_map_iff in Hkv. destruct Hkv as [[k x] [<- Hx]].
    unfold Series_len. cbn [snd fst values].
    apply keep_where_length. rewrite Hkeep. symmetry. exact (Hwf _ Hx).
  - unfold select_rows. cbn [index_len]. rewrite <- Hkeep. apply filter_length_le.
Qed.

Lemma drop_null_target_rows_target (d : DataFrame) (t : string) (s : Series) :
  truthy (Some t) = true -> lookup t (columns d) = Some s ->
  exists s', lookup t (columns (DataValidation.drop_null_target_rows d (Some t))) = Some s' /\
             values s' = cells_dropna (values s).
Proof.
  intros Ht El. unfold DataValidation.drop_null_target_rows. rewrite Ht, El.
  unfold DataValidation.remove_null_targets.
  destruct (existsb (fun b : bool => b) (map isna (values s))) eqn:Eany.
  - unfold select_rows. cbn [columns].
    rewrite (lookup_map_snd
               (fun x => {| dtype := dtype x;
                            values := keep_where (map negb (map isna (values s))) (values x) |})
               t (columns d) s El).
    eexists. split; [reflexivity|]. cbn [values]. apply keep_where_notna.
  - exists s. split; [assumption|]. unfold cells_dropna.
    clear El. induction (values s) as [|c l IH]; simpl in *; [reflexivity|].
    apply orb_false_elim in Eany. destruct Eany as [Ec El].
    unfold notna at 1. rewrite Ec. cbn [negb]. now rewrite <- IH.
Qed.

(** The steps behind a returned table and report. *)
Lemma validate_and_clean_inv (df : option DataFrame) (target_col : option string)
    (cleaned : DataFrame) (report : DataValidation.DatasetHealthReport) :
  DataValidation.validate_and_clean v df target_col = Ok (cleaned, report) ->
  exists d th pt c1 dr co c2 th' reports',
    df = Some d /\ df_empty d = false /\
    DataValidation.analyze_target v d target_col (DataValidation.analyze_columns v d)
    = Ok (th, pt) /\
    DataValidation.clean_columns d target_col (DataValidation.analyze_columns v d)
    = (c1, dr, co) /\
    DataValidation.clean_target c1 target_col th pt (DataValidation.analyze_columns v d)
    = (c2, th', reports') /\
    cleaned = DataValidation.drop_null_target_rows c2 target_col /\
    DataValidation.feature_columns cleaned target_col <> [] /\
    (truthy target_col = true -> 10 <= index_len cleaned) /\
    DataValidation.dropped_columns report = dr /\
    DataValidation.valid_columns report = DataValidation.feature_columns cleaned target_col /\
    DataValidation.total_rows report = index_len cleaned /\
    DataValidation.total_columns report = length (columns cleaned).
Proof.
  destruct df as [d|]; [|discriminate].
  unfold DataValidation.validate_and_clean.
  destruct (df_empty d) eqn:Eempty; [discriminate|].
  destruct (DataValidation.analyze_target v d target_col (DataValidation.analyze_columns v d))
    as [[th pt]|] eqn:Er; cbn [bind]; [|discriminate].
  destruct (DataValidation.clean_columns d target_col (DataValidation.analyze_columns v d))
    as [[c1 dr] co] eqn:Ecc.
  destruct (DataValidation.clean_target c1 target_col th pt
              (DataValidation.analyze_columns v d)) as [[c2 th'] reports'] eqn:Ect.
  destruct (length (DataValidation.feature_columns
                      (DataValidation.drop_null_target_rows c2 target_col) target_col) =? 0)
    eqn:Ecols; [discriminate|].
  destruct (truthy target_col
            && (index_len (DataValidation.drop_null_target_rows c2 target_col) <? 10))
    eqn:Erows; [discriminate|].
  intros E. injection E as <- <-.
  exists d, th, pt, c1, dr, co, c2, th', reports'.
  repeat (split; [first [reflexivity | assumption]|]).
  split; [|split; [|repeat split]].
  - apply Nat.eqb_neq in Ecols. intros E. rewrite E in Ecols. now apply Ecols.
  - intros Ht. rewrite Ht in Erows. cbn [andb] in Erows. now apply Nat.ltb_ge in Erows.
Qed.

(** The columns of a returned table: those of the input that the loop of
    step 3 did not drop, in the input's order. *)
Lemma validated_column_names (d cleaned : DataFrame) (target_col : option string)
    (report : DataValidation.DatasetHealthReport) :
  DataValidation.validate_and_clean v (Some d) target_col = Ok (cleaned, report) ->
  DataValidation.dropped_columns report
  = to_drop target_col (DataValidation.analyze_columns v d) /\
  column_names cleaned
  = filter (fun c => negb (mem c (DataValidation.dropped_columns report))) (column_names d) /\
  (well_formed d -> well_formed cleaned /\ index_len cleaned <= index_len d) /\
  (truthy target_col = false -> index_len cleaned = index_len d).
Proof.
  intros Hok.
  destruct (validate_and_clean_inv _ _ _ _ Hok)
    as (d' & th & pt & c1 & dr & co & c2 & th' & reports' & Hd & _ & _ & Ecc & Ect & Hcl
        & _ & _ & Hdr & _).
  injection Hd as <-.
  destruct (clean_columns_fold _ _ _ _ _ _ _ _ Ecc) as (Hi1 & Hdr1 & Hn1 & Hwf1).
  destruct (clean_target_shape _ _ _ _ _ _ _ _ Ect) as (Hn2 & Hi2 & Hwf2).
  destruct (drop_null_target_rows_shape c2 target_col) as (Hn3 & Hwf3 & Hsame).
  cbn zeta in Hn3, Hwf3, Hsame. rewrite <- Hcl in Hn3, Hwf3, Hsame.
  cbn [app] in Hdr1. rewrite Hdr1 in Hdr. split; [assumption|]. split; [|split].
  - rewrite Hdr. congruence.
  - intros Hwf. destruct (Hwf3 (Hwf2 (Hwf1 Hwf))) as [Hw Hle]. split; [assumption | lia].
  - intros Ht. rewrite (Hsame Ht). congruence.
Qed.

Lemma to_drop_In (target_col : option string) (d : DataFrame) (c : string) :
  In c (to_drop target_col (DataValidation.analyze_columns v d)) <->
  is_target target_col c = false /\
  exists s, In (c, s) (columns d) /\
            DataValidation.recommended_action (DataValidation._analyze_column v s c)
            = DataValidation.drop.
Proof.
  unfold to_drop, DataValidation.analyze_columns. rewrite in_map_iff. split.
  - intros [[k h] [<- Hkh]]. apply filter_In in Hkh. destruct Hkh as [Hkh Hf].
    apply in_map_iff in Hkh. destruct Hkh as [[k' s] [E Hs]]. cbn [fst snd] in *.
    injection E as -> <-. apply andb_prop in Hf. destruct Hf as [Ht Hd].
    apply negb_true_iff in Ht. split; [assumption|]. exists s. split; [assumption|].
    unfold is_drop in Hd.
    destruct (DataValidation.recommended_action (DataValidation._analyze_column v s k));
      [discriminate | reflexivity | discriminate].
  - intros [Ht [s [Hs Hd]]]. exists (c, DataValidation._analyze_column v s c).
    split; [reflexivity|]. apply filter_In. split.
    + apply in_map_iff. exists (c, s). auto.
    + cbn [fst snd]. rewrite Ht. unfold is_drop. now rewrite Hd.
Qed.

(** X12.  When [validate_and_clean] returns, every column of the input is
    either in the returned table or listed in [dropped_columns], never both:
    the table keeps the columns that were not dropped, in their order; a
    column is dropped exactly when it is not the target and its analysis
    recommends it; and [valid_columns] lists the kept columns other than the
    target. *)
Theorem validated_columns_partition (d cleaned : DataFrame) (target_col : option string)
    (report : DataValidation.DatasetHealthReport) :
  DataValidation.validate_and_clean v (Some d) target_col = Ok (cleaned, report) ->
  column_names cleaned
  = filter (fun c => negb (mem c (DataValidation.dropped_columns report))) (column_names d) /\
  (forall c, In c (DataValidation.dropped_columns report) <->
             is_target target_col c = false /\
             exists s, In (c, s) (columns d) /\
                       DataValidation.recommended_action
                         (DataValidation._analyze_column v s c) = DataValidation.drop) /\
  (forall c, In c (DataValidation.valid_columns report) <->
             In c (column_names d) /\ ~ In c (DataValidation.dropped_columns report) /\
             is_target target_col c = false) /\
  DataValidation.valid_columns report <> [].
Proof.
  intros Hok. destruct (validated_column_names _ _ _ _ Hok) as (Hdr & Hn & _).
  destruct (validate_and_clean_inv _ _ _ _ Hok)
    as (d' & th & pt & c1 & dr & co & c2 & th' & reports' & _ & _ & _ & _ & _ & _
        & Hne & _ & _ & Hvalid & _).
  split; [assumption|]. split; [|split].
  - intros c. rewrite Hdr. apply to_drop_In.
  - intros c. rewrite Hvalid. unfold DataValidation.feature_columns.
    rewrite filter_In, Hn, filter_In, negb_true_iff, negb_true_iff.
    rewrite <- (mem_In c (DataValidation.dropped_columns report)).
    destruct (mem c (DataValidation.dropped_columns report)); intuition congruence.
  - now rewrite Hvalid.
Qed.

(** The analyzer recommends dropping a column with at most one distinct
    non-missing value. *)
Lemma analyze_constant_column (s : Series) (c : string) :
  Series_nunique s <= 1 ->
  DataValidation.recommended_action (DataValidation._analyze_column v s c)
  = DataValidation.drop.
Proof.
  intros Hconst. unfold DataValidation._analyze_column.
  destruct (Qle_bool (DataValidation.max_null_ratio v * 100) (DataValidation.null_pct_of s));
    [reflexivity|].
  destruct (DataValidation._infer_column_type (Series_dropna s)) as [[it hm] ct].
  cbn [DataValidation.recommended_action orb].
  assert (Series_nunique (Series_dropna s) = Series_nunique s) as Hn.
  { unfold Series_nunique, Series_dropna, cells_nunique. cbn [values].
    now rewrite cells_dropna_idem. }
  rewrite Hn.
  assert (((if 0 <? Series_len (Series_dropna s) then Series_nunique s else 0) <=? 1) = true)
    as ->; [|reflexivity].
  apply Nat.leb_le. destruct (0 <? Series_len (Series_dropna s)); lia.
Qed.

(** X13.  A feature column with at most one distinct non-missing value (a
    constant or an all-missing column) never survives validation: it is
    listed in [dropped_columns] and absent from the returned table. *)
Theorem constant_feature_is_dropped (d cleaned : DataFrame) (target_col : option string)
    (report : DataValidation.DatasetHealthReport) (c : string) (s : Series) :
  DataValidation.validate_and_clean v (Some d) target_col = Ok (cleaned, report) ->
  In (c, s) (columns d) -> is_target target_col c = false -> Series_nunique s <= 1 ->
  In c (DataValidation.dropped_columns report) /\ ~ In c (column_names cleaned).
Proof.
  intros Hok Hs Ht Hconst.
  destruct (validated_column_names _ _ _ _ Hok) as (Hdr & Hn & _).
  assert (In c (DataValidation.dropped_columns report)) as Hin.
  { rewrite Hdr. apply to_drop_In. split; [assumption|]. exists s.
    split; [assumption | now apply analyze_constant_column]. }
  split; [assumption|]. rewrite Hn. intros Hc. apply filter_In in Hc.
  destruct Hc as [_ Hc]. apply mem_In in Hin. rewrite Hin in Hc. discriminate.
Qed.

(** A requested target survives validation without a missing value, in a
    table of at least ten rows. *)
Lemma validated_target_facts (d cleaned : DataFrame) (t : string)
    (report : DataValidation.DatasetHealthReport) :
  DataValidation.validate_and_clean v (Some d) (Some t) = Ok (cleaned, report) ->
  t <> ""%string ->
  (exists s, lookup t (columns cleaned) = Some s /\
             Forall (fun x => isna x = false) (values s)) /\
  10 <= index_len cleaned.
Proof.
  intros Hok Hname.
  assert (truthy (Some t) = true) as Ht.
  { cbn. apply negb_true_iff. now apply String.eqb_neq. }
  destruct (validate_and_clean_inv _ _ _ _ Hok)
    as (d' & th & pt & c1 & dr & co & c2 & th' & reports' & Hd & _ & Hat & Ecc & Ect & Hcl
        & _ & Hrows & _).
  injection Hd as <-.
  assert (has_column d t = true) as Hcol.
  { unfold DataValidation.analyze_target in Hat. rewrite Ht in Hat.
    destruct (has_column d t); [reflexivity | discriminate]. }
  destruct (clean_columns_fold _ _ _ _ _ _ _ _ Ecc) as (_ & Hdr1 & Hn1 & _).
  destruct (clean_target_shape _ _ _ _ _ _ _ _ Ect) as (Hn2 & _).
  assert (has_column c2 t = true) as Hcol2.
  { unfold has_column in *. fold (mem t (column_names c2)).
    fold (mem t (column_names d)) in Hcol. apply mem_In. apply mem_In in Hcol.
    rewrite Hn2, Hn1. apply filter_In. split; [assumption|].
    apply negb_true_iff. destruct (mem t (to_drop (Some t) _)) eqn:Em; [|reflexivity].
    apply mem_In, to_drop_In in Em. destruct Em as [Em _].
    cbn in Em. rewrite String.eqb_refl in Em. discriminate. }
  destruct (lookup_has_column t (columns c2) Hcol2) as [s2 Hs2].
  destruct (drop_null_target_rows_target c2 t s2 Ht Hs2) as [s' [Hs' Hvals]].
  rewrite <- Hcl in Hs'.
  split; [|auto].
  exists s'. split; [assumption|]. rewrite Hvals. unfold cells_dropna.
  apply Forall_forall. intros x Hx. apply filter_In in Hx. destruct Hx as [_ Hx].
  unfold notna in Hx. now apply negb_true_iff in Hx.
Qed.

(** X14.  When [validate_and_clean] returns for a requested target, the
    returned table still has the target column, the column holds no missing
    value, it was not dropped, and at least ten rows and one feature column
    remain. *)
Theorem target_column_is_clean (d cleaned : DataFrame) (t : string)
    (report : DataValidation.DatasetHealthReport) :
  DataValidation.validate_and_clean v (Some d) (Some t) = Ok (cleaned, report) ->
  t <> ""%string ->
  (exists s, lookup t (columns cleaned) = Some s /\
             Forall (fun x => isna x = false) (values s)) /\
  ~ In t (DataValidation.dropped_columns report) /\
  10 <= index_len cleaned /\
  exists c, In c (column_names cleaned) /\ c <> t.
Proof.
  intros Hok Hname.
  destruct (validated_target_facts _ _ _ _ Hok Hname) as [Htarget Hrows].
  destruct (validated_column_names _ _ _ _ Hok) as (Hdr & _).
  destruct (validate_and_clean_inv _ _ _ _ Hok)
    as (d' & th & pt & c1 & dr & co & c2 & th' & reports' & _ & _ & _ & _ & _ & _
        & Hne & _).
  split; [exact Htarget|]. split; [|split; [exact Hrows|]].
  - rewrite Hdr. intros Hin. apply to_drop_In in Hin. destruct Hin as [Hin _].
    cbn in Hin. rewrite String.eqb_refl in Hin. discriminate.
  - unfold DataValidation.feature_columns in Hne.
    destruct (filter _ (column_names cleaned)) as [|c rest] eqn:Ef; [contradiction|].
    assert (In c (c :: rest)) as Hc by now left.
    rewrite <- Ef in Hc. apply filter_In in Hc. destruct Hc as [Hc Hnt].
    exists c. split; [assumption|]. cbn in Hnt. apply negb_true_iff in Hnt.
    now apply String.eqb_neq in Hnt.
Qed.

(** X15.  Validation keeps the table rectangular and only removes rows:
    when every input column has one value per row, so has every column of
    the returned table, the table has no more rows than the input, and
    without a target column it has the same rows. *)
Theorem validated_table_shape (d cleaned : DataFrame) (target_col : option string)
    (report : DataValidation.DatasetHealthReport) :
  well_formed d ->
  DataValidation.validate_and_clean v (Some d) target_col = Ok (cleaned, report) ->
  well_formed cleaned /\ index_len cleaned <= index_len d /\
  (truthy target_col = false -> index_len cleaned = index_len d) /\
  DataValidation.total_rows report = index_len cleaned /\
  DataValidation.total_columns report = length (column_names cleaned).
Proof.
  intros Hwf Hok.
  destruct (validated_column_names _ _ _ _ Hok) as (_ & _ & Hshape & Hsame).
  destruct (validate_and_clean_inv _ _ _ _ Hok)
    as (d' & th & pt & c1 & dr & co & c2 & th' & reports' & _ & _ & _ & _ & _ & _
        & _ & _ & _ & _ & Hrows & Hcols).
  destruct (Hshape Hwf) as [Hw Hle].
  repeat (split; [assumption|]).
  rewrite Hcols. unfold column_names. now rewrite length_map.
Qed.
End ValidatorShape.

(** [validated_columns_partition] on twelve rows with a feature, a constant
    column and the target. *)
Lemma validated_columns_partition_witness :
  exists cleaned report,
    @DataValidation.validate_and_clean ExamplePandas DataValidation.default
      (Some twelve_with_constant) (Some "y") = Ok (cleaned, report) /\
    column_names cleaned
    = filter (fun c => negb (mem c (DataValidation.dropped_columns report)))
             (column_names twelve_with_constant) /\
    DataValidation.valid_columns report <> [].
Proof.
  destruct (@DataValidation.validate_and_clean ExamplePandas DataValidation.default
              (Some twelve_with_constant) (Some "y")) as [[cleaned report]|ex] eqn:E;
    [|vm_compute in E; discriminate].
  exists cleaned, report. split; [reflexivity|].
  destruct (@validated_columns_partition ExamplePandas DataValidation.default _ _ _ _ E)
    as (Hn & _ & _ & Hne).
  split; [exact Hn | exact Hne].
Defined.

(** [constant_feature_is_dropped]: the constant column [k] is dropped. *)
Lemma constant_feature_is_dropped_witness :
  exists cleaned report,
    @DataValidation.validate_and_clean ExamplePandas DataValidation.default
      (Some twelve_with_constant) (Some "y") = Ok (cleaned, report) /\
    In "k" (DataValidation.dropped_columns report) /\ ~ In "k" (column_names cleaned).
Proof.
  destruct (@DataValidation.validate_and_clean ExamplePandas DataValidation.default
              (Some twelve_with_constant) (Some "y")) as [[cleaned report]|ex] eqn:E;
    [|vm_compute in E; discriminate].
  exists cleaned, report. split; [reflexivity|].
  apply (@constant_feature_is_dropped ExamplePandas DataValidation.default _ _ _ _ "k"
           {| dtype := "object"; values := repeat (Str "c") 12 |} E).
  - simpl. right. left. reflexivity.
  - reflexivity.
  - vm_compute. lia.
Defined.

(** [target_column_is_clean] on the same table. *)
Lemma target_column_is_clean_witness :
  exists cleaned report,
    @DataValidation.validate_and_clean ExamplePandas DataValidation.default
      (Some twelve_with_constant) (Some "y") = Ok (cleaned, report) /\
    (exists s, lookup "y" (columns cleaned) = Some s /\
               Forall (fun x => isna x = false) (values s)) /\
    10 <= index_len cleaned.
Proof.
  destruct (@DataValidation.validate_and_clean ExamplePandas DataValidation.default
              (Some twelve_with_constant) (Some "y")) as [[cleaned report]|ex] eqn:E;
    [|vm_compute in E; discriminate].
  exists cleaned, report. split; [reflexivity|].
  destruct (@target_column_is_clean ExamplePandas DataValidation.default _ _ _ _ E)
    as (Hs & _ & Hrows & _); [discriminate|].
  split; [exact Hs | exact Hrows].
Defined.

(** [validated_table_shape] on the same table. *)
Lemma validated_table_shape_witness :
  well_formed twelve_with_constant /\
  exists cleaned report,
    @DataValidation.validate_and_clean ExamplePandas DataValidation.default
      (Some twelve_with_constant) (Some "y") = Ok (cleaned, report) /\
    well_formed cleaned /\ index_len cleaned <= 12.
Proof.
  assert (well_formed twelve_with_constant) as Hwf.
  { unfold well_formed. repeat constructor. }
  split; [exact Hwf|].
  destruct (@DataValidation.validate_and_clean ExamplePandas DataValidation.default
              (Some twelve_with_constant) (Some "y")) as [[cleaned report]|ex] eqn:E;
    [|vm_compute in E; discriminate].
  exists cleaned, report. split; [reflexivity|].
  destruct (@validated_table_shape ExamplePandas DataValidation.default _ _ _ _ Hwf E)
    as (Hw & Hle & _).
  split; [exact Hw | exact Hle].
Defined.

(** ** The pipeline builder: every column goes to one place *)

Lemma mem_app (c : string) (a b : list string) : mem c (a ++ b) = mem c a || mem c b.
Proof. unfold mem. apply existsb_app. Qed.

Lemma mem_filter (c : string) (f : string -> bool) (l : list string) :
  mem c (filter f l) = mem c l && f c.
Proof.
  unfold mem. induction l as [|a t IH]; simpl; [reflexivity|].
  destruct (String.eqb c a) eqn:E.
  - apply String.eqb_eq in E. subst a. destruct (f c) eqn:Ef; simpl.
    + now rewrite String.eqb_refl.
    + rewrite IH, ?Ef, !andb_false_r. reflexivity.
  - destruct (f a); simpl; rewrite ?E; exact IH.
Qed.

Lemma mem_in_slot (c : string) (slot : string -> Slot) (s : Slot) (cols : list string) :
  mem c (in_slot slot s cols) = mem c cols && slot_eqb (slot c) s.
Proof. apply mem_filter. Qed.

Lemma group_count (c : string) (name : string) (kind : TransformerKind) (g : list string) :
  length (filter (mem c)
            (map snd (if negb (length g =? 0) then [(name, kind, g)] else [])))
  = length (filter (mem c) [g]).
Proof. destruct g; reflexivity. Qed.

Section PipelineFacts.
Context `{Pandas}.

Lemma drop_low_variance_mem (X : DataFrame) (variance_threshold : Q)
    (numeric kept removed : list string) (c : string) :
  DataPreprocessing.drop_low_variance X variance_threshold numeric = (kept, removed) ->
  mem c kept = mem c numeric && negb (mem c removed) /\
  (mem c removed = true -> mem c numeric = true).
Proof.
  unfold DataPreprocessing.drop_low_variance.
  destruct (_ && _); [destruct (negb _)|]; intros E; injection E as <- <-;
    try (cbn; rewrite andb_true_r; split; [reflexivity | discriminate]).
  split.
  - apply mem_filter.
  - rewrite mem_filter. intros Hm. now apply andb_prop in Hm.
Qed.

(** Where [route_features] puts a column, by the slots of the two loops;
    [lv] says that the variance filter removed it. *)
Lemma route_features_mem (X : DataFrame) (variance_threshold : Q)
    (r : DataPreprocessing.Routing) (removed : list string) (c : string) :
  DataPreprocessing.route_features X variance_threshold = (r, removed) ->
  exists lv : bool,
    (lv = true -> mem c (column_names X) = true /\ classify_slot X c = First) /\
    mem c (DataPreprocessing.numeric_features r)
    = mem c (column_names X) && slot_eqb (classify_slot X c) First && negb lv /\
    mem c (DataPreprocessing.low_cardinality_cats r)
    = mem c (column_names X) && slot_eqb (classify_slot X c) Second
      && slot_eqb (cardinality_slot X c) Second /\
    mem c (DataPreprocessing.high_cardinality_cats r)
    = mem c (column_names X) && slot_eqb (classify_slot X c) Second
      && slot_eqb (cardinality_slot X c) First /\
    mem c removed
    = (mem c (column_names X) && slot_eqb (classify_slot X c) Third) || lv
      || (mem c (column_names X) && slot_eqb (classify_slot X c) Second
          && slot_eqb (cardinality_slot X c) Third).
Proof.
  unfold DataPreprocessing.route_features. rewrite classify_features_slots.
  destruct (DataPreprocessing.drop_low_variance X variance_threshold
              (in_slot (classify_slot X) First (column_names X)))
    as [kept removed2] eqn:Ed.
  rewrite split_by_cardinality_slots. intros E. injection E as <- <-.
  destruct (drop_low_variance_mem _ _ _ _ _ c Ed) as [Hkept Hrem].
  rewrite mem_in_slot in Hkept, Hrem.
  exists (mem c removed2). cbn [DataPreprocessing.numeric_features
    DataPreprocessing.low_cardinality_cats DataPreprocessing.high_cardinality_cats].
  rewrite !mem_app, !mem_in_slot, Hkept.
  split; [|split; [reflexivity|split; [reflexivity|split; [reflexivity|]]]].
  - intros Hlv. specialize (Hrem Hlv). apply andb_prop in Hrem. destruct Hrem as [Hm Hs].
    split; [assumption|]. now destruct (classify_slot X c).
  - now rewrite orb_assoc.
Qed.

(** A column of the table is in exactly one of the three groups and the
    removed columns; any other name is in none. *)
Lemma route_features_count (X : DataFrame) (variance_threshold : Q)
    (r : DataPreprocessing.Routing) (removed : list string) (c : string) :
  DataPreprocessing.route_features X variance_threshold = (r, removed) ->
  length (filter (mem c) [DataPreprocessing.numeric_features r;
                          DataPreprocessing.low_cardinality_cats r;
                          DataPreprocessing.high_cardinality_cats r; removed])
  = if mem c (column_names X) then 1 else 0.
Proof.
  intros Hr. destruct (route_features_mem X variance_threshold r removed c Hr)
    as (lv & Hlv & Hn & Hl & Hh & Hrem).
  cbn [filter]. rewrite Hn, Hl, Hh, Hrem.
  destruct lv.
  - destruct (Hlv eq_refl) as [-> ->]. now destruct (cardinality_slot X c).
  - destruct (mem c (column_names X)); [|reflexivity].
    destruct (classify_slot X c), (cardinality_slot X c); reflexivity.
Qed.

Lemma transformers_count (r : DataPreprocessing.Routing) (use_target_encoder : bool)
    (removed : list string) (c : string) :
  length (filter (mem c)
            (map snd (DataPreprocessing.transformers_of r use_target_encoder) ++ [removed]))
  = length (filter (mem c) [DataPreprocessing.numeric_features r;
                            DataPreprocessing.low_cardinality_cats r;
                            DataPreprocessing.high_cardinality_cats r; removed]).
Proof.
  unfold DataPreprocessing.transformers_of.
  rewrite !map_app, !filter_app, !length_app, !group_count.
  cbn [filter]. destruct (mem c (DataPreprocessing.numeric_features r)),
    (mem c (DataPreprocessing.low_cardinality_cats r)),
    (mem c (DataPreprocessing.high_cardinality_cats r)), (mem c removed); reflexivity.
Qed.

Lemma build_pipeline_inv (self self' : DataPreprocessing.State) (X : DataFrame)
    (use_target_encoder : bool) (variance_threshold : Q) (transformers : ColumnTransformer) :
  DataPreprocessing.build_pipeline self X use_target_encoder variance_threshold
  = Ok (transformers, self') ->
  exists r removed,
    DataPreprocessing.route_features X variance_threshold = (r, removed) /\
    transformers = DataPreprocessing.transformers_of r use_target_encoder /\
    DataPreprocessing.removed_features self'
    = DataPreprocessing.removed_features self ++ removed /\
    DataPreprocessing.preprocessor self' = Some transformers.
Proof.
  unfold DataPreprocessing.build_pipeline.
  destruct (DataPreprocessing.route_features X variance_threshold) as [r removed].
  destruct (length _ =? 0); [discriminate|].
  intros E. injection E as <- <-. exists r, removed. auto.
Qed.

Lemma transformers_of_In (r : DataPreprocessing.Routing) (use_target_encoder : bool)
    (name : string) (kind : TransformerKind) (cols : list string) :
  In (name, kind, cols) (DataPreprocessing.transformers_of r use_target_encoder) ->
  cols <> [] /\
  (cols = DataPreprocessing.numeric_features r \/
   cols = DataPreprocessing.low_cardinality_cats r \/
   cols = DataPreprocessing.high_cardinality_cats r).
Proof.
  unfold DataPreprocessing.transformers_of. intros Hin.
  repeat (apply in_app_or in Hin; destruct Hin as [Hin | Hin]).
  - destruct (DataPreprocessing.numeric_features r) eqn:E; simpl in Hin; [tauto|].
    destruct Hin as [Hin | []]. injection Hin as _ _ <-. split; [discriminate | auto].
  - destruct (DataPreprocessing.low_cardinality_cats r) eqn:E; simpl in Hin; [tauto|].
    destruct Hin as [Hin | []]. injection Hin as _ _ <-. split; [discriminate | auto].
  - destruct (DataPreprocessing.high_cardinality_cats r) eqn:E; simpl in Hin; [tauto|].
    destruct Hin as [Hin | []]. injection Hin as _ _ <-. split; [discriminate | auto].
Qed.

(** X16.  When [build_pipeline] returns, every column of the table is
    covered exactly once: it is in the column list of exactly one
    sub-pipeline of the transformer or among the columns the call added to
    [removed_features], never in two places.  Every sub-pipeline has a
    non-empty column list made of columns of the table, and earlier entries
    of [removed_features] are kept. *)
Theorem build_pipeline_routes_every_column (self self' : DataPreprocessing.State)
    (X : DataFrame) (use_target_encoder : bool) (variance_threshold : Q)
    (transformers : ColumnTransformer) :
  DataPreprocessing.build_pipeline self X use_target_encoder variance_threshold
  = Ok (transformers, self') ->
  exists removed,
    DataPreprocessing.removed_features self'
    = DataPreprocessing.removed_features self ++ removed /\
    (forall c, In c (column_names X) ->
               length (filter (mem c) (map snd transformers ++ [removed])) = 1) /\
    (forall name kind cols, In (name, kind, cols) transformers ->
       cols <> [] /\ forall c, In c cols -> In c (column_names X)).
Proof.
  intros Hb. destruct (build_pipeline_inv _ _ _ _ _ _ Hb) as (r & removed & Hr & -> & Hrem & _).
  exists removed. split; [assumption|]. split.
  - intros c Hc. rewrite transformers_count, (route_features_count _ _ _ _ c Hr).
    apply mem_In in Hc. now rewrite Hc.
  - intros name kind cols Hin. destruct (transformers_of_In _ _ _ _ _ Hin) as [Hne Hcols].
    split; [assumption|]. intros c Hc. apply mem_In in Hc. apply mem_In.
    destruct (route_features_mem X variance_threshold r removed c Hr)
      as (lv & _ & Hn & Hl & Hh & _).
    destruct (mem c (column_names X)) eqn:Em; [reflexivity|].
    cbn [andb] in Hn, Hl, Hh.
    destruct Hcols as [-> | [-> | ->]]; congruence.
Qed.

(** X17.  [build_pipeline] raises exactly when every column of the table
    was removed (all null, low variance, or an apparent identifier), and
    then with a [DataPreprocessingError]. *)
Theorem build_pipeline_raises_iff (self : DataPreprocessing.State) (X : DataFrame)
    (use_target_encoder : bool) (variance_threshold : Q) :
  ((exists ex, DataPreprocessing.build_pipeline self X use_target_encoder variance_threshold
               = Raise ex) <->
   forall c, In c (column_names X) ->
             In c (snd (DataPreprocessing.route_features X variance_threshold))) /\
  (forall ex, DataPreprocessing.build_pipeline self X use_target_encoder variance_threshold
              = Raise ex ->
              ex = DataPreprocessingError "No valid features found for preprocessing").
Proof.
  unfold DataPreprocessing.build_pipeline.
  destruct (DataPreprocessing.route_features X variance_threshold) as [r removed] eqn:Hr.
  cbn [snd].
  assert (forall c, In c (column_names X) ->
            length (filter (mem c) [DataPreprocessing.numeric_features r;
                                    DataPreprocessing.low_cardinality_cats r;
                                    DataPreprocessing.high_cardinality_cats r; removed]) = 1)
    as Hone.
  { intros c Hc. rewrite (route_features_count _ _ _ _ c Hr).
    apply mem_In in Hc. now rewrite Hc. }
  assert (forall c g, In c g ->
            g = DataPreprocessing.numeric_features r \/
            g = DataPreprocessing.low_cardinality_cats r \/
            g = DataPreprocessing.high_cardinality_cats r ->
            In c (column_names X)) as Hsub.
  { intros c g Hc Hg. apply mem_In in Hc. apply mem_In.
    destruct (route_features_mem X variance_threshold r removed c Hr)
      as (lv & _ & Hn & Hl & Hh & _).
    destruct (mem c (column_names X)) eqn:Em; [reflexivity|].
    cbn [andb] in Hn, Hl, Hh.
    destruct Hg as [-> | [-> | ->]]; congruence. }
  destruct (length (DataPreprocessing.transformers_of r use_target_encoder) =? 0) eqn:Elen.
  - split; [|intros ex E; now injection E as <-].
    split; [intros _ | eauto].
    apply Nat.eqb_eq, length_zero_iff_nil in Elen.
    unfold DataPreprocessing.transformers_of in Elen.
    destruct (DataPreprocessing.numeric_features r) eqn:En; [|discriminate].
    destruct (DataPreprocessing.low_cardinality_cats r) eqn:El; [|discriminate].
    destruct (DataPreprocessing.high_cardinality_cats r) eqn:Eh; [|discriminate].
    intros c Hc. specialize (Hone c Hc). cbn in Hone. apply mem_In.
    destruct (mem c removed); [reflexivity | discriminate].
  - split; [|discriminate]. split; [intros [ex Hex]; discriminate|].
    intros Hall. exfalso. apply Nat.eqb_neq in Elen. apply Elen.
    unfold DataPreprocessing.transformers_of.
    assert (forall g, g = DataPreprocessing.numeric_features r \/
                      g = DataPreprocessing.low_cardinality_cats r \/
                      g = DataPreprocessing.high_cardinality_cats r -> g = []) as Hempty.
    { intros [|c t] Hg; [reflexivity|]. exfalso.
      assert (In c (c :: t)) as Hc by now left.
      pose proof (Hsub c _ Hc Hg) as Hcol.
      pose proof (Hone c Hcol) as Hcount. apply Hall, mem_In in Hcol.
      apply mem_In in Hc. cbn [filter] in Hcount. rewrite Hcol in Hcount.
      assert (mem c (DataPreprocessing.numeric_features r) = true \/
              mem c (DataPreprocessing.low_cardinality_cats r) = true \/
              mem c (DataPreprocessing.high_cardinality_cats r) = true) as Hsome
        by (destruct Hg as [E | [E | E]]; rewrite <- E; auto).
      destruct (mem c (DataPreprocessing.numeric_features r)),
        (mem c (DataPreprocessing.low_cardinality_cats r)),
        (mem c (DataPreprocessing.high_cardinality_cats r));
        try discriminate; destruct Hsome as [E | [E | E]]; discriminate. }
    rewrite (Hempty (DataPreprocessing.numeric_features r)),
      (Hempty (DataPreprocessing.low_cardinality_cats r)),
      (Hempty (DataPreprocessing.high_cardinality_cats r)); auto.
Qed.
End PipelineFacts.

(** ** Preprocessing: the split and the errors *)




Section PreprocessFacts.
Context `{Pandas} `{Sklearn}.

Lemma split_dataset_raise (X : DataFrame) (y : Series) (problem_type : ProblemType)
    (test_size : Q) (random_state : Z) (e : exn) :
  DataPreprocessing.split_dataset X y problem_type test_size random_state = Raise e ->
  exists msg, e = ValueError msg.
Proof.
  unfold DataPreprocessing.split_dataset.
  match goal with |- context [train_test_split X y ?a random_state ?s] =>
    pose proof (train_test_split_sizes X y a random_state s) as H1;
    pose proof (train_test_split_sizes X y a random_state None) as H2;
    destruct (train_test_split X y a random_state s) as [r|e1]
  end; [discriminate|].
  destruct e1; try contradiction.
  match goal with |- context [train_test_split X y ?a random_state None] =>
    destruct (train_test_split X y a random_state None) as [r|e2]
  end; [discriminate|].
  destruct e2; try contradiction. intros E. injection E as <-. eauto.
Qed.


Lemma build_pipeline_raise_msg (self : DataPreprocessing.State) (X : DataFrame)
    (use_target_encoder : bool) (variance_threshold : Q) (ex : exn) :
  DataPreprocessing.build_pipeline self X use_target_encoder variance_threshold = Raise ex ->
  ex = DataPreprocessingError "No valid features found for preprocessing".
Proof.
  unfold DataPreprocessing.build_pipeline.
  destruct (DataPreprocessing.route_features X variance_threshold) as [r removed].
  destruct (length _ =? 0); [|discriminate]. intros E. now injection E as <-.
Qed.

Lemma fit_on_train_raise (self : DataPreprocessing.State) (X_train X_test : DataFrame)
    (y_train : Series) (use_target_encoder : bool) (variance_threshold : Q) (ex : exn) :
  DataPreprocessing.fit_on_train self X_train y_train X_test use_target_encoder
    variance_threshold = Raise ex ->
  ex = DataPreprocessingError "No valid features found for preprocessing" \/
  ex = DataPreprocessingError "Preprocessing fit failed" \/
  ex = DataPreprocessingError "Test data transform failed".
Proof.
  unfold DataPreprocessing.fit_on_train.
  destruct (DataPreprocessing.build_pipeline self X_train use_target_encoder
              variance_threshold) as [[preprocessor s]|e] eqn:Eb; cbn [bind].
  - destruct (fit_transform preprocessor X_train y_train) as [[f m]|];
      [|intros E; injection E as <-; auto].
    destruct (transform f X_test); [discriminate|]. intros E. injection E as <-. auto.
  - intros E. injection E as <-. left. exact (build_pipeline_raise_msg _ _ _ _ _ Eb).
Qed.

Lemma validate_and_clean_raise (v : DataValidation.DataValidator) (df : option DataFrame)
    (target_col : option string) (e : exn) :
  DataValidation.validate_and_clean v df target_col = Raise e ->
  forall msg, e <> DataPreprocessingError msg.
Proof.
  destruct df as [d|]; [|intros E; injection E as <-; discriminate].
  unfold DataValidation.validate_and_clean.
  destruct (df_empty d); [intros E; injection E as <-; discriminate|].
  destruct (DataValidation.analyze_target v d target_col (DataValidation.analyze_columns v d))
    as [[th pt]|e0] eqn:Er; cbn [bind].
  - destruct (DataValidation.clean_columns _ _ _) as [[c1 dr] co].
    destruct (DataValidation.clean_target _ _ _ _ _) as [[c2 th'] reports'].
    destruct (length _ =? 0); [intros E; injection E as <-; discriminate|].
    destruct (truthy target_col && _); [intros E; injection E as <-; discriminate|].
    discriminate.
  - intros E. injection E as <-. unfold DataValidation.analyze_target in Er.
    destruct target_col as [t|]; [|discriminate].
    destruct (truthy (Some t)); [|discriminate].
    destruct (negb (has_column d t)); [injection Er as <-; discriminate|].
    destruct (lookup t _); [destruct (lookup t _); [discriminate|]|];
      injection Er as <-; discriminate.
Qed.



(** X20.  Every failure of [preprocess_data] is a [DataPreprocessingError],
    and a failure of the validator is reported as the wrapped
    ['Preprocessing failed']. *)
Theorem preprocess_data_errors (self : DataPreprocessing.State) (df : DataFrame)
    (target_col : string) (test_size : Q) (use_target_encoder : bool)
    (variance_threshold : Q) (random_state : Z) :
  (forall ex,
     DataPreprocessing.preprocess_data self df target_col test_size use_target_encoder
       variance_threshold random_state = Raise ex ->
     exists msg, ex = DataPreprocessingError msg) /\
  ((exists e, DataValidation.validate_and_clean (DataPreprocessing.validator self)
                (Some df) (Some target_col) = Raise e) ->
   DataPreprocessing.preprocess_data self df target_col test_size use_target_encoder
     variance_threshold random_state
   = Raise (DataPreprocessingError "Preprocessing failed")).
Proof.
  split.
  - unfold DataPreprocessing.preprocess_data, DataPreprocessing.wrap_errors.
    intros ex.
    match goal with |- match ?body with _ => _ end = _ -> _ =>
      destruct body as [res|e]; [discriminate|]
    end.
    destruct e; intros E; injection E as <-; eauto.
  - intros [e He]. pose proof (validate_and_clean_raise _ _ _ _ He) as Hkind.
    unfold DataPreprocessing.preprocess_data. rewrite He. cbn [bind].
    unfold DataPreprocessing.wrap_errors. destruct e; try reflexivity.
    exfalso. exact (Hkind _ eq_refl).
Qed.

(** X21.  For a rectangular table and a non-empty target name, the three
    guards of step 2 of [preprocess_data] never fire: the call never fails
    with 'Target column was dropped during validation', 'Target column
    contains only null values' or 'Only a few samples remain', since the
    validator has already failed in those cases. *)
Theorem preprocess_data_guards_never_fire (self : DataPreprocessing.State) (df : DataFrame)
    (target_col : string) (test_size : Q) (use_target_encoder : bool)
    (variance_threshold : Q) (random_state : Z) (ex : exn) :
  well_formed df -> target_col <> ""%string ->
  DataPreprocessing.preprocess_data self df target_col test_size use_target_encoder
    variance_threshold random_state = Raise ex ->
  ex = DataPreprocessingError "Preprocessing failed" \/
  ex = DataPreprocessingError "No valid features found for preprocessing" \/
  ex = DataPreprocessingError "Preprocessing fit failed" \/
  ex = DataPreprocessingError "Test data transform failed".
Proof.
  intros Hwf Hname.
  unfold DataPreprocessing.preprocess_data.
  destruct (DataValidation.validate_and_clean (DataPreprocessing.validator self)
              (Some df) (Some target_col)) as [[cleaned report]|e] eqn:Ev; cbn [bind].
  - destruct (validated_target_facts _ _ _ _ _ Ev Hname)
      as ((s & Hs & Hnotnull) & Hrows).
    destruct (validated_column_names _ _ _ _ _ Ev) as (_ & _ & Hshape & _).
    destruct (Hshape Hwf) as [Hwf' _].
    assert (Series_len s = index_len cleaned) as Hlen.
    { apply lookup_In in Hs. unfold well_formed in Hwf'. rewrite Forall_forall in Hwf'.
      exact (Hwf' _ Hs). }
    assert (existsb isna (values s) = false) as Hany.
    { clear -Hnotnull. induction Hnotnull as [|x l Hx _ IH]; simpl; [reflexivity|].
      now rewrite Hx, IH. }
    assert (forallb isna (values s) = false) as Hall.
    { unfold Series_len in Hlen. destruct (values s) as [|x l]; [simpl in Hlen; lia|].
      simpl in *. apply orb_false_elim in Hany. destruct Hany as [-> _]. reflexivity. }
    rewrite Hs, Hall, Hany.
    replace (index_len (drop_column cleaned target_col) <? 10) with false
      by (symmetry; apply Nat.ltb_ge; exact Hrows).
    match goal with |- context [DataPreprocessing.split_dataset ?X ?y ?pt _ _] =>
      destruct (DataPreprocessing.split_dataset X y pt test_size random_state)
        as [[[[X_train X_test] y_train] y_test]|e] eqn:Esplit; cbn [bind]
    end.
    + destruct (DataPreprocessing.fit_on_train self X_train y_train X_test
                  use_target_encoder variance_threshold) as [[[[a b] f] s1]|e] eqn:Efit;
        cbn [bind]; [discriminate|].
      destruct (fit_on_train_raise _ _ _ _ _ _ _ Efit) as [-> | [-> | ->]];
        intros E; injection E as <-; auto.
    + destruct (split_dataset_raise _ _ _ _ _ _ Esplit) as [msg ->].
      intros E. injection E as <-. auto.
  - pose proof (validate_and_clean_raise _ _ _ _ Ev) as Hkind.
    unfold DataPreprocessing.wrap_errors. destruct e; intros E; injection E as <-; auto.
    exfalso. exact (Hkind _ eq_refl).
Qed.
End PreprocessFacts.

(** ** Model names *)

Section NameFacts.
Context `{Python} `{Database}.

Lemma sanitize_char_allowed (c : ascii) : allowed (TrainingService.sanitize_char c) = true.
Proof.
  unfold TrainingService.sanitize_char. fold (allowed c).
  destruct (allowed c) eqn:E; [assumption|].
  unfold allowed. rewrite orb_true_iff. left. rewrite orb_true_iff. right. reflexivity.
Qed.

Lemma sanitize_char_fixed (c : ascii) :
  allowed c = true -> TrainingService.sanitize_char c = c.
Proof.
  intros Hc. unfold TrainingService.sanitize_char. fold (allowed c). now rewrite Hc.
Qed.

(** X22.  The clean-up of a model name keeps its length, leaves only
    letters, digits, underscores and hyphens, changes nothing in a name that
    is already clean, and is therefore idempotent. *)
Theorem sanitized_name_is_clean (s : string) :
  let s' := TrainingService.string_map TrainingService.sanitize_char s in
  String.length s' = String.length s /\
  Forall (fun c => allowed c = true) (list_ascii_of_string s') /\
  (Forall (fun c => allowed c = true) (list_ascii_of_string s) -> s' = s) /\
  TrainingService.string_map TrainingService.sanitize_char s' = s'.
Proof.
  cbn zeta.
  assert (String.length (TrainingService.string_map TrainingService.sanitize_char s)
          = String.length s) as Hlen
    by (induction s as [|c t IH]; simpl; [reflexivity | now rewrite IH]).
  assert (Forall (fun c => allowed c = true)
            (list_ascii_of_string
               (TrainingService.string_map TrainingService.sanitize_char s))) as Hclean.
  { induction s as [|c t IH]; simpl; constructor.
    - apply sanitize_char_allowed.
    - apply IH. simpl in Hlen. now injection Hlen. }
  assert (forall t, Forall (fun c => allowed c = true) (list_ascii_of_string t) ->
                    TrainingService.string_map TrainingService.sanitize_char t = t) as Hfix.
  { induction t as [|c t IH]; simpl; [reflexivity|].
    intros Hall. inversion Hall as [|? ? Hc Ht]; subst.
    now rewrite (sanitize_char_fixed c Hc), (IH Ht). }
  split; [exact Hlen|]. split; [exact Hclean|]. split; [apply Hfix|].
  apply Hfix. exact Hclean.
Qed.

(** The loop over the counters returns the first free name. *)
Lemma next_free_counter_find (user_id base timestamp : string) :
  forall attempts counter,
    TrainingService.next_free_counter user_id base timestamp attempts counter
    = match find (fun n => negb (TrainingService.check_model_name_exists user_id n))
                 (map (fun k => (base ++ "_" ++ timestamp ++ "_"
                                 ++ TrainingService.decimal k)%string)
                      (seq counter attempts)) with
      | Some n => Ok n
      | None => Raise (ModelTrainingError "Unable to generate unique model name")
      end.
Proof.
  induction attempts as [|a IH]; intros counter; [reflexivity|].
  cbn [TrainingService.next_free_counter seq map find].
  destruct (negb (TrainingService.check_model_name_exists user_id _)); [reflexivity|].
  apply IH.
Qed.

Lemma generate_unique_model_name_find (user_id base_name model_type target_col
    timestamp : string) :
  TrainingService.generate_unique_model_name user_id base_name model_type target_col timestamp
  = match find (fun n => negb (TrainingService.check_model_name_exists user_id n))
               (candidate_names (requested_base base_name model_type target_col)
                                timestamp) with
    | Some n => Ok n
    | None => Raise (ModelTrainingError "Unable to generate unique model name")
    end.
Proof.
  unfold TrainingService.generate_unique_model_name, candidate_names.
  fold (requested_base base_name model_type target_col). cbn [find].
  destruct (negb (TrainingService.check_model_name_exists user_id
                    (requested_base base_name model_type target_col))); [reflexivity|].
  destruct (negb (TrainingService.check_model_name_exists user_id _)); [reflexivity|].
  apply next_free_counter_find.
Qed.

(** X23.  [generate_unique_model_name] returns the first name that the
    check reports free among the cleaned base name, the base name with the
    timestamp, and that with the counters 1 to 100 in order; it raises a
    [ModelTrainingError] exactly when all 102 are taken. *)
Theorem generated_name_is_first_free (user_id base_name model_type target_col
    timestamp : string) :
  TrainingService.generate_unique_model_name user_id base_name model_type target_col timestamp
  = match find (fun n => negb (TrainingService.check_model_name_exists user_id n))
               (candidate_names (requested_base base_name model_type target_col)
                                timestamp) with
    | Some n => Ok n
    | None => Raise (ModelTrainingError "Unable to generate unique model name")
    end /\
  length (candidate_names (requested_base base_name model_type target_col) timestamp) = 102 /\
  ((exists ex, TrainingService.generate_unique_model_name user_id base_name model_type
                 target_col timestamp = Raise ex) <->
   forall n, In n (candidate_names (requested_base base_name model_type target_col)
                                   timestamp) ->
             TrainingService.check_model_name_exists user_id n = true).
Proof.
  split; [apply generate_unique_model_name_find|]. split.
  - unfold candidate_names. cbn [length]. now rewrite length_map, length_seq.
  - rewrite generate_unique_model_name_find.
    destruct (find _ _) as [n|] eqn:Ef.
    + split; [intros [ex Hex]; discriminate|]. intros Hall.
      apply find_some in Ef. destruct Ef as [Hin Hfree].
      rewrite (Hall n Hin) in Hfree. discriminate.
    + split; [|eauto]. intros _ n Hin.
      pose proof (find_none _ _ Ef n Hin) as Hn. now apply negb_false_iff in Hn.
Qed.

(** X24.  A name [generate_unique_model_name] returns is one the check
    reports free, and it starts with the cleaned base name. *)
Theorem generated_name_is_free (user_id base_name model_type target_col timestamp
    name : string) :
  TrainingService.generate_unique_model_name user_id base_name model_type target_col timestamp
  = Ok name ->
  TrainingService.check_model_name_exists user_id name = false /\
  String.prefix (requested_base base_name model_type target_col) name = true.
Proof.
  rewrite generate_unique_model_name_find.
  destruct (find _ _) as [n|] eqn:Ef; [|discriminate].
  intros E. injection E as ->. apply find_some in Ef. destruct Ef as [Hin Hfree].
  split; [now apply negb_true_iff in Hfree|].
  assert (forall a b, String.prefix a (a ++ b) = true) as Hpre.
  { induction a as [|c a IH]; intros b; simpl; [now destruct b|].
    destruct (ascii_dec c c); [apply IH | contradiction]. }
  unfold candidate_names in Hin. destruct Hin as [<- | [<- | Hin]].
  - clear. induction (requested_base base_name model_type target_col) as [|c a IH];
      simpl; [reflexivity|].
    destruct (ascii_dec c c); [apply IH | contradiction].
  - apply Hpre.
  - apply in_map_iff in Hin. destruct Hin as [k [<- _]]. apply Hpre.
Qed.

(** X25.  A failed lookup counts as a free name: when the query for the
    cleaned base name raises, [generate_unique_model_name] returns that name
    without having established that it is unused. *)
Theorem failed_lookup_returns_base_name (user_id base_name model_type target_col
    timestamp : string) (e : exn) :
  select_model_ids user_id (requested_base base_name model_type target_col) = Raise e ->
  TrainingService.check_model_name_exists user_id
    (requested_base base_name model_type target_col) = false /\
  TrainingService.generate_unique_model_name user_id base_name model_type target_col timestamp
  = Ok (requested_base base_name model_type target_col).
Proof.
  intros Hq.
  assert (TrainingService.check_model_name_exists user_id
            (requested_base base_name model_type target_col) = false) as Hfree
    by (unfold TrainingService.check_model_name_exists; now rewrite Hq).
  split; [exact Hfree|].
  unfold TrainingService.generate_unique_model_name.
  fold (requested_base base_name model_type target_col). now rewrite Hfree.
Qed.
End NameFacts.

(** [build_pipeline_routes_every_column] on the table of cities: the city
    is encoded, the identifier removed. *)
Lemma build_pipeline_routes_every_column_witness :
  exists transformers self',
    @DataPreprocessing.build_pipeline ExamplePandas DataPreprocessing.init cities false 0
    = Ok (transformers, self') /\
    exists removed,
      DataPreprocessing.removed_features self' = removed /\
      forall c, In c (column_names cities) ->
                length (filter (mem c) (map snd transformers ++ [removed])) = 1.
Proof.
  destruct (@DataPreprocessing.build_pipeline ExamplePandas DataPreprocessing.init cities
              false 0) as [[transformers self']|ex] eqn:E; [|vm_compute in E; discriminate].
  exists transformers, self'. split; [reflexivity|].
  destruct (@build_pipeline_routes_every_column ExamplePandas _ _ _ _ _ _ E)
    as (removed & Hrem & Hone & _).
  exists removed. split; [exact Hrem | exact Hone].
Defined.



(** [preprocess_data_guards_never_fire] on five rows whose only column is
    the target: the validator fails, and the failure is wrapped. *)
Lemma preprocess_data_guards_never_fire_witness :
  well_formed five_rows /\
  exists ex,
    @DataPreprocessing.preprocess_data ExamplePandas ExampleSklearn DataPreprocessing.init
      five_rows "x" (2 # 10) false 0 42 = Raise ex /\
    (ex = DataPreprocessingError "Preprocessing failed" \/
     ex = DataPreprocessingError "No valid features found for preprocessing" \/
     ex = DataPreprocessingError "Preprocessing fit failed" \/
     ex = DataPreprocessingError "Test data transform failed").
Proof.
  assert (well_formed five_rows) as Hwf by (unfold well_formed; repeat constructor).
  split; [exact Hwf|].
  destruct (@DataPreprocessing.preprocess_data ExamplePandas ExampleSklearn
              DataPreprocessing.init five_rows "x" (2 # 10) false 0 42)
    as [[out self']|ex] eqn:Erun; [vm_compute in Erun; discriminate|].
  exists ex. split; [reflexivity|].
  apply (@preprocess_data_guards_never_fire ExamplePandas ExampleSklearn
           DataPreprocessing.init five_rows "x" (2 # 10) false 0 42 ex Hwf);
    [discriminate | exact Erun].
Defined.

(** [generated_name_is_free]: the name churn is taken, so the name with
    the timestamp is returned. *)
Lemma generated_name_is_free_witness :
  @TrainingService.generate_unique_model_name ExamplePython ExampleDatabase
    "u1" "churn" "random_forest" "left" "20240101_120000" = Ok "churn_20240101_120000" /\
  @TrainingService.check_model_name_exists ExampleDatabase "u1" "churn_20240101_120000"
  = false.
Proof.
  assert (@TrainingService.generate_unique_model_name ExamplePython ExampleDatabase
            "u1" "churn" "random_forest" "left" "20240101_120000"
          = Ok "churn_20240101_120000") as Hgen by (vm_compute; reflexivity).
  split; [exact Hgen|].
  exact (proj1 (@generated_name_is_free ExamplePython ExampleDatabase _ _ _ _ _ _ Hgen)).
Defined.

(** [failed_lookup_returns_base_name]: with the table out of reach, the
    requested name comes back. *)
Lemma failed_lookup_returns_base_name_witness :
  @TrainingService.generate_unique_model_name ExamplePython UnreachableDatabase
    "u1" "churn" "random_forest" "left" "20240101_120000"
  = Ok (@requested_base ExamplePython "churn" "random_forest" "left").
Proof.
  apply (@failed_lookup_returns_base_name ExamplePython UnreachableDatabase
           "u1" "churn" "random_forest" "left" "20240101_120000"
           (ValueError "connection refused")).
  reflexivity.
Defined.

(** ** The mode of the training labels *)

Section ModeFacts.
Import SafeLabelEncoding.
Context {L : Type} `{Label L}.

Lemma np_argmax_from_first (l : list nat) :
  forall pre i best_i best,
    i = length pre -> best_i < i -> nth_error (pre ++ l) best_i = Some best ->
    (forall j c, j < best_i -> nth_error (pre ++ l) j = Some c -> c < best) ->
    (forall j c, best_i <= j -> j < i -> nth_error (pre ++ l) j = Some c -> c <= best) ->
    exists m, nth_error (pre ++ l) (np_argmax_from l i best_i best) = Some m /\
              forall j c, j < np_argmax_from l i best_i best ->
                          nth_error (pre ++ l) j = Some c -> c < m.
Proof.
  induction l as [|c t IH]; intros pre i best_i best Hi Hlt Hbest Hbefore Hafter; simpl.
  - exists best. auto.
  - assert (nth_error (pre ++ c :: t) i = Some c) as Hc.
    { subst i. rewrite nth_error_app2 by lia. now rewrite Nat.sub_diag. }
    replace (pre ++ c :: t) with ((pre ++ [c]) ++ t) in *
      by (rewrite <- app_assoc; reflexivity).
    destruct (best <? c) eqn:E.
    + apply Nat.ltb_lt in E. apply (IH (pre ++ [c]) (S i) i c).
      * rewrite length_app. simpl. lia.
      * lia.
      * assumption.
      * intros j c' Hj Hc'. destruct (Nat.lt_ge_cases j best_i) as [Hlow | Hhigh].
        -- specialize (Hbefore j c' Hlow Hc'). lia.
        -- specialize (Hafter j c' Hhigh Hj Hc'). lia.
      * intros j c' Hj1 Hj2 Hc'. assert (j = i) as -> by lia.
        rewrite Hc in Hc'. injection Hc' as <-. lia.
    + apply Nat.ltb_ge in E. apply (IH (pre ++ [c]) (S i) best_i best).
      * rewrite length_app. simpl. lia.
      * lia.
      * assumption.
      * assumption.
      * intros j c' Hj1 Hj2 Hc'. destruct (Nat.eq_dec j i) as [-> | Hne].
        -- rewrite Hc in Hc'. injection Hc' as <-. assumption.
        -- apply (Hafter j c' Hj1); [lia | assumption].
Qed.

(** [np.argmax] points at the first maximum: every earlier entry is smaller. *)
Lemma np_argmax_first (l : list nat) :
  l <> [] ->
  exists m, nth_error l (np_argmax l) = Some m /\
            forall j c, j < np_argmax l -> nth_error l j = Some c -> c < m.
Proof.
  destruct l as [|c t]; [congruence|]. intros _. unfold np_argmax.
  apply (np_argmax_from_first t [c] 1 0 c); try reflexivity; try lia.
  intros j c' _ Hj Hc'. assert (j = 0) as -> by lia. simpl in Hc'.
  injection Hc' as <-. lia.
Qed.

Lemma sorted_nth_error (cl : list L) :
  StronglySorted label_lt cl ->
  forall i j a b, i < j -> nth_error cl i = Some a -> nth_error cl j = Some b ->
                  label_lt a b.
Proof.
  induction 1 as [|x t Hs IH Hall]; intros i j a b Hij Ha Hb.
  - destruct i; discriminate.
  - destruct j as [|j]; [lia|]. simpl in Hb. destruct i as [|i]; simpl in Ha.
    + injection Ha as <-. rewrite Forall_forall in Hall. apply Hall.
      eapply nth_error_In. eassumption.
    + apply (IH i j); [lia | assumption | assumption].
Qed.

Lemma label_lt_irrefl (a : L) : ~ label_lt a a.
Proof.
  unfold label_lt. intros Hlt.
  assert (label_compare a a = Eq) as E by now apply label_compare_eq.
  congruence.
Qed.

Lemma sorted_index_lt (cl : list L) (i j : nat) (a b : L) :
  StronglySorted label_lt cl ->
  nth_error cl i = Some a -> nth_error cl j = Some b -> label_lt a b -> i < j.
Proof.
  intros Hs Ha Hb Hab. destruct (Nat.lt_trichotomy i j) as [Hlt | [-> | Hgt]].
  - assumption.
  - rewrite Ha in Hb. injection Hb as <-. now apply label_lt_irrefl in Hab.
  - exfalso. pose proof (sorted_nth_error cl Hs j i b a Hgt Hb Ha) as Hba.
    apply (label_lt_irrefl a). unfold label_lt in *.
    now apply (label_compare_trans a b a).
Qed.

(** X26.  The mode [fit] stores is the first of the most frequent training
    labels in sorted order: no label occurs more often, and every label that
    sorts before it occurs strictly less often.  It is the class that unseen
    labels are mapped to under ['use_mode']. *)
Theorem mode_is_first_most_frequent (e0 e : SafeLabelEncoder L) (y : list (option L)) :
  fit e0 y = Ok e ->
  exists m, mode_class_ e = Some m /\ most_frequent m y /\
            forall l, label_lt l m -> occurrences l y < occurrences m y.
Proof.
  intros Hfit. destruct (fit_inv e0 e y Hfit) as (_ & _ & _ & _ & _ & m & Hm & _ & Hmost).
  exists m. split; [assumption|]. split; [assumption|].
  unfold fit in Hfit. destruct (length (dropna y) =? 0) eqn:Elen; [discriminate|].
  injection Hfit as <-. cbn [mode_class_] in Hm.
  set (y_clean := dropna y) in *. set (uniq := np_unique y_clean) in *.
  assert (np_counts uniq y_clean <> []) as Hcne.
  { intros E. apply (f_equal (@length nat)) in E. unfold np_counts in E.
    rewrite length_map in E. simpl in E. apply length_zero_iff_nil in E.
    rewrite E in Hm. destruct (np_argmax _); discriminate. }
  destruct (np_argmax_first _ Hcne) as [mx [Hmx Hfirst]].
  rewrite (occurrences_counts y_clean uniq _ m Hm) in Hmx. injection Hmx as <-.
  intros l Hl. unfold occurrences. fold y_clean.
  destruct (np_contains y_clean l) eqn:Ec.
  - apply np_contains_In in Ec. apply (np_unique_In l y_clean) in Ec. fold uniq in Ec.
    apply In_nth_error in Ec. destruct Ec as [j Hj].
    apply (Hfirst j).
    + exact (sorted_index_lt uniq j _ l m (np_unique_sorted y_clean) Hj Hm Hl).
    + apply (occurrences_counts y_clean uniq j l Hj).
  - assert (~ In l y_clean) as Hnot.
    { intros Hin. apply np_contains_In in Hin. congruence. }
    rewrite (filter_absent l y_clean Hnot). simpl.
    destruct Hmost as [Hin _]. fold y_clean in Hin.
    destruct (filter (label_eqb m) y_clean) as [|x t] eqn:Ef; [|simpl; lia].
    exfalso. assert (In m (filter (label_eqb m) y_clean)) as Hf.
    { apply filter_In. split; [assumption | apply label_eqb_refl]. }
    rewrite Ef in Hf. destruct Hf.
Qed.
End ModeFacts.

(** [mode_is_first_most_frequent]: among b, a, b, a the mode is a. *)
Lemma mode_is_first_most_frequent_witness :
  exists e,
    SafeLabelEncoding.fit (SafeLabelEncoding.init "use_mode" None)
      [Some "b"; Some "a"; Some "b"; Some "a"] = Ok e /\
    SafeLabelEncoding.mode_class_ e = Some "a".
Proof.
  destruct (SafeLabelEncoding.fit (SafeLabelEncoding.init "use_mode" None)
              [Some "b"; Some "a"; Some "b"; Some "a"]) as [e|ex] eqn:Efit;
    [|vm_compute in Efit; discriminate].
  exists e. split; [reflexivity|].
  destruct (mode_is_first_most_frequent _ _ _ Efit) as (m & Hm & _ & _).
  vm_compute in Efit. injection Efit as <-. reflexivity.
Defined.

(** [lenient_encoding_raises_iff] under ['use_encoded_value'], for the
    training labels b, a and the test labels a, null, z. *)
Lemma lenient_encoding_raises_iff_witness :
  exists r,
    SafeLabelEncoding.safe_encode_labels [Some "b"; Some "a"] [Some "a"; None; Some "z"]
      "use_encoded_value" = Ok r /\
    length (SafeLabelEncoding.y_train_encoded r) = 2 /\
    length (SafeLabelEncoding.y_test_encoded r) = 3.
Proof.
  assert ("use_encoded_value" <> "error")%string as Hstrat by discriminate.
  destruct (SafeLabelEncoding.safe_encode_labels [Some "b"; Some "a"]
              [Some "a"; None; Some "z"] "use_encoded_value") as [r|ex] eqn:E;
    [|vm_compute in E; discriminate].
  exists r. split; [reflexivity|].
  exact (proj1 (proj2 (@lenient_encoding_raises_iff string Label_string ExampleNumpy
                         [Some "b"; Some "a"] [Some "a"; None; Some "z"]
                         "use_encoded_value" Hstrat)) r E).
Defined.

(** On object arrays the distribution check comes first: a test vector
    holding a null beside a string makes [_encode_labels_safe] raise, though
    the encoding itself would return. *)
Lemma object_labels_with_null_raise :
  (exists msg,
     @TrainingService._encode_labels_safe string Label_string ExampleNumpy
       [Some "a"] [Some "a"; None] = Raise (TypeError msg)) /\
  is_ok (SafeLabelEncoding.safe_encode_labels [Some "a"] [Some "a"; None] "use_mode") = true.
Proof.
  split; [eexists|]; vm_compute; reflexivity.
Qed.
